(** * Dexscreener memecoin tracker: aggregation, trend and scoring engine

    A shallow embedding of the analytics core of the tracker
    ([PerformanceAnalyzer], [WeeklyReportGenerator], the top-performers
    query and the weekly metrics of [TokenDatabase], the watchlist of
    [PortfolioTracker], the helpers and the pipeline of [main.js]) together
    with the properties its specification states about it and further
    properties of the code.

    Numbers.  JavaScript numbers are modelled by the real numbers [R], so
    arithmetic is exact.  A record may lack its [price] (the launchpad's
    records carry none): the field is an [option], and a figure computed
    from it has type [JS.num], a real or [NaN].  The one infinite value the
    code uses ([Infinity], as the neutral element of a running minimum) has
    its own constructor in [JS.xnum].  Counts (array lengths, [daysActive],
    ranks) are natural numbers and are injected with [INR] where the code
    divides by them.  Objects are records, optional fields are [option]s,
    [Map] and [Set] are insertion-ordered lists as in the language
    definition. *)

From Stdlib Require Import Reals Lra Lia Ascii.
From stdpp Require Import base list strings gmap sorting.

#[global] Instance Rlt_decision : RelDecision Rlt := Rlt_dec.
#[global] Instance Rgt_decision : RelDecision Rgt := Rgt_dec.
#[global] Instance Rle_decision : RelDecision Rle := Rle_dec.
#[global] Instance Rge_decision : RelDecision Rge := Rge_dec.
#[global] Instance Req_decision : EqDecision R := Req_dec_T.

Local Open Scope R_scope.

(** ** JavaScript primitives *)

Module JS.

(** [x || d] on numbers: [0] is the only falsy real. *)
Definition or (x d : R) : R := if decide (x = 0) then d else x.

(** A number or [Infinity]. *)
Inductive xnum : Type :=
| Fin (r : R)
| Infinity.

(** [x || Infinity]. *)
Definition or_Infinity (x : R) : xnum :=
  if decide (x = 0) then Infinity else Fin x.

Definition Math_max (a b : R) : R := Rmax a b.
Definition Math_min (a b : R) : R := Rmin a b.

(** [Math.min(a, b)] where [b] may be [Infinity]. *)
Definition Math_min_x (a : R) (b : xnum) : R :=
  match b with
  | Fin y => Rmin a y
  | Infinity => a
  end.

Definition Math_pow (x : R) (n : nat) : R := x ^ n.
Definition Math_sqrt (x : R) : R := sqrt x.

(** A computed number that may be [NaN]. *)
Inductive num : Type :=
| Num (x : R)
| NaN.

(** The number a field that may be absent converts to: [undefined] gives
    [NaN]. *)
Definition ToNumber (v : option R) : num :=
  match v with
  | Some x => Num x
  | None => NaN
  end.

(** Arithmetic with a [NaN] operand gives [NaN]. *)
Definition lift2 (op : R -> R -> R) (a b : num) : num :=
  match a, b with
  | Num x, Num y => Num (op x y)
  | _, _ => NaN
  end.

Definition add : num -> num -> num := lift2 Rplus.
Definition sub : num -> num -> num := lift2 Rminus.
Definition mul : num -> num -> num := lift2 Rmult.
Definition div : num -> num -> num := lift2 Rdiv.

(** [a > c] and [a <= c]: every comparison with [NaN] is false. *)
Definition gt (a : num) (c : R) : Prop :=
  match a with
  | Num x => x > c
  | NaN => False
  end.

Definition le (a : num) (c : R) : Prop :=
  match a with
  | Num x => x <= c
  | NaN => False
  end.

(** [a >= b] for two numbers that may be [NaN]. *)
Definition geq (a b : num) : Prop :=
  match a, b with
  | Num x, Num y => x >= y
  | _, _ => False
  end.

(** [v > c] for a field that may be absent: [undefined > c] is false. *)
Definition field_gt (v : option R) (c : R) : Prop := gt (ToNumber v) c.

(** [v || d] for a field that may be absent. *)
Definition or_field (v : option R) (d : R) : R :=
  match v with
  | Some x => or x d
  | None => d
  end.

#[global] Instance num_eq_decision : EqDecision num.
Proof. solve_decision. Defined.

#[global] Instance gt_decision (a : num) (c : R) : Decision (gt a c).
Proof. destruct a; simpl; apply _. Defined.

#[global] Instance le_decision (a : num) (c : R) : Decision (le a c).
Proof. destruct a; simpl; apply _. Defined.

#[global] Instance field_gt_decision (v : option R) (c : R)
  : Decision (field_gt v c).
Proof. unfold field_gt. apply _. Defined.

(** What [sort] makes of the value of a comparator: [NaN] counts as [+0]. *)
Definition comparator (v : num) : R :=
  match v with
  | Num x => x
  | NaN => 0
  end.

(** [a || s] on strings: [undefined] and the empty string are falsy. *)
Definition or_str (a : option string) (s : string) : string :=
  match a with
  | Some x => if decide (x = EmptyString) then s else x
  | None => s
  end.

(** [values.reduce((a, b) => a + b, 0)]. *)
Definition sum (values : list R) : R := fold_left Rplus values 0.

(** [arr.slice(-n)]: the last [n] elements. *)
Definition slice_last {A} (n : nat) (l : list A) : list A :=
  drop (length l - n)%nat l.

(** [arr.slice(0, limit)]. *)
Definition slice0 {A} (limit : nat) (l : list A) : list A := take limit l.

(** [Array.prototype.sort(cmp)].  The language requires the sort to be
    stable; for a consistent comparator the result is then determined, and
    it is computed here by stable insertion: [x] goes in front of the first
    element it does not have to follow.  Where a [NaN] among the values
    compared makes the comparator inconsistent, the language only promises
    a rearrangement of the array: what is proved below of the order of a
    sorted array is proved for arrays without such a value. *)
Fixpoint sort_insert {A} (cmp : A -> A -> R) (x : A) (l : list A) : list A :=
  match l with
  | [] => [x]
  | y :: l' =>
      if decide (cmp x y <= 0) then x :: y :: l'
      else y :: sort_insert cmp x l'
  end.

Definition sort {A} (cmp : A -> A -> R) (l : list A) : list A :=
  foldr (sort_insert cmp) [] l.

(** [Set] of strings: the distinct elements in insertion order. *)
Module Set_.
Definition t := list string.
Definition has (k : string) (s : t) : bool := bool_decide (k ∈ s).
Definition add (s : t) (k : string) : t := if has k s then s else s ++ [k].
Definition from (l : list string) : t := fold_left add l [].
Definition size (s : t) : nat := length s.
End Set_.

(** [Map] with string keys: the entries in insertion order. *)
Module Map_.
Definition t (V : Type) := list (string * V).

Fixpoint get {V} (k : string) (m : t V) : option V :=
  match m with
  | [] => None
  | (k', v) :: m' => if decide (k' = k) then Some v else get k m'
  end.

Definition has {V} (k : string) (m : t V) : bool :=
  match get k m with Some _ => true | None => false end.

Fixpoint set {V} (k : string) (v : V) (m : t V) : t V :=
  match m with
  | [] => [(k, v)]
  | (k', v') :: m' =>
      if decide (k' = k) then (k, v) :: m' else (k', v') :: set k v m'
  end.

Definition values {V} (m : t V) : list V := m.*2.
End Map_.

End JS.

(** ** Data model *)

(** One asset's metrics in a snapshot, as built by [extractTokenMetrics],
    or a launchpad record, which has no [price]. *)
Module Token.
Record t : Type := mk {
  address : option string;
  symbol : string;
  name : string;
  price : option R;
  volume24h : R;
  marketCap : R;
  liquidity : R;
  priceChange24h : R;
  transactions24h : R;
  buys24h : R;
  sells24h : R;
  isFromLetsBonk : bool;
  daysSinceLaunch : option R
}.

(** [token.address || token.symbol], the key every join uses. *)
Definition key (token : t) : string := JS.or_str (address token) (symbol token).
End Token.

(** One stored snapshot; [tokens] may be absent in a damaged file. *)
Module DayData.
Record t : Type := mk {
  date : string;
  tokens : option (list Token.t)
}.
End DayData.

(** ** utils/helpers.js *)

Module Helpers.
Definition calculatePercentageChange (current previous : R) : R :=
  if decide (previous = 0) then 0
  else (current - previous) / previous * 100.
End Helpers.

(** ** PerformanceAnalyzer *)

Module PerformanceAnalyzer.

Record PricePerformance : Type := {
  pp_current : option R;
  change24h : R
}.

Record VolumeMetrics : Type := {
  current24h : R;
  volumeToMcapRatio : R
}.

Record LiquidityMetrics : Type := {
  currentLiquidity : R;
  liquidityHealth : string
}.

Record TradingMetrics : Type := {
  tm_transactions24h : R;
  tm_buys24h : R;
  tm_sells24h : R;
  buyToSellRatio : R;
  avgTransactionSize : R
}.

(** The metrics blocks, with the fields that scoring reads and their
    neighbours; [marketCapMetrics] and the optional [historicalTrends] are
    not read by it and are left out. *)
Record PerformanceMetrics : Type := {
  pricePerformance : PricePerformance;
  volumeMetrics : VolumeMetrics;
  liquidityMetrics : LiquidityMetrics;
  tradingMetrics : TradingMetrics
}.

(** The two shapes of object [calculateSustainability] returns. *)
Inductive Sustainability : Type :=
| InsufficientData (score : R) (factors : list string) (overall : string)
| Assessed (volumeConsistency liquidityStability priceStability : R)
           (overall : string).

Record Analysis : Type := mkAnalysis {
  current : Token.t;
  performance : PerformanceMetrics;
  sustainability : Sustainability;
  score : R;
  rank : nat
}.

Definition assessLiquidityHealth (liquidity marketCap : R) : string :=
  if decide (liquidity = 0) then "unknown"
  else if decide (marketCap = 0) then "unknown"
  else
    let ratio := liquidity / marketCap * 100 in
    if decide (ratio > 10) then "healthy"
    else if decide (ratio > 5) then "moderate"
    else if decide (ratio > 1) then "low"
    else "poor".

Definition calculateBuyToSellRatio (buys sells : R) : R :=
  if decide (sells = 0) then (if decide (buys > 0) then 10 else 1)
  else buys / sells.

Definition calculatePerformanceMetrics (current : Token.t) : PerformanceMetrics :=
  {| pricePerformance :=
       {| pp_current := Token.price current;
          change24h := JS.or (Token.priceChange24h current) 0 |};
     volumeMetrics :=
       {| current24h := JS.or (Token.volume24h current) 0;
          volumeToMcapRatio :=
            if decide (Token.marketCap current > 0)
            then Token.volume24h current / Token.marketCap current * 100
            else 0 |};
     liquidityMetrics :=
       {| currentLiquidity := JS.or (Token.liquidity current) 0;
          liquidityHealth :=
            assessLiquidityHealth (Token.liquidity current) (Token.marketCap current) |};
     tradingMetrics :=
       {| tm_transactions24h := JS.or (Token.transactions24h current) 0;
          tm_buys24h := JS.or (Token.buys24h current) 0;
          tm_sells24h := JS.or (Token.sells24h current) 0;
          buyToSellRatio :=
            calculateBuyToSellRatio (Token.buys24h current) (Token.sells24h current);
          avgTransactionSize :=
            if decide (Token.volume24h current = 0) then 0
            else if decide (Token.transactions24h current = 0) then 0
            else Token.volume24h current / Token.transactions24h current |} |}.

Definition calculatePerformanceScore (analysis : Analysis) : R :=
  let score := 50 in
  let priceChange24h :=
    JS.or (change24h (pricePerformance (performance analysis))) 0 in
  let score :=
    score + JS.Math_min (JS.Math_max (priceChange24h * 0.5) (-25)) 25 in
  let volumeRatio :=
    JS.or (volumeToMcapRatio (volumeMetrics (performance analysis))) 0 in
  let score := score + JS.Math_min (volumeRatio * 0.3) 15 in
  let liquidityHealth :=
    liquidityHealth (liquidityMetrics (performance analysis)) in
  let score :=
    if decide (liquidityHealth = "healthy") then score + 10
    else if decide (liquidityHealth = "moderate") then score + 5
    else if decide (liquidityHealth = "poor") then score - 10
    else score in
  let buyToSellRatio :=
    JS.or (buyToSellRatio (tradingMetrics (performance analysis))) 1 in
  let score :=
    if decide (buyToSellRatio > 1.2) then score + 5
    else if decide (buyToSellRatio < 0.8) then score - 5
    else score in
  JS.Math_max 0 (JS.Math_min 100 score).

Definition calculateConsistency (values : list R) : R :=
  if (length values <? 2)%nat then 0
  else
    let mean := JS.sum values / INR (length values) in
    let variance :=
      fold_left (fun a b => a + JS.Math_pow (b - mean) 2) values 0
      / INR (length values) in
    let stdDev := JS.Math_sqrt variance in
    if decide (mean > 0) then 1 - stdDev / mean else 0.

(** The loop of [calculateVolatility]: one simple return per consecutive
    pair whose earlier price is positive. *)
Fixpoint returns_of (prices : list R) : list R :=
  match prices with
  | p0 :: ((p1 :: _) as rest) =>
      if decide (p0 > 0) then (p1 - p0) / p0 :: returns_of rest
      else returns_of rest
  | _ => []
  end.

Definition calculateVolatility (prices : list R) : R :=
  if (length prices <? 2)%nat then 0
  else
    let returns := returns_of prices in
    if (length returns =? 0)%nat then 0
    else
      let mean := JS.sum returns / INR (length returns) in
      let variance :=
        fold_left (fun a b => a + JS.Math_pow (b - mean) 2) returns 0
        / INR (length returns) in
      JS.Math_sqrt variance * 100.

Definition calculateVolumeConsistency
    (current : Token.t) (historical : list Token.t) : R :=
  let volumes :=
    map (fun h => JS.or (Token.volume24h h) 0) (JS.slice_last 7 historical) in
  let volumes := volumes ++ [JS.or (Token.volume24h current) 0] in
  calculateConsistency volumes.

Definition calculateLiquidityStability
    (current : Token.t) (historical : list Token.t) : R :=
  let liquidities :=
    map (fun h => JS.or (Token.liquidity h) 0) (JS.slice_last 7 historical) in
  let liquidities := liquidities ++ [JS.or (Token.liquidity current) 0] in
  calculateConsistency liquidities.

Definition calculatePriceStability
    (current : Token.t) (historical : list Token.t) : R :=
  let prices :=
    map (fun h => JS.or_field (Token.price h) 0)
        (JS.slice_last 7 historical) in
  let prices := prices ++ [JS.or_field (Token.price current) 0] in
  let volatility := calculateVolatility prices in
  JS.Math_max 0 (1 - volatility / 100).

Definition calculateSustainability
    (current : Token.t) (historical : list Token.t) : Sustainability :=
  if (length historical <? 3)%nat then
    InsufficientData 0.5 ["insufficient_data"] "unknown"
  else
    let volumeConsistency := calculateVolumeConsistency current historical in
    let liquidityStability := calculateLiquidityStability current historical in
    let priceStability := calculatePriceStability current historical in
    let avgScore :=
      (volumeConsistency + liquidityStability + priceStability) / 3 in
    let overall :=
      if decide (avgScore > 0.7) then "high"
      else if decide (avgScore < 0.3) then "low"
      else "moderate" in
    Assessed volumeConsistency liquidityStability priceStability overall.

Definition set_score (analysis : Analysis) (s : R) : Analysis :=
  mkAnalysis (current analysis) (performance analysis)
             (sustainability analysis) s (rank analysis).

Definition set_rank (analysis : Analysis) (r : nat) : Analysis :=
  mkAnalysis (current analysis) (performance analysis)
             (sustainability analysis) (score analysis) r.

(** The momentum, strength and alert blocks of the analysis are not read
    by scoring or ranking and are left out of the record. *)
Definition analyzeTokenPerformance
    (currentData : Token.t) (historicalData : list Token.t) : Analysis :=
  let analysis :=
    mkAnalysis currentData
               (calculatePerformanceMetrics currentData)
               (calculateSustainability currentData historicalData)
               0 0 in
  set_score analysis (calculatePerformanceScore analysis).

Definition rankTokens (tokenAnalyses : list Analysis) : list Analysis :=
  let sorted := JS.sort (fun a b => score b - score a) tokenAnalyses in
  imap (fun index analysis => set_rank analysis (index + 1)) sorted.

End PerformanceAnalyzer.

(** ** WeeklyReportGenerator *)

(** One entry of an asset's [dailyData]. *)
Module DailyPoint.
Record t : Type := mk {
  date : string;
  price : option R;
  volume24h : R;
  marketCap : R;
  priceChange24h : R
}.
End DailyPoint.

(** The accumulator kept per asset in [tokenMap]: the fields of the record
    that created it ([...token]) and the running figures.  The last two
    fields are only written by the final [map]. *)
Module Aggregated.
Record t : Type := mk {
  token : Token.t;
  dailyData : list DailyPoint.t;
  firstSeen : string;
  lastSeen : string;
  daysActive : nat;
  avgVolume : R;
  avgMarketCap : R;
  maxMarketCap : R;
  minMarketCap : R;
  totalVolumeWeek : R;
  weeklyGrowth : JS.num;
  volumeConsistency : option R;
  priceVolatility : option R
}.
End Aggregated.

(** An entry of the list [getTopWeeklyPerformers] returns. *)
Module WeeklyPerformer.
Record t : Type := mk {
  symbol : string;
  name : string;
  weeklyGrowth : JS.num;
  avgVolume : R;
  maxMarketCap : R;
  daysActive : nat;
  isFromLetsBonk : bool;
  volumeConsistency : option R;
  priceVolatility : option R
}.
End WeeklyPerformer.

(** The object [analyzeSurvivalRates] returns. *)
Module Survival.
Record t : Type := mk {
  startingTokens : nat;
  endingTokens : nat;
  survived : nat;
  dropped : nat;
  newEntrants : nat;
  survivalRate : R
}.
End Survival.

Module WeeklyReportGenerator.

(** The object stored by [tokenMap.set(key, {...})]. *)
Definition create (dayData : DayData.t) (token : Token.t) : Aggregated.t :=
  {| Aggregated.token := token;
     Aggregated.dailyData := [];
     Aggregated.firstSeen := DayData.date dayData;
     Aggregated.lastSeen := DayData.date dayData;
     Aggregated.daysActive := 0;
     Aggregated.avgVolume := 0;
     Aggregated.avgMarketCap := 0;
     Aggregated.maxMarketCap := JS.or (Token.marketCap token) 0;
     Aggregated.minMarketCap := JS.or (Token.marketCap token) 0;
     Aggregated.totalVolumeWeek := 0;
     Aggregated.weeklyGrowth := JS.Num 0;
     Aggregated.volumeConsistency := None;
     Aggregated.priceVolatility := None |}.

(** The updates made to [existing] for one record of one day. *)
Definition observe (dayData : DayData.t) (token : Token.t)
    (existing : Aggregated.t) : Aggregated.t :=
  let dailyData :=
    Aggregated.dailyData existing ++
    [ {| DailyPoint.date := DayData.date dayData;
         DailyPoint.price := Token.price token;
         DailyPoint.volume24h := Token.volume24h token;
         DailyPoint.marketCap := Token.marketCap token;
         DailyPoint.priceChange24h := Token.priceChange24h token |} ] in
  let lastSeen := DayData.date dayData in
  let daysActive := S (Aggregated.daysActive existing) in
  let maxMarketCap :=
    JS.Math_max (Aggregated.maxMarketCap existing)
                (JS.or (Token.marketCap token) 0) in
  let minMarketCap :=
    JS.Math_min_x (Aggregated.minMarketCap existing)
                  (JS.or_Infinity (Token.marketCap token)) in
  let totalVolumeWeek :=
    Aggregated.totalVolumeWeek existing + JS.or (Token.volume24h token) 0 in
  let weeklyGrowth :=
    if (1 <? length dailyData)%nat then
      match dailyData with
      | d0 :: _ =>
          let firstPrice := DailyPoint.price d0 in
          let currentPrice := Token.price token in
          if decide (JS.field_gt firstPrice 0)
          then JS.mul
                 (JS.div (JS.sub (JS.ToNumber currentPrice)
                                 (JS.ToNumber firstPrice))
                         (JS.ToNumber firstPrice))
                 (JS.Num 100)
          else JS.Num 0
      | [] => Aggregated.weeklyGrowth existing
      end
    else Aggregated.weeklyGrowth existing in
  {| Aggregated.token := Aggregated.token existing;
     Aggregated.dailyData := dailyData;
     Aggregated.firstSeen := Aggregated.firstSeen existing;
     Aggregated.lastSeen := lastSeen;
     Aggregated.daysActive := daysActive;
     Aggregated.avgVolume := Aggregated.avgVolume existing;
     Aggregated.avgMarketCap := Aggregated.avgMarketCap existing;
     Aggregated.maxMarketCap := maxMarketCap;
     Aggregated.minMarketCap := minMarketCap;
     Aggregated.totalVolumeWeek := totalVolumeWeek;
     Aggregated.weeklyGrowth := weeklyGrowth;
     Aggregated.volumeConsistency := Aggregated.volumeConsistency existing;
     Aggregated.priceVolatility := Aggregated.priceVolatility existing |}.

(** The body of the inner [forEach]. *)
Definition aggregate_token (dayData : DayData.t)
    (tokenMap : JS.Map_.t Aggregated.t) (token : Token.t)
    : JS.Map_.t Aggregated.t :=
  let key := Token.key token in
  let tokenMap :=
    if negb (JS.Map_.has key tokenMap)
    then JS.Map_.set key (create dayData token) tokenMap
    else tokenMap in
  match JS.Map_.get key tokenMap with
  | Some existing =>
      JS.Map_.set key (observe dayData token existing) tokenMap
  | None => tokenMap
  end.

(** The body of the outer [forEach]. *)
Definition aggregate_day (tokenMap : JS.Map_.t Aggregated.t)
    (dayData : DayData.t) : JS.Map_.t Aggregated.t :=
  match DayData.tokens dayData with
  | Some tokens => fold_left (aggregate_token dayData) tokens tokenMap
  | None => tokenMap
  end.

Definition calculateVolumeConsistency (dailyData : list DailyPoint.t) : R :=
  if (length dailyData <? 2)%nat then 0
  else
    let volumes :=
      filter (fun v => v > 0)
             (map (fun d => JS.or (DailyPoint.volume24h d) 0) dailyData) in
    if (length volumes =? 0)%nat then 0
    else
      let mean := JS.sum volumes / INR (length volumes) in
      let variance :=
        fold_left (fun a b => a + JS.Math_pow (b - mean) 2) volumes 0
        / INR (length volumes) in
      let stdDev := JS.Math_sqrt variance in
      if decide (mean > 0) then JS.Math_max 0 (1 - stdDev / mean) else 0.

Fixpoint returns_of (prices : list R) : list R :=
  match prices with
  | p0 :: ((p1 :: _) as rest) =>
      if decide (p0 > 0) then (p1 - p0) / p0 :: returns_of rest
      else returns_of rest
  | _ => []
  end.

Definition calculatePriceVolatility (dailyData : list DailyPoint.t) : R :=
  if (length dailyData <? 2)%nat then 0
  else
    let prices :=
      filter (fun p => p > 0)
             (map (fun d => JS.or_field (DailyPoint.price d) 0) dailyData) in
    if (length prices <? 2)%nat then 0
    else
      let returns := returns_of prices in
      if (length returns =? 0)%nat then 0
      else
        let mean := JS.sum returns / INR (length returns) in
        let variance :=
          fold_left (fun a b => a + JS.Math_pow (b - mean) 2) returns 0
          / INR (length returns) in
        JS.Math_sqrt variance * 100.

(** The function mapped over [tokenMap.values()]. *)
Definition finalize (token : Aggregated.t) : Aggregated.t :=
  {| Aggregated.token := Aggregated.token token;
     Aggregated.dailyData := Aggregated.dailyData token;
     Aggregated.firstSeen := Aggregated.firstSeen token;
     Aggregated.lastSeen := Aggregated.lastSeen token;
     Aggregated.daysActive := Aggregated.daysActive token;
     Aggregated.avgVolume :=
       Aggregated.totalVolumeWeek token / INR (Aggregated.daysActive token);
     Aggregated.avgMarketCap :=
       fold_left (fun sum day => sum + JS.or (DailyPoint.marketCap day) 0)
                 (Aggregated.dailyData token) 0
       / INR (length (Aggregated.dailyData token));
     Aggregated.maxMarketCap := Aggregated.maxMarketCap token;
     Aggregated.minMarketCap := Aggregated.minMarketCap token;
     Aggregated.totalVolumeWeek := Aggregated.totalVolumeWeek token;
     Aggregated.weeklyGrowth := Aggregated.weeklyGrowth token;
     Aggregated.volumeConsistency :=
       Some (calculateVolumeConsistency (Aggregated.dailyData token));
     Aggregated.priceVolatility :=
       Some (calculatePriceVolatility (Aggregated.dailyData token)) |}.

Definition aggregateWeeklyTokenData (weeklyData : list DayData.t)
    : list Aggregated.t :=
  let tokenMap := fold_left aggregate_day weeklyData [] in
  map finalize (JS.Map_.values tokenMap).

Definition getTopWeeklyPerformers (tokens : list Aggregated.t) (limit : nat)
    : list WeeklyPerformer.t :=
  map (fun token =>
         {| WeeklyPerformer.symbol := Token.symbol (Aggregated.token token);
            WeeklyPerformer.name := Token.name (Aggregated.token token);
            WeeklyPerformer.weeklyGrowth := Aggregated.weeklyGrowth token;
            WeeklyPerformer.avgVolume := Aggregated.avgVolume token;
            WeeklyPerformer.maxMarketCap := Aggregated.maxMarketCap token;
            WeeklyPerformer.daysActive := Aggregated.daysActive token;
            WeeklyPerformer.isFromLetsBonk :=
              Token.isFromLetsBonk (Aggregated.token token);
            WeeklyPerformer.volumeConsistency :=
              Aggregated.volumeConsistency token;
            WeeklyPerformer.priceVolatility :=
              Aggregated.priceVolatility token |})
      (JS.slice0 limit
         (JS.sort (fun a b =>
                     JS.comparator (JS.sub (Aggregated.weeklyGrowth b)
                                           (Aggregated.weeklyGrowth a)))
            (filter (fun token => (3 <= Aggregated.daysActive token)%nat)
                    tokens))).

Definition analyzeSurvivalRates (weeklyData : list DayData.t)
    : option Survival.t :=
  if (length weeklyData <? 2)%nat then None
  else
    match head weeklyData, last weeklyData with
    | Some firstDay, Some lastDay =>
        match DayData.tokens firstDay, DayData.tokens lastDay with
        | Some firstTokens, Some lastTokens =>
            let firstDayTokens := JS.Set_.from (map Token.key firstTokens) in
            let lastDayTokens := JS.Set_.from (map Token.key lastTokens) in
            let survived :=
              List.filter (fun token => JS.Set_.has token lastDayTokens)
                          firstDayTokens in
            let newEntrants :=
              List.filter (fun token => negb (JS.Set_.has token firstDayTokens))
                          lastDayTokens in
            Some {| Survival.startingTokens := JS.Set_.size firstDayTokens;
                    Survival.endingTokens := JS.Set_.size lastDayTokens;
                    Survival.survived := length survived;
                    Survival.dropped :=
                      (JS.Set_.size firstDayTokens - length survived)%nat;
                    Survival.newEntrants := length newEntrants;
                    Survival.survivalRate :=
                      if (0 <? JS.Set_.size firstDayTokens)%nat
                      then INR (length survived)
                           / INR (JS.Set_.size firstDayTokens) * 100
                      else 0 |}
        | _, _ => None
        end
    | _, _ => None
    end.

(** The state of the [for] loop of [calculateTrend]. *)
Record TrendSums : Type := {
  sumX : R;
  sumY : R;
  sumXY : R;
  sumXX : R
}.

(** The loop from index [i] on, over the values not yet visited. *)
Fixpoint trend_loop (i : nat) (rest : list R) (s : TrendSums) : TrendSums :=
  match rest with
  | [] => s
  | v :: rest' =>
      trend_loop (S i) rest'
        {| sumX := sumX s + INR i;
           sumY := sumY s + v;
           sumXY := sumXY s + INR i * v;
           sumXX := sumXX s + INR i * INR i |}
  end.

Definition calculateTrend (values : list R) : R :=
  if (length values <? 2)%nat then 0
  else
    let n := INR (length values) in
    let s := trend_loop 0 values
               {| sumX := 0; sumY := 0; sumXY := 0; sumXX := 0 |} in
    let slope :=
      (n * sumXY s - sumX s * sumY s) / (n * sumXX s - sumX s * sumX s) in
    slope.

End WeeklyReportGenerator.

(** ** TokenDatabase *)

(** The accumulator kept per asset in [tokenPerformance]. *)
Module Perf.
Record t : Type := mk {
  token : Token.t;
  firstPrice : option R;
  lastPrice : option R;
  totalVolume : R;
  daysActive : nat;
  maxMarketCap : R
}.
End Perf.

(** An entry of the list [getTopPerformers] returns: the latest record of
    the asset ([...perf.token]) and the figures of the period. *)
Module Performer.
Record t : Type := mk {
  token : Token.t;
  periodGrowth : JS.num;
  avgDailyVolume : R;
  daysActive : nat;
  maxMarketCap : R
}.
End Performer.

Module TokenDatabase.

Definition create (token : Token.t) : Perf.t :=
  {| Perf.token := token;
     Perf.firstPrice := Token.price token;
     Perf.lastPrice := Token.price token;
     Perf.totalVolume := 0;
     Perf.daysActive := 0;
     Perf.maxMarketCap := JS.or (Token.marketCap token) 0 |}.

Definition observe (token : Token.t) (perf : Perf.t) : Perf.t :=
  {| Perf.token := token;
     Perf.firstPrice := Perf.firstPrice perf;
     Perf.lastPrice := Token.price token;
     Perf.totalVolume := Perf.totalVolume perf + JS.or (Token.volume24h token) 0;
     Perf.daysActive := S (Perf.daysActive perf);
     Perf.maxMarketCap :=
       JS.Math_max (Perf.maxMarketCap perf) (JS.or (Token.marketCap token) 0) |}.

(** The body of the inner [for] loop. *)
Definition track_token (tokenPerformance : JS.Map_.t Perf.t) (token : Token.t)
    : JS.Map_.t Perf.t :=
  let key := Token.key token in
  let tokenPerformance :=
    if negb (JS.Map_.has key tokenPerformance)
    then JS.Map_.set key (create token) tokenPerformance
    else tokenPerformance in
  match JS.Map_.get key tokenPerformance with
  | Some perf => JS.Map_.set key (observe token perf) tokenPerformance
  | None => tokenPerformance
  end.

(** The body of the outer [for] loop; [dayData.tokens || []]. *)
Definition track_day (tokenPerformance : JS.Map_.t Perf.t)
    (dayData : DayData.t) : JS.Map_.t Perf.t :=
  fold_left track_token (default [] (DayData.tokens dayData)) tokenPerformance.

Definition to_performer (perf : Perf.t) : Performer.t :=
  {| Performer.token := Perf.token perf;
     Performer.periodGrowth :=
       if decide (JS.field_gt (Perf.firstPrice perf) 0)
       then JS.mul
              (JS.div (JS.sub (JS.ToNumber (Perf.lastPrice perf))
                              (JS.ToNumber (Perf.firstPrice perf)))
                      (JS.ToNumber (Perf.firstPrice perf)))
              (JS.Num 100)
       else JS.Num 0;
     Performer.avgDailyVolume :=
       Perf.totalVolume perf / INR (Perf.daysActive perf);
     Performer.daysActive := Perf.daysActive perf;
     Performer.maxMarketCap := Perf.maxMarketCap perf |}.

(** [getTopPerformers(days, limit)] after its range query has returned
    [historicalData]. *)
Definition getTopPerformers (historicalData : list DayData.t)
    (days limit : nat) : list Performer.t :=
  if (length historicalData =? 0)%nat then []
  else
    let tokenPerformance := fold_left track_day historicalData [] in
    JS.slice0 limit
      (JS.sort (fun a b =>
                  JS.comparator (JS.sub (Performer.periodGrowth b)
                                        (Performer.periodGrowth a)))
         (map to_performer
            (filter (fun perf =>
                       INR (Perf.daysActive perf)
                       >= JS.Math_min (INR days * 0.5) 3)
                    (JS.Map_.values tokenPerformance)))).

End TokenDatabase.

(** ** utils/helpers.js, continued *)

Module Format.

Section Formatting.

(** [num.toFixed(digits)], the decimal rendering of a number, is taken as
    given. *)
Variable toFixed : R -> nat -> string.

Definition formatNumber (num : R) : string :=
  if decide (num >= 1000000000) then toFixed (num / 1000000000) 2 +:+ "B"
  else if decide (num >= 1000000) then toFixed (num / 1000000) 2 +:+ "M"
  else if decide (num >= 1000) then toFixed (num / 1000) 2 +:+ "K"
  else toFixed num 2.

Definition formatPercentage (num : R) : string :=
  (if decide (num >= 0) then "+" else "") +:+ toFixed num 2 +:+ "%".

End Formatting.

(** One of the character ranges of a regular-expression class. *)
Definition in_range (lo hi c : Ascii.ascii) : bool :=
  (Ascii.nat_of_ascii lo <=? Ascii.nat_of_ascii c)%nat
  && (Ascii.nat_of_ascii c <=? Ascii.nat_of_ascii hi)%nat.

(** The class [[1-9A-HJ-NP-Za-km-z]]. *)
Definition address_char (c : Ascii.ascii) : bool :=
  (in_range "1" "9" c || in_range "A" "H" c || in_range "J" "N" c
   || in_range "P" "Z" c || in_range "a" "k" c || in_range "m" "z" c)%char.

(** [/^[1-9A-HJ-NP-Za-km-z]{32,44}$/.test(address)]. *)
Definition isValidSolanaAddress (address : string) : bool :=
  (32 <=? String.length address)%nat
  && (String.length address <=? 44)%nat
  && forallb address_char (String.list_ascii_of_string address).

End Format.

(** ** PerformanceAnalyzer, continued: trends, alerts, recommendation *)

Module Analyzer.

(** The loop of [isIncreasingTrend]: the number of values greater than
    their predecessor. *)
Fixpoint count_increases (values : list R) : nat :=
  match values with
  | v0 :: ((v1 :: _) as rest) =>
      ((if decide (v1 > v0)%R then 1 else 0) + count_increases rest)%nat
  | _ => 0%nat
  end.

Definition isIncreasingTrend (values : list R) : bool :=
  if (length values <? 2)%nat then false
  else
    let increases := count_increases values in
    bool_decide (INR increases / (INR (length values) - 1) > 0.6).

Definition categorizeMomentum (change : R) : string :=
  if decide (change > 50) then "very_bullish"
  else if decide (change > 20) then "bullish"
  else if decide (change > 5) then "slightly_bullish"
  else if decide (change > -5) then "neutral"
  else if decide (change > -20) then "slightly_bearish"
  else if decide (change > -50) then "bearish"
  else "very_bearish".

Definition categorizeVolume (volume marketCap : R) : string :=
  if decide (marketCap = 0) then "unknown"
  else
    let ratio := volume / marketCap * 100 in
    if decide (ratio > 100) then "extremely_high"
    else if decide (ratio > 50) then "very_high"
    else if decide (ratio > 20) then "high"
    else if decide (ratio > 5) then "moderate"
    else if decide (ratio > 1) then "low"
    else "very_low".

(** The table [scores] of [getMomentumScore]. *)
Definition scores : list (string * R) :=
  [ ("very_bullish", 1); ("bullish", 0.7); ("slightly_bullish", 0.3);
    ("neutral", 0); ("slightly_bearish", -0.3); ("bearish", -0.7);
    ("very_bearish", -1); ("extremely_high", 1); ("very_high", 0.8);
    ("high", 0.6); ("moderate", 0.3); ("low", -0.2); ("very_low", -0.5);
    ("unknown", 0) ].

(** [scores[momentum] || 0]; a label that is not in the table reads as
    [undefined]. *)
Definition getMomentumScore (momentum : string) : R :=
  match JS.Map_.get momentum scores with
  | Some s => JS.or s 0
  | None => 0
  end.

Record Momentum : Type := {
  price : string;
  volume : string;
  overall : string
}.

Definition calculateMomentum (current : Token.t) : Momentum :=
  let price := categorizeMomentum (JS.or (Token.priceChange24h current) 0) in
  let volume :=
    categorizeVolume (JS.or (Token.volume24h current) 0)
                     (JS.or (Token.marketCap current) 0) in
  let priceScore := getMomentumScore price in
  let volumeScore := getMomentumScore volume in
  let avgScore := (priceScore + volumeScore) / 2 in
  {| price := price;
     volume := volume;
     overall :=
       if decide (avgScore > 0.6) then "bullish"
       else if decide (avgScore < -0.6) then "bearish"
       else "neutral" |}.

Definition assessTradingActivity (transactions volume : R) : string :=
  if decide (transactions = 0) then "inactive"
  else
    let avgTransactionSize := volume / transactions in
    if bool_decide (transactions > 1000)
       && bool_decide (avgTransactionSize > 100)
    then "very_active"
    else if bool_decide (transactions > 500)
            && bool_decide (avgTransactionSize > 50)
    then "active"
    else if decide (transactions > 100) then "moderate"
    else if decide (transactions > 20) then "low"
    else "very_low".

Definition assessBuyPressure (buys sells : R) : string :=
  let ratio := PerformanceAnalyzer.calculateBuyToSellRatio buys sells in
  if decide (ratio > 2) then "very_high"
  else if decide (ratio > 1.5) then "high"
  else if decide (ratio > 1.2) then "moderate"
  else if decide (ratio > 0.8) then "balanced"
  else if decide (ratio > 0.5) then "low"
  else "very_low".

Record Strength : Type := {
  liquidity : string;
  trading : string;
  buyPressure : string;
  strength_overall : string
}.

Definition calculateStrength (current : Token.t) : Strength :=
  {| liquidity :=
       PerformanceAnalyzer.assessLiquidityHealth
         (Token.liquidity current) (Token.marketCap current);
     trading :=
       assessTradingActivity (Token.transactions24h current)
                             (Token.volume24h current);
     buyPressure :=
       assessBuyPressure (Token.buys24h current) (Token.sells24h current);
     strength_overall := "moderate" |}.

Record Trends : Type := {
  momentum : Momentum;
  strength : Strength;
  sustainability : PerformanceAnalyzer.Sustainability
}.

Definition analyzeTrends (current : Token.t) (historical : list Token.t)
    : Trends :=
  {| momentum := calculateMomentum current;
     strength := calculateStrength current;
     sustainability :=
       PerformanceAnalyzer.calculateSustainability current historical |}.

Record Alert : Type := {
  type : string;
  severity : string;
  message : string;
  value : R
}.

(** The analysis object with the blocks that [PerformanceAnalyzer.Analysis]
    leaves out. *)
Record FullAnalysis : Type := {
  core : PerformanceAnalyzer.Analysis;
  trends : Trends;
  alerts : list Alert
}.

Section Alerts.

Variable toFixed : R -> nat -> string.

Definition checkForAlerts (current : Token.t) (historical : list Token.t)
    : list Alert :=
  let alerts := [] in
  let alerts :=
    if decide (JS.or (Token.priceChange24h current) 0 > 100) then
      alerts ++
      [ {| type := "price_breakout";
           severity := "high";
           message :=
             "Price increased by "
             +:+ Format.formatPercentage toFixed (Token.priceChange24h current);
           value := Token.priceChange24h current |} ]
    else alerts in
  let alerts :=
    if decide (JS.or (Token.priceChange24h current) 0 < -50) then
      alerts ++
      [ {| type := "price_dump";
           severity := "high";
           message :=
             "Price decreased by "
             +:+ Format.formatPercentage toFixed (Token.priceChange24h current);
           value := Token.priceChange24h current |} ]
    else alerts in
  let volumeToMcapRatio :=
    if decide (Token.marketCap current > 0)
    then Token.volume24h current / Token.marketCap current * 100
    else 0 in
  let alerts :=
    if decide (volumeToMcapRatio > 50) then
      alerts ++
      [ {| type := "volume_spike";
           severity := "medium";
           message :=
             "High volume activity: "
             +:+ Format.formatPercentage toFixed volumeToMcapRatio
             +:+ " of market cap";
           value := volumeToMcapRatio |} ]
    else alerts in
  let alerts :=
    if bool_decide (JS.or (Token.liquidity current) 0 < 5000)
       && bool_decide (JS.or (Token.marketCap current) 0 > 100000) then
      alerts ++
      [ {| type := "low_liquidity";
           severity := "high";
           message :=
             "Low liquidity warning: $"
             +:+ Format.formatNumber toFixed (Token.liquidity current);
           value := Token.liquidity current |} ]
    else alerts in
  alerts.

Definition analyzeTokenPerformance
    (currentData : Token.t) (historicalData : list Token.t) : FullAnalysis :=
  {| core :=
       PerformanceAnalyzer.analyzeTokenPerformance currentData historicalData;
     trends := analyzeTrends currentData historicalData;
     alerts := checkForAlerts currentData historicalData |}.

End Alerts.

Definition generateRecommendation (analysis : FullAnalysis) : string :=
  let score := PerformanceAnalyzer.score (core analysis) in
  let alertCount := length (alerts analysis) in
  let momentum := overall (momentum (trends analysis)) in
  if bool_decide (score > 80) && bool_decide (momentum = "bullish")
     && (alertCount =? 0)%nat
  then "strong_buy"
  else if bool_decide (score > 65) && negb (bool_decide (momentum = "bearish"))
  then "buy"
  else if bool_decide (score > 50) && (alertCount <=? 1)%nat
  then "hold"
  else if bool_decide (score < 35) || bool_decide (momentum = "bearish")
  then "sell"
  else "watch".

End Analyzer.

(** ** WeeklyReportGenerator, continued: derived queries *)

(** An entry of the list [getVolumeConsistencyLeaders] returns. *)
Module VolumeLeader.
Record t : Type := mk {
  symbol : string;
  name : string;
  volumeConsistency : option R;
  avgVolume : R;
  totalVolumeWeek : R;
  daysActive : nat;
  avgMarketCap : R
}.
End VolumeLeader.

(** The object [analyzeNewLaunches] returns. *)
Module NewLaunches.
Record t : Type := mk {
  total : nat;
  successful : nat;
  moderate : nat;
  unsuccessful : nat;
  successRate : R;
  avgGrowthSuccessful : JS.num;
  topNewPerformers : list Aggregated.t
}.
End NewLaunches.

(** An entry of [dailyMetrics]. *)
Module DailyMetrics.
Record t : Type := mk {
  date : string;
  totalVolume : R;
  totalMarketCap : R;
  avgPriceChange : R;
  activeTokens : nat
}.
End DailyMetrics.

(** The object [analyzeWeeklyTrends] returns. *)
Module WeeklyTrends.
Record t : Type := mk {
  dailyMetrics : list DailyMetrics.t;
  volumeTrend : R;
  marketCapTrend : R;
  activityTrend : R;
  weeklyVolumeGrowth : R;
  weeklyMarketCapGrowth : R
}.
End WeeklyTrends.

(** The object [generateWeeklySummary] returns. *)
Module WeeklySummary.
Record t : Type := mk {
  totalTokensAnalyzed : nat;
  topPerformer : option string;
  topPerformerGrowth : option JS.num;
  newLaunchesCount : nat;
  newLaunchSuccessRate : R;
  survivalRate : option R;
  marketTrend : string;
  avgDailyVolume : R
}.
End WeeklySummary.

Module WeeklyQueries.

(** [b.volumeConsistency - a.volumeConsistency]: with an [undefined]
    operand the difference is [NaN], which [sort] reads as [+0]. *)
Definition minus_undefined (x y : option R) : R :=
  match x, y with
  | Some a, Some b => a - b
  | _, _ => 0
  end.

Definition getVolumeConsistencyLeaders (tokens : list Aggregated.t)
    (limit : nat) : list VolumeLeader.t :=
  map (fun token =>
         {| VolumeLeader.symbol := Token.symbol (Aggregated.token token);
            VolumeLeader.name := Token.name (Aggregated.token token);
            VolumeLeader.volumeConsistency := Aggregated.volumeConsistency token;
            VolumeLeader.avgVolume := Aggregated.avgVolume token;
            VolumeLeader.totalVolumeWeek := Aggregated.totalVolumeWeek token;
            VolumeLeader.daysActive := Aggregated.daysActive token;
            VolumeLeader.avgMarketCap := Aggregated.avgMarketCap token |})
      (JS.slice0 limit
         (JS.sort (fun a b =>
                     minus_undefined (Aggregated.volumeConsistency b)
                                     (Aggregated.volumeConsistency a))
            (filter (fun token =>
                       (5 <= Aggregated.daysActive token)%nat
                       /\ Aggregated.avgVolume token > 10000)
                    tokens))).

(** [token.isFromLetsBonk && token.daysSinceLaunch !== null &&
    token.daysSinceLaunch <= 7]; an absent [daysSinceLaunch] fails the
    comparison. *)
Definition is_new_launch (token : Aggregated.t) : bool :=
  Token.isFromLetsBonk (Aggregated.token token)
  && match Token.daysSinceLaunch (Aggregated.token token) with
     | Some days => bool_decide (days <= 7)
     | None => false
     end.

Definition analyzeNewLaunches (tokens : list Aggregated.t) : NewLaunches.t :=
  let newLaunches := List.filter is_new_launch tokens in
  let successful :=
    filter (fun token => JS.gt (Aggregated.weeklyGrowth token) 50)
           newLaunches in
  let moderate :=
    filter (fun token => JS.gt (Aggregated.weeklyGrowth token) 0
                         /\ JS.le (Aggregated.weeklyGrowth token) 50)
           newLaunches in
  let unsuccessful :=
    filter (fun token => JS.le (Aggregated.weeklyGrowth token) 0)
           newLaunches in
  {| NewLaunches.total := length newLaunches;
     NewLaunches.successful := length successful;
     NewLaunches.moderate := length moderate;
     NewLaunches.unsuccessful := length unsuccessful;
     NewLaunches.successRate :=
       if (0 <? length newLaunches)%nat
       then INR (length successful) / INR (length newLaunches) * 100
       else 0;
     NewLaunches.avgGrowthSuccessful :=
       if (0 <? length successful)%nat
       then JS.div
              (fold_left (fun sum t => JS.add sum (Aggregated.weeklyGrowth t))
                         successful (JS.Num 0))
              (JS.Num (INR (length successful)))
       else JS.Num 0;
     NewLaunches.topNewPerformers := JS.slice0 5 successful |}.

Definition calculateGrowthRate (start end_ : R) : R :=
  if decide (start = 0) then 0
  else (end_ - start) / start * 100.

(** The function mapped over [weeklyData] by [analyzeWeeklyTrends]. *)
Definition daily_metrics (day : DayData.t) : DailyMetrics.t :=
  {| DailyMetrics.date := DayData.date day;
     DailyMetrics.totalVolume :=
       match DayData.tokens day with
       | Some tokens =>
           JS.or (fold_left (fun sum t => sum + JS.or (Token.volume24h t) 0)
                            tokens 0) 0
       | None => 0
       end;
     DailyMetrics.totalMarketCap :=
       match DayData.tokens day with
       | Some tokens =>
           JS.or (fold_left (fun sum t => sum + JS.or (Token.marketCap t) 0)
                            tokens 0) 0
       | None => 0
       end;
     DailyMetrics.avgPriceChange :=
       match DayData.tokens day with
       | Some tokens =>
           if (0 <? length tokens)%nat
           then fold_left
                  (fun sum t => sum + JS.or (Token.priceChange24h t) 0)
                  tokens 0
                / INR (length tokens)
           else 0
       | None => 0
       end;
     DailyMetrics.activeTokens :=
       match DayData.tokens day with
       | Some tokens => length tokens
       | None => 0%nat
       end |}.

Definition analyzeWeeklyTrends (weeklyData : list DayData.t)
    : option WeeklyTrends.t :=
  if (length weeklyData <? 2)%nat then None
  else
    let dailyMetrics := map daily_metrics weeklyData in
    match head dailyMetrics, last dailyMetrics with
    | Some first, Some latest =>
        Some
          {| WeeklyTrends.dailyMetrics := dailyMetrics;
             WeeklyTrends.volumeTrend :=
               WeeklyReportGenerator.calculateTrend
                 (map DailyMetrics.totalVolume dailyMetrics);
             WeeklyTrends.marketCapTrend :=
               WeeklyReportGenerator.calculateTrend
                 (map DailyMetrics.totalMarketCap dailyMetrics);
             WeeklyTrends.activityTrend :=
               WeeklyReportGenerator.calculateTrend
                 (map (fun d => INR (DailyMetrics.activeTokens d)) dailyMetrics);
             WeeklyTrends.weeklyVolumeGrowth :=
               calculateGrowthRate (DailyMetrics.totalVolume first)
                                   (DailyMetrics.totalVolume latest);
             WeeklyTrends.weeklyMarketCapGrowth :=
               calculateGrowthRate (DailyMetrics.totalMarketCap first)
                                   (DailyMetrics.totalMarketCap latest) |}
    | _, _ => None
    end.

(** [trends?.volumeTrend > 0 ? 'growing' : trends?.volumeTrend < 0 ?
    'declining' : 'stable']: without trends both comparisons fail. *)
Definition market_trend (trends : option WeeklyTrends.t) : string :=
  match trends with
  | Some t =>
      if decide (WeeklyTrends.volumeTrend t > 0) then "growing"
      else if decide (WeeklyTrends.volumeTrend t < 0) then "declining"
      else "stable"
  | None => "stable"
  end.

Definition generateWeeklySummary (tokens : list Aggregated.t)
    (weeklyData : list DayData.t) : WeeklySummary.t :=
  let topPerformer :=
    head (WeeklyReportGenerator.getTopWeeklyPerformers tokens 1) in
  let newLaunches := analyzeNewLaunches tokens in
  let survival := WeeklyReportGenerator.analyzeSurvivalRates weeklyData in
  let trends := analyzeWeeklyTrends weeklyData in
  {| WeeklySummary.totalTokensAnalyzed := length tokens;
     WeeklySummary.topPerformer := WeeklyPerformer.symbol <$> topPerformer;
     WeeklySummary.topPerformerGrowth :=
       WeeklyPerformer.weeklyGrowth <$> topPerformer;
     WeeklySummary.newLaunchesCount := NewLaunches.total newLaunches;
     WeeklySummary.newLaunchSuccessRate := NewLaunches.successRate newLaunches;
     WeeklySummary.survivalRate := Survival.survivalRate <$> survival;
     WeeklySummary.marketTrend := market_trend trends;
     WeeklySummary.avgDailyVolume :=
       match trends with
       | Some t =>
           fold_left (fun sum d => sum + DailyMetrics.totalVolume d)
                     (WeeklyTrends.dailyMetrics t) 0
           / INR (length (WeeklyTrends.dailyMetrics t))
       | None => 0
       end |}.

End WeeklyQueries.

(** ** TokenDatabase, continued *)

(** The object [calculateWeeklyMetrics] returns. *)
Module WeeklyMetrics.
Record t : Type := mk {
  weeklyPriceChange : JS.num;
  avgDailyVolume : R;
  maxDailyVolume : R;
  minDailyVolume : R;
  avgMarketCap : R;
  maxMarketCap : R;
  minMarketCap : R;
  daysTracked : nat;
  volumeGrowth : R;
  marketCapGrowth : R
}.
End WeeklyMetrics.

Module History.

(** [Math.max(...arr)] and [Math.min(...arr)] of a non-empty array with
    first element [x] and further elements [xs]. *)
Definition Math_max_spread (x : R) (xs : list R) : R := fold_left Rmax xs x.
Definition Math_min_spread (x : R) (xs : list R) : R := fold_left Rmin xs x.

(** [history] holds one stored record of the asset per day; past the
    length test it is not empty, and the arrays spread into [Math.max] and
    [Math.min] start with the figure of [history[0]]. *)
Definition calculateWeeklyMetrics (history : list Token.t)
    : option WeeklyMetrics.t :=
  if (length history <? 2)%nat then None
  else
    match head history, last history with
    | Some oldest, Some latest =>
        let weeklyChange :=
          if decide (JS.field_gt (Token.price oldest) 0)
          then JS.mul
                 (JS.div (JS.sub (JS.ToNumber (Token.price latest))
                                 (JS.ToNumber (Token.price oldest)))
                         (JS.ToNumber (Token.price oldest)))
                 (JS.Num 100)
          else JS.Num 0 in
        let volumes := map (fun day => JS.or (Token.volume24h day) 0) history in
        let caps := map (fun day => JS.or (Token.marketCap day) 0) history in
        let avgVolume :=
          fold_left (fun sum day => sum + JS.or (Token.volume24h day) 0)
                    history 0
          / INR (length history) in
        let maxVolume :=
          Math_max_spread (JS.or (Token.volume24h oldest) 0) (tail volumes) in
        let minVolume :=
          Math_min_spread (JS.or (Token.volume24h oldest) 0) (tail volumes) in
        let avgMarketCap :=
          fold_left (fun sum day => sum + JS.or (Token.marketCap day) 0)
                    history 0
          / INR (length history) in
        let maxMarketCap :=
          Math_max_spread (JS.or (Token.marketCap oldest) 0) (tail caps) in
        let minMarketCap :=
          Math_min_spread (JS.or (Token.marketCap oldest) 0) (tail caps) in
        Some
          {| WeeklyMetrics.weeklyPriceChange := weeklyChange;
             WeeklyMetrics.avgDailyVolume := avgVolume;
             WeeklyMetrics.maxDailyVolume := maxVolume;
             WeeklyMetrics.minDailyVolume := minVolume;
             WeeklyMetrics.avgMarketCap := avgMarketCap;
             WeeklyMetrics.maxMarketCap := maxMarketCap;
             WeeklyMetrics.minMarketCap := minMarketCap;
             WeeklyMetrics.daysTracked := length history;
             WeeklyMetrics.volumeGrowth :=
               if decide (minVolume > 0)
               then (maxVolume - minVolume) / minVolume * 100
               else 0;
             WeeklyMetrics.marketCapGrowth :=
               if decide (minMarketCap > 0)
               then (maxMarketCap - minMarketCap) / minMarketCap * 100
               else 0 |}
    | _, _ => None
    end.

End History.

(** ** main.js: the tracker's pipeline *)

Module Tracker.

(** The loop of [deduplicateTokens], from the state [(seen, unique)]. *)
Definition dedupe_step (state : JS.Set_.t * list Token.t) (token : Token.t)
    : JS.Set_.t * list Token.t :=
  let key := Token.key token in
  if negb (JS.Set_.has key state.1)
  then (JS.Set_.add state.1 key, state.2 ++ [token])
  else state.

Definition deduplicateTokens (tokens : list Token.t) : list Token.t :=
  (fold_left dedupe_step tokens ([], [])).2.

Section Pipeline.

(** [database.getTokenHistory(key, days)], the stored history of an asset,
    is what the persistence store returns. *)
Variable getTokenHistory : string -> nat -> list Token.t.

Definition analyzeTokens (tokens : list Token.t)
    : list PerformanceAnalyzer.Analysis :=
  let analyses :=
    map (fun token =>
           PerformanceAnalyzer.analyzeTokenPerformance token
             (getTokenHistory (Token.key token) 7))
        tokens in
  PerformanceAnalyzer.rankTokens analyses.

End Pipeline.

End Tracker.

(** ** PortfolioTracker: the watchlist *)

Module WatchItem.
Record alerts_t : Type := mkAlerts {
  priceTarget : option R;
  volumeSpike : bool;
  priceChange : R
}.
Record t : Type := mk {
  address : string;
  addedAt : string;
  reason : string;
  alerts : alerts_t
}.
End WatchItem.

Module PortfolioTracker.

Section Portfolio.

(** The entries of [holdings], which the tracker never builds or reads. *)
Variable Holding : Type.

Record Portfolio : Type := {
  watchlist : list WatchItem.t;
  holdings : list Holding
}.

(** The portfolio file: missing, holding a portfolio, holding JSON without
    a [watchlist] array, or not readable as JSON. *)
Inductive File : Type :=
| Absent
| Stored (portfolio : Portfolio)
| NoWatchlist
| Unreadable.

(** What [loadWatchlist] returns: [loadJsonFile] gives the default for a
    missing file and for one it fails to read; [None] stands for an object
    without a [watchlist] array. *)
Definition loadWatchlist (file : File) : option Portfolio :=
  match file with
  | Absent | Unreadable => Some {| watchlist := []; holdings := [] |}
  | Stored portfolio => Some portfolio
  | NoWatchlist => None
  end.

(** What a write does: it succeeds, or it throws and leaves the file in
    some state. *)
Inductive Write : Type :=
| Written
| Failed (after : File).

(** [saveWatchlist(portfolio)] under the given outcome of the write: [true]
    when it returns, [false] when it throws; and the file afterwards. *)
Definition saveWatchlist (portfolio : Portfolio) (write : Write)
    : bool * File :=
  match write with
  | Written => (true, Stored portfolio)
  | Failed after => (false, after)
  end.

(** [addToWatchlist(tokenAddress, reason)] at time [now]: the result and
    the file afterwards.  An error thrown inside ([find] on a missing
    watchlist, a failed write) is caught and gives [false]. *)
Definition addToWatchlist (file : File) (tokenAddress reason now : string)
    (write : Write) : bool * File :=
  match loadWatchlist file with
  | None => (false, file)
  | Some portfolio =>
      match List.find
              (fun item => bool_decide (WatchItem.address item = tokenAddress))
              (watchlist portfolio) with
      | Some existing => (false, file)
      | None =>
          let portfolio :=
            {| watchlist :=
                 watchlist portfolio ++
                 [ {| WatchItem.address := tokenAddress;
                      WatchItem.addedAt := now;
                      WatchItem.reason := reason;
                      WatchItem.alerts :=
                        {| WatchItem.priceTarget := None;
                           WatchItem.volumeSpike := true;
                           WatchItem.priceChange := 50 |} |} ];
               holdings := holdings portfolio |} in
          let saved := saveWatchlist portfolio write in
          if saved.1 then (true, saved.2) else (false, saved.2)
      end
  end.

Definition removeFromWatchlist (file : File) (tokenAddress : string)
    (write : Write) : bool * File :=
  match loadWatchlist file with
  | None => (false, file)
  | Some portfolio =>
      let initialLength := length (watchlist portfolio) in
      let portfolio :=
        {| watchlist :=
             List.filter
               (fun item =>
                  negb (bool_decide (WatchItem.address item = tokenAddress)))
               (watchlist portfolio);
           holdings := holdings portfolio |} in
      if (length (watchlist portfolio) <? initialLength)%nat
      then
        let saved := saveWatchlist portfolio write in
        if saved.1 then (true, saved.2) else (false, saved.2)
      else (false, file)
  end.

End Portfolio.

Arguments watchlist {Holding} _.
Arguments holdings {Holding} _.
Arguments Absent {Holding}.
Arguments Stored {Holding} portfolio.
Arguments NoWatchlist {Holding}.
Arguments Unreadable {Holding}.
Arguments Written {Holding}.
Arguments Failed {Holding} after.
Arguments loadWatchlist {Holding} file.
Arguments saveWatchlist {Holding} portfolio write.
Arguments addToWatchlist {Holding} file tokenAddress reason now write.
Arguments removeFromWatchlist {Holding} file tokenAddress write.

End PortfolioTracker.

(** ** The specification's own formulas

    What the specification says in its own words, as definitions to be
    compared with the functions above. *)

Module Spec.

Definition clamp (lo hi x : R) : R := Rmax lo (Rmin hi x).

(** "liquidity-health bonus (+10 healthy, +5 moderate, -10 poor, 0
    otherwise)". *)
Definition liquidity_bonus (health : string) : R :=
  if decide (health = "healthy") then 10
  else if decide (health = "moderate") then 5
  else if decide (health = "poor") then -10
  else 0.

(** "buy/sell-ratio nudge (+5 if ratio > 1.2, -5 if ratio < 0.8)". *)
Definition ratio_nudge (ratio : R) : R :=
  if decide (ratio > 1.2) then 5
  else if decide (ratio < 0.8) then -5
  else 0.

(** "Starting base 50. Additive adjustments, each independently clamped
    before summation [...] Final score clamped to [0,100]." *)
Definition score (priceChange24h volumeToMcapRatio : R) (health : string)
    (ratio : R) : R :=
  clamp 0 100
    (50 + clamp (-25) 25 (0.5 * priceChange24h)
        + Rmin (0.3 * volumeToMcapRatio) 15
        + liquidity_bonus health
        + ratio_nudge ratio).

(** [f 0 + ... + f (n-1)]. *)
Fixpoint sigma (n : nat) (f : nat -> R) : R :=
  match n with
  | O => 0
  | S k => sigma k f + f k
  end.

(** "slope = (n Sxy - Sx Sy) / (n Sxx - (Sx)^2)" of the points
    [(i, values[i])], [i = 0..n-1]. *)
Definition ols_slope (values : list R) : R :=
  let n := length values in
  let y := fun i => nth i values 0 in
  let Sx := sigma n (fun i => INR i) in
  let Sy := sigma n y in
  let Sxy := sigma n (fun i => INR i * y i) in
  let Sxx := sigma n (fun i => INR i * INR i) in
  (INR n * Sxy - Sx * Sy) / (INR n * Sxx - Sx * Sx).

(** Population standard deviation over mean, as "consistency" has it:
    "meanValue > 0 ? max(0, 1 - stdDev/meanValue) : 0". *)
Definition mean (values : list R) : R :=
  sigma (length values) (fun i => nth i values 0) / INR (length values).

Definition stdDev (values : list R) : R :=
  sqrt (sigma (length values) (fun i => (nth i values 0 - mean values) ^ 2)
        / INR (length values)).

Definition consistency (values : list R) : R :=
  if (length values <? 2)%nat then 0
  else if decide (mean values > 0)
       then Rmax 0 (1 - stdDev values / mean values)
       else 0.

(** "volatility(prices): computed over period-over-period simple returns
    (p[i]-p[i-1])/p[i-1] for p[i-1] > 0; result is stdDev(returns) * 100.
    Fewer than 2 valid returns yields 0." *)
Fixpoint returns (prices : list R) : list R :=
  match prices with
  | p0 :: ((p1 :: _) as rest) =>
      if decide (p0 > 0) then (p1 - p0) / p0 :: returns rest
      else returns rest
  | _ => []
  end.

Definition volatility (prices : list R) : R :=
  if (length (returns prices) <? 2)%nat then 0
  else stdDev (returns prices) * 100.

(** "averages three consistency sub-scores (volume, liquidity, and
    1 - volatility/100 clamped at 0) and labels high (avg > 0.7), low
    (avg < 0.3), else moderate": the sub-scores and the label. *)
Definition sustainability (volumes liquidities prices : list R)
    : R * R * R * string :=
  let volumeConsistency := consistency volumes in
  let liquidityStability := consistency liquidities in
  let priceStability := Rmax 0 (1 - volatility prices / 100) in
  let avg := (volumeConsistency + liquidityStability + priceStability) / 3 in
  (volumeConsistency, liquidityStability, priceStability,
   if decide (avg > 0.7) then "high"
   else if decide (avg < 0.3) then "low"
   else "moderate").

(** "percentChange(most recent valid price, earliest valid price)", a
    price being valid when it is there and positive. *)
Definition weeklyGrowth (dailyData : list DailyPoint.t) : R :=
  let valid := filter (fun p => p > 0) (omap DailyPoint.price dailyData) in
  match head valid, last valid with
  | Some earliest, Some latest =>
      Helpers.calculatePercentageChange latest earliest
  | _, _ => 0
  end.

(** [m] is the greatest (least) element of [l]. *)
Definition is_max (m : R) (l : list R) : Prop :=
  m ∈ l ∧ ∀ x, x ∈ l → x <= m.

Definition is_min (m : R) (l : list R) : Prop :=
  m ∈ l ∧ ∀ x, x ∈ l → m <= x.

(** The identity set of a snapshot's records. *)
Definition identities (tokens : list Token.t) : gset string :=
  list_to_set (map Token.key tokens).

(** "period growth (lastPrice-firstPrice)/firstPrice*100". *)
Definition period_growth (firstPrice lastPrice : R) : R :=
  (lastPrice - firstPrice) / firstPrice * 100.

End Spec.

(** The records of a range in the order the loops visit them, each with
    the day it belongs to. *)
Definition observations (weeklyData : list DayData.t)
    : list (DayData.t * Token.t) :=
  weeklyData ≫= (fun dayData =>
    match DayData.tokens dayData with
    | Some tokens => map (pair dayData) tokens
    | None => []
    end).

(** The observations of one identity. *)
Definition observations_of (k : string) (weeklyData : list DayData.t)
    : list (DayData.t * Token.t) :=
  filter (fun o => Token.key o.2 = k) (observations weeklyData).

(** The data point the aggregator stores for an observation. *)
Definition point_of (o : DayData.t * Token.t) : DailyPoint.t :=
  {| DailyPoint.date := DayData.date o.1;
     DailyPoint.price := Token.price o.2;
     DailyPoint.volume24h := Token.volume24h o.2;
     DailyPoint.marketCap := Token.marketCap o.2;
     DailyPoint.priceChange24h := Token.priceChange24h o.2 |}.

(** Create-or-update of a [Map] entry, the pattern both aggregation loops
    follow: [has], [set] with a fresh accumulator when absent, then [get]
    and update in place. *)
Definition upsert {O V : Type} (key : O -> string) (init : O -> V)
    (upd : O -> V -> V) (m : JS.Map_.t V) (o : O) : JS.Map_.t V :=
  let m1 :=
    if negb (JS.Map_.has (key o) m) then JS.Map_.set (key o) (init o) m
    else m in
  match JS.Map_.get (key o) m1 with
  | Some e => JS.Map_.set (key o) (upd o e) m1
  | None => m1
  end.

(** What an accumulator becomes after absorbing the given observations in
    order. *)
Definition absorb {O V : Type} (upd : O -> V -> V) (os : list O) (v : V) : V :=
  fold_left (fun v o => upd o v) os v.

(** The accumulator of an identity after its observations [os], the first
    of which created it. *)
Definition series_of (o : DayData.t * Token.t) (os : list (DayData.t * Token.t))
    : Aggregated.t :=
  absorb (fun o => WeeklyReportGenerator.observe o.1 o.2) (o :: os)
         (WeeklyReportGenerator.create o.1 o.2).

(** The figures of every asset seen in a range, before
    [getTopPerformers] filters, sorts and truncates them. *)
Definition all_performers (historicalData : list DayData.t)
    : list Performer.t :=
  map TokenDatabase.to_performer
      (JS.Map_.values (fold_left TokenDatabase.track_day historicalData [])).

(** The records of one identity in a range, in the order the loops visit
    them. *)
Definition records_of (k : string) (historicalData : list DayData.t)
    : list Token.t :=
  filter (fun token => Token.key token = k) (observations historicalData).*2.

(** An analysis without its rank. *)
Definition unranked (a : PerformanceAnalyzer.Analysis)
    : Token.t * PerformanceAnalyzer.PerformanceMetrics
      * PerformanceAnalyzer.Sustainability * R :=
  (PerformanceAnalyzer.current a, PerformanceAnalyzer.performance a,
   PerformanceAnalyzer.sustainability a, PerformanceAnalyzer.score a).

(** Inputs used as examples below. *)
Module Sample.

Definition token (sym : string) (price marketCap : R) : Token.t :=
  {| Token.address := None; Token.symbol := sym; Token.name := sym;
     Token.price := Some price; Token.volume24h := 0;
     Token.marketCap := marketCap; Token.liquidity := 0;
     Token.priceChange24h := 0; Token.transactions24h := 5;
     Token.buys24h := 0; Token.sells24h := 5;
     Token.isFromLetsBonk := false; Token.daysSinceLaunch := None |}.

Definition day (date : string) (tokens : list Token.t) : DayData.t :=
  {| DayData.date := date; DayData.tokens := Some tokens |}.

(** An asset with five sells and no buy in the last 24 hours. *)
Definition only_sells : Token.t := token "S" 1 0.

(** One asset whose first stored price is 0. *)
Definition late_price_week : list DayData.t :=
  [ day "D1" [token "A" 0 10]; day "D2" [token "A" 1 10];
    day "D3" [token "A" 2 10] ].

(** One asset whose market cap is 5 and then 0. *)
Definition zero_cap_week : list DayData.t :=
  [ day "D1" [token "A" 1 5]; day "D2" [token "A" 1 0] ].

(** One asset whose market cap is 5, 0, 3 and then 7. *)
Definition cap_week : list DayData.t :=
  [ day "D1" [token "A" 1 5]; day "D2" [token "A" 1 0];
    day "D3" [token "A" 1 3]; day "D4" [token "A" 1 7] ].

(** One asset whose price is 1, 2 and then 3. *)
Definition growth_week : list DayData.t :=
  [ day "D1" [token "A" 1 10]; day "D2" [token "A" 2 10];
    day "D3" [token "A" 3 10] ].

(** Two assets on three days: A at the prices 1, 1 and 2, B at 1, 2 and
    4. *)
Definition two_asset_week : list DayData.t :=
  [ day "D1" [token "A" 1 10; token "B" 1 10];
    day "D2" [token "A" 1 10; token "B" 2 10];
    day "D3" [token "A" 2 10; token "B" 4 10] ].

(** A launchpad record: no price, volume, market cap or liquidity. *)
Definition launch (sym : string) : Token.t :=
  {| Token.address := None; Token.symbol := sym; Token.name := sym;
     Token.price := None; Token.volume24h := 0;
     Token.marketCap := 0; Token.liquidity := 0;
     Token.priceChange24h := 0; Token.transactions24h := 0;
     Token.buys24h := 0; Token.sells24h := 0;
     Token.isFromLetsBonk := true; Token.daysSinceLaunch := Some 1 |}.

(** One asset stored with price 1 and then twice as a launchpad record. *)
Definition unpriced_week : list DayData.t :=
  [ day "D1" [token "A" 1 10]; day "D2" [launch "A"];
    day "D3" [launch "A"] ].

(** A single stored day with a single asset. *)
Definition one_day : list DayData.t := [ day "D1" [token "A" 1 5] ].

(** An analysis of asset [sym] with the given score, not yet ranked. *)
Definition analysis (sym : string) (s : R) : PerformanceAnalyzer.Analysis :=
  PerformanceAnalyzer.set_score
    (PerformanceAnalyzer.analyzeTokenPerformance (token sym 1 1) []) s.

(** First day {A,B,C}, last day {B,C,D}. *)
Definition cohort_week : list DayData.t :=
  [ day "D1" [token "A" 1 1; token "B" 1 1; token "C" 1 1];
    day "D2" [token "B" 1 1; token "C" 1 1; token "D" 1 1] ].

End Sample.

(** Further inputs used as examples. *)
Module Cases.

(** An asset with market cap 100 and the given 24h price change, 24h
    volume and liquidity. *)
Definition asset (priceChange24h volume24h liquidity : R) : Token.t :=
  {| Token.address := Some "So1"; Token.symbol := "X"; Token.name := "X";
     Token.price := Some 1; Token.volume24h := volume24h;
     Token.marketCap := 100; Token.liquidity := liquidity;
     Token.priceChange24h := priceChange24h; Token.transactions24h := 5;
     Token.buys24h := 3; Token.sells24h := 2;
     Token.isFromLetsBonk := true; Token.daysSinceLaunch := Some 2 |}.

(** One asset whose 24h volume is 2, 4 and then 6. *)
Definition volume_week : list DayData.t :=
  [ Sample.day "D1" [asset 0 2 5]; Sample.day "D2" [asset 0 4 5];
    Sample.day "D3" [asset 0 6 5] ].

End Cases.

(** The Base58 alphabet: the digits and letters without 0, O, I and l. *)
Definition base58_alphabet : string :=
  "123456789ABCDEFGHJKLMNPQRSTUVWXYZabcdefghijkmnopqrstuvwxyz".

(** * Properties *)

(** ** Real-number and list helpers *)

Lemma JS_or_0 (x : R) : JS.or x 0 = x.
Proof. unfold JS.or. case_decide; lra. Qed.

Lemma JS_or_nonzero (x d : R) : x ≠ 0 → JS.or x d = x.
Proof. unfold JS.or. intros. case_decide; [lra | done]. Qed.

Ltac no_minmax t :=
  lazymatch t with
  | context [Rmax _ _] => fail
  | context [Rmin _ _] => fail
  | _ => idtac
  end.

(** Case analysis on the innermost [Rmax] or [Rmin] of the goal. *)
Ltac minmax_step :=
  match goal with
  | |- context [Rmax ?a ?b] =>
      no_minmax a; no_minmax b;
      destruct (Rle_dec a b);
      [ rewrite (Rmax_right a b) by lra | rewrite (Rmax_left a b) by lra ]
  | |- context [Rmin ?a ?b] =>
      no_minmax a; no_minmax b;
      destruct (Rle_dec a b);
      [ rewrite (Rmin_left a b) by lra | rewrite (Rmin_right a b) by lra ]
  end.

Ltac real_cases :=
  unfold JS.Math_max, JS.Math_min, JS.or, Spec.clamp in *;
  repeat case_decide; repeat minmax_step; try lra.

Lemma sigma_ext (n : nat) (f g : nat → R) :
  (∀ i, (i < n)%nat → f i = g i) → Spec.sigma n f = Spec.sigma n g.
Proof.
  induction n as [|n IH]; intros Hfg; simpl; [done|].
  rewrite IH, (Hfg n) by (intros; try apply Hfg; lia). done.
Qed.

Lemma sigma_plus (n : nat) (f g : nat → R) :
  Spec.sigma n (λ i, f i + g i) = Spec.sigma n f + Spec.sigma n g.
Proof. induction n as [|n IH]; simpl; [lra | rewrite IH; lra]. Qed.

Lemma sigma_scale (n : nat) (c : R) (f : nat → R) :
  Spec.sigma n (λ i, c * f i) = c * Spec.sigma n f.
Proof. induction n as [|n IH]; simpl; [lra | rewrite IH; lra]. Qed.

Lemma sigma_nonneg (n : nat) (f : nat → R) :
  (∀ i, 0 <= f i) → 0 <= Spec.sigma n f.
Proof.
  intros Hf. induction n as [|n IH]; simpl; [lra | specialize (Hf n); lra].
Qed.

(** A left fold that adds [g b] for every element is the indexed sum. *)
Lemma fold_left_sigma (g : R → R) (l : list R) (a0 : R) :
  fold_left (λ a b, a + g b) l a0
  = a0 + Spec.sigma (length l) (λ i, g (nth i l 0)).
Proof.
  induction l as [|x l IH] using rev_ind; simpl; [lra|].
  rewrite fold_left_app, length_app, Nat.add_1_r. simpl.
  rewrite IH, nth_middle.
  rewrite (sigma_ext _ (λ i, g (nth i (l ++ [x]) 0)) (λ i, g (nth i l 0))).
  - lra.
  - intros i Hi. by rewrite app_nth1.
Qed.

Lemma JS_sum_sigma (l : list R) :
  JS.sum l = Spec.sigma (length l) (λ i, nth i l 0).
Proof.
  unfold JS.sum.
  change Rplus with (λ a b : R, a + (λ x, x) b).
  rewrite fold_left_sigma. lra.
Qed.

Lemma sqrt_div_nonneg (v m : R) : 0 < m → 0 <= sqrt v / m.
Proof.
  intros Hm. apply Rmult_le_pos; [apply sqrt_pos|].
  left. by apply Rinv_0_lt_compat.
Qed.

(** ** Composite score *)

Lemma calculatePerformanceScore_bounds (analysis : PerformanceAnalyzer.Analysis) :
  0 <= PerformanceAnalyzer.calculatePerformanceScore analysis <= 100.
Proof.
  unfold PerformanceAnalyzer.calculatePerformanceScore.
  cbv zeta.
  match goal with
  | |- _ <= JS.Math_max 0 (JS.Math_min 100 ?s) <= _ => generalize s
  end.
  intros s. real_cases.
Qed.

(** Apart from a buy/sell ratio of exactly 0, the code computes the formula
    of the specification. *)
Lemma calculatePerformanceScore_formula (analysis : PerformanceAnalyzer.Analysis) :
  let p := PerformanceAnalyzer.performance analysis in
  let ratio :=
    PerformanceAnalyzer.buyToSellRatio (PerformanceAnalyzer.tradingMetrics p) in
  ratio ≠ 0 →
  PerformanceAnalyzer.calculatePerformanceScore analysis
  = Spec.score
      (PerformanceAnalyzer.change24h (PerformanceAnalyzer.pricePerformance p))
      (PerformanceAnalyzer.volumeToMcapRatio (PerformanceAnalyzer.volumeMetrics p))
      (PerformanceAnalyzer.liquidityHealth (PerformanceAnalyzer.liquidityMetrics p))
      ratio.
Proof.
  intros p ratio Hr.
  unfold PerformanceAnalyzer.calculatePerformanceScore, Spec.score,
    Spec.liquidity_bonus, Spec.ratio_nudge.
  rewrite !JS_or_0, (JS_or_nonzero _ 1) by done.
  fold p. fold ratio.
  generalize (PerformanceAnalyzer.change24h (PerformanceAnalyzer.pricePerformance p)).
  generalize (PerformanceAnalyzer.volumeToMcapRatio (PerformanceAnalyzer.volumeMetrics p)).
  generalize (PerformanceAnalyzer.liquidityHealth (PerformanceAnalyzer.liquidityMetrics p)).
  intros h vr pc.
  assert (Hclamp : JS.Math_min (JS.Math_max (pc * 0.5) (-25)) 25
                   = Spec.clamp (-25) 25 (0.5 * pc)) by real_cases.
  rewrite Hclamp. replace (vr * 0.3) with (0.3 * vr) by lra.
  clear Hclamp. unfold JS.Math_max, JS.Math_min.
  generalize (Spec.clamp (-25) 25 (0.5 * pc)) (Rmin (0.3 * vr) 15).
  intros a b. unfold Spec.clamp.
  repeat case_decide; f_equal; f_equal; lra.
Qed.

(** C1.  An asset with sells but no buy has buy/sell ratio 0, below 0.8;
    the specification's formula takes 5 points off and gives 45, whereas
    [calculatePerformanceScore] replaces the ratio 0 by 1 and returns 50. *)
Theorem calculatePerformanceScore_zero_ratio :
  let analysis :=
    PerformanceAnalyzer.analyzeTokenPerformance Sample.only_sells [] in
  let p := PerformanceAnalyzer.performance analysis in
  PerformanceAnalyzer.buyToSellRatio (PerformanceAnalyzer.tradingMetrics p) = 0
  ∧ PerformanceAnalyzer.score analysis = 50
  ∧ Spec.score
      (PerformanceAnalyzer.change24h (PerformanceAnalyzer.pricePerformance p))
      (PerformanceAnalyzer.volumeToMcapRatio (PerformanceAnalyzer.volumeMetrics p))
      (PerformanceAnalyzer.liquidityHealth (PerformanceAnalyzer.liquidityMetrics p))
      (PerformanceAnalyzer.buyToSellRatio (PerformanceAnalyzer.tradingMetrics p))
    = 45.
Proof.
  cbv zeta.
  assert (Hratio : PerformanceAnalyzer.calculateBuyToSellRatio 0 5 = 0).
  { unfold PerformanceAnalyzer.calculateBuyToSellRatio. case_decide; lra. }
  assert (Hvr : (if decide (0 > 0) then 0 / 0 * 100 else 0) = 0).
  { case_decide; lra. }
  assert (Hh : PerformanceAnalyzer.assessLiquidityHealth 0 0 = "unknown").
  { unfold PerformanceAnalyzer.assessLiquidityHealth. by rewrite decide_True. }
  split; [exact Hratio|].
  unfold PerformanceAnalyzer.analyzeTokenPerformance,
    PerformanceAnalyzer.calculatePerformanceScore, Spec.score,
    Spec.liquidity_bonus, Spec.ratio_nudge.
  simpl. rewrite Hratio, Hvr, Hh. simpl.
  split; real_cases.
Qed.

(** ** Consistency *)

Lemma calculateConsistency_short (values : list R) :
  (length values < 2)%nat → PerformanceAnalyzer.calculateConsistency values = 0.
Proof.
  intros Hlen. unfold PerformanceAnalyzer.calculateConsistency.
  apply Nat.ltb_lt in Hlen. by rewrite Hlen.
Qed.

Lemma calculateConsistency_constant :
  PerformanceAnalyzer.calculateConsistency [5; 5; 5] = 1.
Proof.
  unfold PerformanceAnalyzer.calculateConsistency, JS.sum, JS.Math_pow,
    JS.Math_sqrt.
  simpl.
  replace ((0 + 5 + 5 + 5) / (1 + 1 + 1)) with 5 by lra.
  match goal with |- context [sqrt ?v] => replace v with 0 by lra end.
  rewrite sqrt_0. case_decide; lra.
Qed.

(** The analyzer's consistency is the specification's before the clamp at 0. *)
Lemma calculateConsistency_unclamped (values : list R) :
  Rmax 0 (PerformanceAnalyzer.calculateConsistency values)
  = Spec.consistency values.
Proof.
  unfold PerformanceAnalyzer.calculateConsistency, Spec.consistency.
  destruct (length values <? 2)%nat; [apply Rmax_left; lra|].
  cbv zeta. unfold JS.Math_pow, JS.Math_sqrt.
  rewrite JS_sum_sigma. fold (Spec.mean values).
  rewrite (fold_left_sigma (λ b, (b - Spec.mean values) ^ 2)), Rplus_0_l.
  fold (Spec.stdDev values).
  case_decide; [done | apply Rmax_left; lra].
Qed.

Lemma calculateConsistency_upper (values : list R) :
  PerformanceAnalyzer.calculateConsistency values <= 1.
Proof.
  unfold PerformanceAnalyzer.calculateConsistency.
  destruct (length values <? 2)%nat; [lra|].
  cbv zeta. case_decide; [|lra].
  match goal with
  | |- 1 - JS.Math_sqrt ?v / ?m <= 1 =>
      pose proof (sqrt_div_nonneg v m ltac:(lra))
  end.
  unfold JS.Math_sqrt. lra.
Qed.

Lemma spec_consistency_range (values : list R) :
  0 <= Spec.consistency values <= 1.
Proof.
  rewrite <- calculateConsistency_unclamped.
  pose proof (calculateConsistency_upper values).
  split; [apply Rmax_l | by apply Rmax_lub; [lra|]].
Qed.

(** The weekly report's variant does clamp, and stays in [0,1]. *)
Lemma weekly_calculateVolumeConsistency_range (dailyData : list DailyPoint.t) :
  0 <= WeeklyReportGenerator.calculateVolumeConsistency dailyData <= 1.
Proof.
  unfold WeeklyReportGenerator.calculateVolumeConsistency.
  destruct (length dailyData <? 2)%nat; [lra|].
  cbv zeta.
  match goal with |- context [length ?l =? 0] => destruct (length l =? 0) end;
    [lra|].
  case_decide; [|lra].
  match goal with
  | |- _ <= JS.Math_max 0 (1 - JS.Math_sqrt ?v / ?m) <= _ =>
      pose proof (sqrt_div_nonneg v m ltac:(lra))
  end.
  unfold JS.Math_max, JS.Math_sqrt.
  split; [apply Rmax_l | apply Rmax_lub; lra].
Qed.

(** C2.  On the non-negative sequence [0,0,0,0,5] (mean 1, standard
    deviation 2) [calculateConsistency] returns [-1], outside [0,1]; the
    specified consistency, [max(0, 1 - stdDev/mean)], is 0 there. *)
Theorem calculateConsistency_negative :
  PerformanceAnalyzer.calculateConsistency [0; 0; 0; 0; 5] = -1
  ∧ Spec.consistency [0; 0; 0; 0; 5] = 0.
Proof.
  assert (H : PerformanceAnalyzer.calculateConsistency [0; 0; 0; 0; 5] = -1).
  { unfold PerformanceAnalyzer.calculateConsistency, JS.sum, JS.Math_pow,
      JS.Math_sqrt.
    simpl.
    replace ((0 + 0 + 0 + 0 + 0 + 5) / (1 + 1 + 1 + 1 + 1)) with 1 by lra.
    match goal with |- context [sqrt ?v] => replace v with (2 * 2) by lra end.
    rewrite sqrt_square by lra.
    case_decide; lra. }
  split; [exact H|].
  rewrite <- calculateConsistency_unclamped, H. apply Rmax_left. lra.
Qed.

(** ** Linear trend *)

Lemma trend_loop_app (i : nat) (l1 l2 : list R)
    (s : WeeklyReportGenerator.TrendSums) :
  WeeklyReportGenerator.trend_loop i (l1 ++ l2) s
  = WeeklyReportGenerator.trend_loop (i + length l1) l2
      (WeeklyReportGenerator.trend_loop i l1 s).
Proof.
  revert i s. induction l1 as [|x l1 IH]; intros i s; simpl.
  - by rewrite Nat.add_0_r.
  - rewrite IH. f_equal. lia.
Qed.

(** The four accumulators of the loop are the four sums of the closed
    form. *)
Lemma trend_loop_sums (values : list R) :
  let s := WeeklyReportGenerator.trend_loop 0 values
             {| WeeklyReportGenerator.sumX := 0; WeeklyReportGenerator.sumY := 0;
                WeeklyReportGenerator.sumXY := 0; WeeklyReportGenerator.sumXX := 0 |} in
  let n := length values in
  let y := λ i, nth i values 0 in
  WeeklyReportGenerator.sumX s = Spec.sigma n (λ i, INR i)
  ∧ WeeklyReportGenerator.sumY s = Spec.sigma n y
  ∧ WeeklyReportGenerator.sumXY s = Spec.sigma n (λ i, INR i * y i)
  ∧ WeeklyReportGenerator.sumXX s = Spec.sigma n (λ i, INR i * INR i).
Proof.
  induction values as [|x l IH] using rev_ind; [simpl; done|].
  cbv zeta in *. destruct IH as (HX & HY & HXY & HXX).
  rewrite trend_loop_app, length_app, Nat.add_1_r. simpl.
  rewrite HX, HY, HXY, HXX, nth_middle.
  rewrite (sigma_ext _ (λ i, nth i (l ++ [x]) 0) (λ i, nth i l 0))
    by (intros; by rewrite app_nth1).
  rewrite (sigma_ext _ (λ i, INR i * nth i (l ++ [x]) 0) (λ i, INR i * nth i l 0))
    by (intros; by rewrite app_nth1).
  done.
Qed.

Lemma sigma_index (n : nat) :
  Spec.sigma n (λ i, INR i) = INR n * (INR n - 1) / 2.
Proof.
  induction n as [|n IH]; [simpl; lra|].
  cbn [Spec.sigma]. rewrite IH, S_INR. lra.
Qed.

Lemma sigma_index_sq (n : nat) :
  Spec.sigma n (λ i, INR i * INR i)
  = (INR n - 1) * INR n * (2 * INR n - 1) / 6.
Proof.
  induction n as [|n IH]; [simpl; lra|].
  cbn [Spec.sigma]. rewrite IH, S_INR. lra.
Qed.

(** With at least two points the indices are not constant: the denominator
    of the closed form is positive. *)
Lemma ols_denominator_pos (n : nat) :
  (2 <= n)%nat →
  0 < INR n * Spec.sigma n (λ i, INR i * INR i)
      - Spec.sigma n (λ i, INR i) * Spec.sigma n (λ i, INR i).
Proof.
  intros Hn. rewrite sigma_index, sigma_index_sq.
  assert (H2 : 2 <= INR n) by (apply (le_INR 2); lia).
  replace (INR n * ((INR n - 1) * INR n * (2 * INR n - 1) / 6)
           - INR n * (INR n - 1) / 2 * (INR n * (INR n - 1) / 2))
    with (INR n * INR n * ((INR n - 1) * (INR n + 1)) / 12) by lra.
  apply Rdiv_lt_0_compat; [|lra].
  apply Rmult_lt_0_compat; apply Rmult_lt_0_compat; lra.
Qed.

(** C9.  [calculateTrend] returns 0 below two points and otherwise the
    least-squares slope of the values against their indices by the closed
    form, whose denominator is then non-zero; on [1,2,3,4], [4,3,2,1] and
    [5] it returns 1, -1 and 0. *)
Theorem calculateTrend_ols (values : list R) :
  ((length values < 2)%nat → WeeklyReportGenerator.calculateTrend values = 0)
  ∧ ((2 <= length values)%nat →
       WeeklyReportGenerator.calculateTrend values = Spec.ols_slope values
       ∧ INR (length values) * Spec.sigma (length values) (λ i, INR i * INR i)
         - Spec.sigma (length values) (λ i, INR i)
           * Spec.sigma (length values) (λ i, INR i) ≠ 0)
  ∧ WeeklyReportGenerator.calculateTrend [1; 2; 3; 4] = 1
  ∧ WeeklyReportGenerator.calculateTrend [4; 3; 2; 1] = -1
  ∧ WeeklyReportGenerator.calculateTrend [5] = 0.
Proof.
  split; [|split; [|split; [|split]]].
  - intros Hlen. unfold WeeklyReportGenerator.calculateTrend.
    apply Nat.ltb_lt in Hlen. by rewrite Hlen.
  - intros Hlen. split.
    + unfold WeeklyReportGenerator.calculateTrend, Spec.ols_slope.
      apply Nat.ltb_ge in Hlen. rewrite Hlen. cbv zeta.
      destruct (trend_loop_sums values) as (HX & HY & HXY & HXX).
      by rewrite HX, HY, HXY, HXX.
    + pose proof (ols_denominator_pos (length values) Hlen). lra.
  - unfold WeeklyReportGenerator.calculateTrend. simpl. lra.
  - unfold WeeklyReportGenerator.calculateTrend. simpl. lra.
  - reflexivity.
Qed.

Lemma calculateTrend_ols_witness :
  WeeklyReportGenerator.calculateTrend [0; 2] = Spec.ols_slope [0; 2]
  ∧ WeeklyReportGenerator.calculateTrend [7] = 0.
Proof.
  split.
  - apply (proj1 (proj2 (calculateTrend_ols [0; 2]))). simpl. lia.
  - apply (proj1 (calculateTrend_ols [7])). simpl. lia.
Defined.

Lemma sigma_const (n : nat) (c : R) : Spec.sigma n (λ _, c) = INR n * c.
Proof.
  induction n as [|n IH]; [simpl; lra|].
  cbn [Spec.sigma]. rewrite IH, S_INR. lra.
Qed.

(** The closed form is the least-squares slope: with the matching intercept
    the residuals sum to 0 and are orthogonal to the indices (the normal
    equations of the fit). *)
Lemma ols_slope_normal_equations (values : list R) :
  (2 <= length values)%nat →
  let n := length values in
  let y := λ i, nth i values 0 in
  let b := Spec.ols_slope values in
  let a := (Spec.sigma n y - b * Spec.sigma n (λ i, INR i)) / INR n in
  Spec.sigma n (λ i, y i - (a + b * INR i)) = 0
  ∧ Spec.sigma n (λ i, INR i * (y i - (a + b * INR i))) = 0.
Proof.
  intros Hlen n y b a.
  pose proof (ols_denominator_pos n Hlen) as HD.
  assert (Hn : 2 <= INR n) by (apply (le_INR 2); done).
  pose (Sx := Spec.sigma n (λ i, INR i)).
  pose (Sy := Spec.sigma n y).
  pose (Sxy := Spec.sigma n (λ i, INR i * y i)).
  pose (Sxx := Spec.sigma n (λ i, INR i * INR i)).
  assert (Hb : b = (INR n * Sxy - Sx * Sy) / (INR n * Sxx - Sx * Sx))
    by reflexivity.
  assert (Ha : a = (Sy - b * Sx) / INR n) by reflexivity.
  assert (E1 : Spec.sigma n (λ i, y i - (a + b * INR i))
               = Sy - INR n * a - b * Sx).
  { rewrite (sigma_ext _ _ (λ i, y i + (-1) * (a + b * INR i)))
      by (intros; lra).
    rewrite sigma_plus, sigma_scale, sigma_plus, sigma_const, sigma_scale.
    change (Spec.sigma n INR) with Sx. fold Sy. lra. }
  assert (E2 : Spec.sigma n (λ i, INR i * (y i - (a + b * INR i)))
               = Sxy - a * Sx - b * Sxx).
  { rewrite (sigma_ext _ _ (λ i, INR i * y i
                                 + ((-a) * INR i + (-b) * (INR i * INR i))))
      by (intros; lra).
    rewrite !sigma_plus, !sigma_scale.
    change (Spec.sigma n INR) with Sx. fold Sxy. fold Sxx. lra. }
  rewrite E1, E2.
  change (0 < INR n * Sxx - Sx * Sx) in HD.
  clear E1 E2. clearbody a b Sx Sy Sxy Sxx. subst a. subst b.
  split; field; lra.
Qed.

(** ** Sustainability *)

Lemma calculateConsistency_spike :
  PerformanceAnalyzer.calculateConsistency [0; 0; 0; 0; 5] = -1.
Proof.
  unfold PerformanceAnalyzer.calculateConsistency, JS.sum, JS.Math_pow,
    JS.Math_sqrt.
  simpl.
  replace ((0 + 0 + 0 + 0 + 0 + 5) / (1 + 1 + 1 + 1 + 1)) with 1 by lra.
  match goal with |- context [sqrt ?v] => replace v with (2 * 2) by lra end.
  rewrite sqrt_square by lra.
  case_decide; lra.
Qed.

Lemma calculateVolatility_flat :
  PerformanceAnalyzer.calculateVolatility [1; 1; 1; 1; 1] = 0.
Proof.
  unfold PerformanceAnalyzer.calculateVolatility, JS.sum, JS.Math_pow,
    JS.Math_sqrt.
  simpl. rewrite !decide_True by lra. simpl.
  match goal with |- context [sqrt ?v] => replace v with 0 by lra end.
  rewrite sqrt_0. lra.
Qed.

Lemma spec_volatility_flat : Spec.volatility [1; 1; 1; 1; 1] = 0.
Proof.
  unfold Spec.volatility. simpl. rewrite !decide_True by lra. simpl.
  unfold Spec.stdDev, Spec.mean. simpl.
  match goal with |- context [sqrt ?v] => replace v with 0 by lra end.
  rewrite sqrt_0. lra.
Qed.

(** C8.  With fewer than 3 historical points [calculateSustainability]
    returns the neutral result (score 0.5, overall 'unknown').  With 3 or
    more it averages its own sub-scores, and its two consistencies are not
    clamped at 0: for four records without volume and liquidity followed by
    a current record with volume 5 and liquidity 5, at a constant price, it
    reports the sub-scores -1, -1 and 1 and the label 'low', where the
    specified sub-scores are 0, 0 and 1, their average is 1/3 and the label
    is 'moderate'. *)
Theorem calculateSustainability_unclamped :
  (∀ current historical,
     (length historical < 3)%nat →
     PerformanceAnalyzer.calculateSustainability current historical
     = PerformanceAnalyzer.InsufficientData 0.5 ["insufficient_data"]
         "unknown")
  ∧ let current := Cases.asset 0 5 5 in
    let historical := replicate 4 (Cases.asset 0 0 0) in
    let series := historical ++ [current] in
    PerformanceAnalyzer.calculateSustainability current historical
    = PerformanceAnalyzer.Assessed (-1) (-1) 1 "low"
    ∧ Spec.sustainability
        (map Token.volume24h series) (map Token.liquidity series)
        (map (λ t, default 0 (Token.price t)) series)
      = (0, 0, 1, "moderate").
Proof.
  split.
  { intros current historical Hlen.
    unfold PerformanceAnalyzer.calculateSustainability.
    apply Nat.ltb_lt in Hlen. by rewrite Hlen. }
  cbv zeta. split.
  - unfold PerformanceAnalyzer.calculateSustainability,
      PerformanceAnalyzer.calculateVolumeConsistency,
      PerformanceAnalyzer.calculateLiquidityStability,
      PerformanceAnalyzer.calculatePriceStability.
    simpl. unfold JS.or_field. rewrite !JS_or_0.
    rewrite calculateConsistency_spike, calculateVolatility_flat.
    unfold JS.Math_max.
    replace (1 - 0 / 100) with 1 by lra.
    rewrite Rmax_right by lra.
    rewrite decide_False by lra. rewrite decide_True by lra. done.
  - unfold Spec.sustainability. simpl.
    rewrite spec_volatility_flat.
    rewrite <- calculateConsistency_unclamped, calculateConsistency_spike.
    rewrite (Rmax_left 0 (-1)) by lra.
    replace (1 - 0 / 100) with 1 by lra.
    rewrite Rmax_right by lra.
    rewrite decide_False by lra. rewrite decide_False by lra. done.
Qed.

(** ** Sorting in descending order of a numeric field *)

Section SortDescending.
Context {A : Type} (f : A → R).

Let cmp : A → A → R := λ a b, f b - f a.
Let desc : A → A → Prop := λ a b, f a >= f b.

Lemma sort_insert_Permutation (x : A) (l : list A) :
  JS.sort_insert cmp x l ≡ₚ x :: l.
Proof.
  induction l as [|y l IH]; simpl; [done|].
  case_decide; [done|]. rewrite IH. apply Permutation_swap.
Qed.

Lemma sort_Permutation (l : list A) : JS.sort cmp l ≡ₚ l.
Proof.
  induction l as [|x l IH]; simpl; [done|].
  fold (JS.sort cmp l). by rewrite sort_insert_Permutation, IH.
Qed.

Lemma sort_insert_sorted (x : A) (l : list A) :
  StronglySorted desc l → StronglySorted desc (JS.sort_insert cmp x l).
Proof.
  induction 1 as [|y l Hl IH Hy]; simpl.
  - repeat constructor.
  - case_decide as Hc; unfold cmp in Hc.
    + constructor; [by constructor|].
      constructor; [unfold desc; lra|].
      eapply Forall_impl; [exact Hy|]. unfold desc. intros z Hz. lra.
    + constructor; [done|].
      rewrite sort_insert_Permutation. constructor; [unfold desc; lra | done].
Qed.

Lemma sort_sorted (l : list A) : StronglySorted desc (JS.sort cmp l).
Proof.
  induction l as [|x l IH]; simpl; [constructor|].
  by apply sort_insert_sorted.
Qed.

(** Insertion never moves an element past one of equal value. *)
Lemma sort_insert_stable (s : R) (x : A) (l : list A) :
  filter (λ a, f a = s) (JS.sort_insert cmp x l)
  = filter (λ a, f a = s) (x :: l).
Proof.
  induction l as [|y l IH]; simpl; [done|].
  case_decide as Hc; [done|]. unfold cmp in Hc.
  rewrite filter_cons, IH, !filter_cons.
  repeat case_decide; (done || lra).
Qed.

Lemma sort_stable (s : R) (l : list A) :
  filter (λ a, f a = s) (JS.sort cmp l) = filter (λ a, f a = s) l.
Proof.
  induction l as [|x l IH]; simpl; [done|].
  fold (JS.sort cmp l). by rewrite sort_insert_stable, !filter_cons, IH.
Qed.

End SortDescending.

(** Whatever the comparator, sorting rearranges the array. *)
Lemma sort_insert_Permutation_any {A : Type} (cmp : A → A → R)
    (x : A) (l : list A) :
  JS.sort_insert cmp x l ≡ₚ x :: l.
Proof.
  induction l as [|y l IH]; simpl; [done|].
  case_decide; [done|]. rewrite IH. apply Permutation_swap.
Qed.

Lemma sort_Permutation_any {A : Type} (cmp : A → A → R) (l : list A) :
  JS.sort cmp l ≡ₚ l.
Proof.
  induction l as [|x l IH]; simpl; [done|].
  fold (JS.sort cmp l). by rewrite sort_insert_Permutation_any, IH.
Qed.

Lemma sort_insert_Forall {A : Type} (P : A → Prop) (cmp : A → A → R)
    (x : A) (l : list A) :
  P x → Forall P l → Forall P (JS.sort_insert cmp x l).
Proof.
  intros Hx. induction 1 as [|y l Hy Hl IH]; simpl.
  - by constructor.
  - case_decide; repeat constructor; done.
Qed.

Lemma sort_Forall {A : Type} (P : A → Prop) (cmp : A → A → R) (l : list A) :
  Forall P l → Forall P (JS.sort cmp l).
Proof.
  induction 1 as [|x l Hx Hl IH]; simpl; [constructor|].
  by apply sort_insert_Forall.
Qed.

(** Sorting only reads the comparator on the elements of the array. *)
Lemma sort_ext {A : Type} (P : A → Prop) (cmp1 cmp2 : A → A → R) (l : list A) :
  (∀ x y, P x → P y → cmp1 x y = cmp2 x y) →
  Forall P l → JS.sort cmp1 l = JS.sort cmp2 l.
Proof.
  intros Hcmp. induction 1 as [|x l Hx Hl IH]; simpl; [done|].
  fold (JS.sort cmp1 l) (JS.sort cmp2 l). rewrite IH.
  pose proof (sort_Forall P cmp2 l Hl) as Hs.
  revert Hs. generalize (JS.sort cmp2 l).
  induction 1 as [|y s Hy Hs IHs]; simpl; [done|].
  rewrite (Hcmp x y) by done. by rewrite IHs.
Qed.

Lemma StronglySorted_Forall_impl {A : Type} (P : A → Prop)
    (r r' : A → A → Prop) (l : list A) :
  (∀ a b, P a → P b → r a b → r' a b) →
  Forall P l → StronglySorted r l → StronglySorted r' l.
Proof.
  intros Himpl HP. induction 1 as [|x l Hl IH Hx]; [constructor|].
  apply Forall_cons in HP as [Px Pl].
  constructor; [by apply IH|].
  apply Forall_forall. intros y Hy.
  apply Himpl; [done| |].
  - by apply (proj1 (Forall_forall P l) Pl).
  - by apply (proj1 (Forall_forall _ l) Hx).
Qed.

(** Sorting in descending order of a figure that may be [NaN], on an array
    in which it never is. *)
Lemma sort_num_sorted {A : Type} (g : A → JS.num) (l : list A) :
  Forall (λ a, g a ≠ JS.NaN) l →
  StronglySorted (λ a b, JS.geq (g a) (g b))
    (JS.sort (λ a b, JS.comparator (JS.sub (g b) (g a))) l).
Proof.
  intros Hnum.
  set (f := λ a, JS.comparator (g a)).
  rewrite (sort_ext (λ a, g a ≠ JS.NaN) _ (λ a b, f b - f a) l);
    [|intros x y Hx Hy; unfold f; by destruct (g x), (g y) | done].
  apply (StronglySorted_Forall_impl (λ a, g a ≠ JS.NaN)
           (λ a b, f a >= f b)).
  - intros a b Ha Hb. unfold f. by destruct (g a), (g b).
  - by apply sort_Forall.
  - apply (sort_sorted f).
Qed.

Lemma StronglySorted_map {A B : Type} (h : A → B) (r : B → B → Prop)
    (l : list A) :
  StronglySorted r (map h l) → StronglySorted (λ a b, r (h a) (h b)) l.
Proof.
  induction l as [|x l IH]; simpl; intros Hs; [constructor|].
  apply StronglySorted_inv in Hs as [Hl Hx].
  constructor; [by apply IH|]. revert Hx. rewrite Forall_fmap. done.
Qed.

Lemma StronglySorted_map_2 {A B : Type} (h : A → B) (r : B → B → Prop)
    (l : list A) :
  StronglySorted (λ a b, r (h a) (h b)) l → StronglySorted r (map h l).
Proof.
  induction 1 as [|x l Hl IH Hx]; simpl; constructor; [done|].
  rewrite Forall_fmap. exact Hx.
Qed.

Lemma filter_map_comm {A B : Type} (h : A → B) (P : B → Prop)
    `{!∀ b, Decision (P b)} (l : list A) :
  filter P (map h l) = map h (filter (λ a, P (h a)) l).
Proof.
  induction l as [|x l IH]; simpl; [done|].
  rewrite !filter_cons, IH. by case_decide.
Qed.

(** ** Ranking *)

Lemma imap_set_rank_rank (k : nat) (l : list PerformanceAnalyzer.Analysis) :
  map PerformanceAnalyzer.rank
      (imap (λ index a, PerformanceAnalyzer.set_rank a (index + k)) l)
  = seq k (length l).
Proof.
  revert k. induction l as [|x l IH]; intros k; simpl; [done|].
  f_equal. rewrite <- (IH (S k)). f_equal.
  apply imap_ext. intros i a _. simpl. f_equal. lia.
Qed.

Lemma imap_set_rank_map {B : Type} (h : PerformanceAnalyzer.Analysis → B)
    (g : nat → nat) (l : list PerformanceAnalyzer.Analysis) :
  (∀ a r, h (PerformanceAnalyzer.set_rank a r) = h a) →
  map h (imap (λ index a, PerformanceAnalyzer.set_rank a (g index)) l)
  = map h l.
Proof.
  intros Hh. revert g. induction l as [|x l IH]; intros g; simpl; [done|].
  rewrite Hh. f_equal. apply (IH (g ∘ S)).
Qed.

(** C3.  After [rankTokens] the rank fields read 1, 2, ..., n along the
    returned batch; the batch is the input batch rearranged, in descending
    order of score, so the analysis ranked 1 has the greatest score; and
    analyses of equal score come out in their input order. *)
Theorem rankTokens_ranked (tokenAnalyses : list PerformanceAnalyzer.Analysis) :
  let ranked := PerformanceAnalyzer.rankTokens tokenAnalyses in
  map PerformanceAnalyzer.rank ranked = seq 1 (length tokenAnalyses)
  ∧ map unranked ranked ≡ₚ map unranked tokenAnalyses
  ∧ StronglySorted
      (λ a b, PerformanceAnalyzer.score a >= PerformanceAnalyzer.score b) ranked
  ∧ match ranked with
    | [] => tokenAnalyses = []
    | top :: _ =>
        PerformanceAnalyzer.rank top = 1%nat
        ∧ Forall (λ b, PerformanceAnalyzer.score b
                       <= PerformanceAnalyzer.score top) ranked
    end
  ∧ ∀ s : R,
      filter (λ u, u.2 = s) (map unranked ranked)
      = filter (λ u, u.2 = s) (map unranked tokenAnalyses).
Proof.
  cbv zeta. unfold PerformanceAnalyzer.rankTokens.
  set (cmp := λ a b, PerformanceAnalyzer.score b - PerformanceAnalyzer.score a).
  set (sorted := JS.sort cmp tokenAnalyses).
  set (ranked := imap _ sorted).
  assert (Hperm : sorted ≡ₚ tokenAnalyses)
    by apply (sort_Permutation PerformanceAnalyzer.score).
  assert (Hrank : map PerformanceAnalyzer.rank ranked = seq 1 (length tokenAnalyses)).
  { unfold ranked. rewrite imap_set_rank_rank. by rewrite Hperm. }
  assert (Hun : map unranked ranked = map unranked sorted)
    by (by apply (imap_set_rank_map unranked (λ i, (i + 1)%nat))).
  assert (Hsc : map PerformanceAnalyzer.score ranked
                = map PerformanceAnalyzer.score sorted)
    by (by apply (imap_set_rank_map PerformanceAnalyzer.score
                    (λ i, (i + 1)%nat))).
  assert (Hsorted : StronglySorted
            (λ a b, PerformanceAnalyzer.score a >= PerformanceAnalyzer.score b)
            ranked).
  { apply (StronglySorted_map PerformanceAnalyzer.score (λ x y, x >= y)).
    rewrite Hsc. apply StronglySorted_map_2.
    apply (sort_sorted PerformanceAnalyzer.score). }
  split; [exact Hrank|]. split; [by rewrite Hun, Hperm|].
  split; [exact Hsorted|]. split.
  - destruct ranked as [|top rest] eqn:E.
    + apply (f_equal length) in Hrank. simpl in Hrank.
      rewrite length_seq in Hrank. by destruct tokenAnalyses.
    + split.
      * simpl in Hrank. destruct tokenAnalyses; simpl in Hrank; congruence.
      * apply StronglySorted_inv in Hsorted as [_ Hall].
        constructor; [lra|]. eapply Forall_impl; [exact Hall|].
        simpl. intros b Hb. lra.
  - intros s. rewrite Hun.
    rewrite !(filter_map_comm unranked (λ u, u.2 = s)).
    f_equal. apply (sort_stable PerformanceAnalyzer.score s).
Qed.

(** A batch with a tie: B and C share the top score and keep their order. *)
Lemma rankTokens_tie :
  map (λ a, (Token.symbol (PerformanceAnalyzer.current a),
             PerformanceAnalyzer.rank a))
      (PerformanceAnalyzer.rankTokens
         [Sample.analysis "A" 1; Sample.analysis "B" 2; Sample.analysis "C" 2])
  = [("B", 1%nat); ("C", 2%nat); ("A", 3%nat)].
Proof.
  unfold PerformanceAnalyzer.rankTokens, JS.sort.
  cbn [foldr JS.sort_insert].
  rewrite decide_True by (simpl; lra). cbn [JS.sort_insert].
  rewrite decide_False by (simpl; lra).
  rewrite decide_False by (simpl; lra).
  reflexivity.
Qed.

(** ** Insertion-ordered maps *)

Section MapLemmas.
Context {V : Type}.
Implicit Types (m : JS.Map_.t V) (k : string) (v : V).

Lemma Map_get_set_eq k v m : JS.Map_.get k (JS.Map_.set k v m) = Some v.
Proof.
  induction m as [|[k' v'] m IH]; simpl.
  - by rewrite decide_True.
  - case_decide; simpl; [by rewrite decide_True | by rewrite decide_False].
Qed.

Lemma Map_get_set_ne k k' v m :
  k ≠ k' → JS.Map_.get k' (JS.Map_.set k v m) = JS.Map_.get k' m.
Proof.
  intros Hne. induction m as [|[k0 v0] m IH]; simpl.
  - by rewrite decide_False.
  - case_decide; simpl.
    + subst. by rewrite !decide_False.
    + by rewrite IH.
Qed.

Lemma Map_get_elem k v m : JS.Map_.get k m = Some v → (k, v) ∈ m.
Proof.
  induction m as [|[k' v'] m IH]; simpl; [done|].
  case_decide; intros Hg.
  - simplify_eq. left.
  - right. by apply IH.
Qed.

Lemma Map_get_None k m : JS.Map_.get k m = None ↔ k ∉ m.*1.
Proof.
  induction m as [|[k' v'] m IH]; simpl.
  - split; [intros _; apply not_elem_of_nil | done].
  - rewrite not_elem_of_cons. case_decide as Hk.
    + split; [done | by intros [? _]].
    + rewrite IH. split; [done | by intros [_ ?]].
Qed.

Lemma Map_elem_get k v m : NoDup m.*1 → (k, v) ∈ m → JS.Map_.get k m = Some v.
Proof.
  induction m as [|[k' v'] m IH]; simpl; intros Hnd Hin.
  - by apply elem_of_nil in Hin.
  - apply NoDup_cons in Hnd as [Hk' Hnd].
    apply elem_of_cons in Hin as [Heq|Hin].
    + simplify_eq. by rewrite decide_True.
    + rewrite decide_False; [by apply IH|].
      intros ->. apply Hk'. apply list_elem_of_fmap. by exists (k, v).
Qed.

Lemma Map_set_keys k v m :
  (JS.Map_.set k v m).*1 = if JS.Map_.has k m then m.*1 else m.*1 ++ [k].
Proof.
  unfold JS.Map_.has. induction m as [|[k' v'] m IH]; [done|].
  cbn [JS.Map_.set JS.Map_.get]. case_decide; [by subst|].
  rewrite !fmap_cons, IH. by destruct (JS.Map_.get k m).
Qed.

Lemma Map_set_NoDup k v m : NoDup m.*1 → NoDup (JS.Map_.set k v m).*1.
Proof.
  intros Hnd. rewrite Map_set_keys. unfold JS.Map_.has.
  destruct (JS.Map_.get k m) eqn:E; [done|].
  apply NoDup_app. split; [done|]. split; [|apply NoDup_singleton].
  intros x Hx ->%list_elem_of_singleton. by apply Map_get_None in E.
Qed.

Lemma Map_values_get v m :
  NoDup m.*1 → v ∈ JS.Map_.values m → ∃ k, JS.Map_.get k m = Some v.
Proof.
  intros Hnd ([k v'] & -> & Hin)%list_elem_of_fmap.
  exists k. by apply Map_elem_get.
Qed.

Lemma Map_get_values k v m : JS.Map_.get k m = Some v → v ∈ JS.Map_.values m.
Proof.
  intros Hg%Map_get_elem. apply list_elem_of_fmap. by exists (k, v).
Qed.

End MapLemmas.

(** ** Create-or-update folds *)

Section Upsert.
Context {O V : Type} (key : O → string) (init : O → V) (upd : O → V → V).

Abbreviation step := (upsert key init upd).

Abbreviation absorb := (absorb upd).

Lemma upsert_get_eq (m : JS.Map_.t V) (o : O) :
  JS.Map_.get (key o) (step m o)
  = Some (upd o (default (init o) (JS.Map_.get (key o) m))).
Proof.
  unfold upsert, JS.Map_.has.
  destruct (JS.Map_.get (key o) m) as [v|] eqn:E; simpl.
  - rewrite E. apply Map_get_set_eq.
  - rewrite Map_get_set_eq. apply Map_get_set_eq.
Qed.

Lemma upsert_get_ne (m : JS.Map_.t V) (o : O) (k : string) :
  key o ≠ k → JS.Map_.get k (step m o) = JS.Map_.get k m.
Proof.
  intros Hne. unfold upsert, JS.Map_.has.
  destruct (JS.Map_.get (key o) m) as [v|] eqn:E; simpl.
  - rewrite E. by apply Map_get_set_ne.
  - rewrite Map_get_set_eq. by rewrite !Map_get_set_ne.
Qed.

Lemma upsert_NoDup (m : JS.Map_.t V) (o : O) :
  NoDup m.*1 → NoDup (step m o).*1.
Proof.
  intros Hnd. unfold upsert.
  destruct (negb (JS.Map_.has (key o) m));
    destruct (JS.Map_.get (key o) _); auto using Map_set_NoDup.
Qed.

Lemma fold_upsert_NoDup (os : list O) (m : JS.Map_.t V) :
  NoDup m.*1 → NoDup (fold_left step os m).*1.
Proof.
  revert m. induction os as [|o os IH]; intros m Hnd; simpl; [done|].
  by apply IH, upsert_NoDup.
Qed.

(** The entry of [k] after a run of create-or-update steps: the earlier
    entry, or else a fresh one made at the first observation of [k],
    having absorbed the observations of [k] in order. *)
Lemma fold_upsert_get (os : list O) (m : JS.Map_.t V) (k : string) :
  JS.Map_.get k (fold_left step os m)
  = match JS.Map_.get k m, filter (λ o, key o = k) os with
    | Some v, os_k => Some (absorb os_k v)
    | None, [] => None
    | None, o :: os_k => Some (absorb (o :: os_k) (init o))
    end.
Proof.
  revert m. induction os as [|o os IH]; intros m; simpl.
  - by destruct (JS.Map_.get k m).
  - rewrite IH, filter_cons. case_decide as Hk.
    + subst k. rewrite upsert_get_eq.
      by destruct (JS.Map_.get (key o) m).
    + by rewrite upsert_get_ne.
Qed.

(** Every value of the final map belongs to one identity and is the fresh
    accumulator of its first observation after absorbing all of them. *)
Lemma fold_upsert_values (os : list O) (v : V) :
  v ∈ JS.Map_.values (fold_left step os []) →
  ∃ k o os_k,
    filter (λ o, key o = k) os = o :: os_k
    ∧ v = absorb (o :: os_k) (init o).
Proof.
  intros [k Hk]%Map_values_get; [|apply fold_upsert_NoDup, NoDup_nil_2].
  rewrite fold_upsert_get in Hk. simpl in Hk.
  destruct (filter _ os) as [|o os_k] eqn:E; [done|].
  exists k, o, os_k. by simplify_eq.
Qed.

Lemma fold_upsert_values_2 (os : list O) (k : string) (o : O) (os_k : list O) :
  filter (λ o, key o = k) os = o :: os_k →
  absorb (o :: os_k) (init o) ∈ JS.Map_.values (fold_left step os []).
Proof.
  intros E. apply (Map_get_values k).
  rewrite fold_upsert_get. simpl. by rewrite E.
Qed.

End Upsert.

Lemma fold_left_map {A B C : Type} (f : A → C → A) (g : B → C)
    (l : list B) (a : A) :
  fold_left f (map g l) a = fold_left (λ a x, f a (g x)) l a.
Proof. revert a. induction l as [|x l IH]; intros a; simpl; [done | apply IH]. Qed.

(** ** Weekly aggregation, one identity at a time *)

Lemma observations_cons (dayData : DayData.t) (weeklyData : list DayData.t) :
  observations (dayData :: weeklyData)
  = match DayData.tokens dayData with
    | Some tokens => map (pair dayData) tokens
    | None => []
    end ++ observations weeklyData.
Proof. done. Qed.

(** The two nested [forEach] loops are one pass over the observations. *)
Lemma aggregate_days_observations (weeklyData : list DayData.t)
    (tokenMap : JS.Map_.t Aggregated.t) :
  fold_left WeeklyReportGenerator.aggregate_day weeklyData tokenMap
  = fold_left
      (upsert (λ o, Token.key o.2)
              (λ o, WeeklyReportGenerator.create o.1 o.2)
              (λ o, WeeklyReportGenerator.observe o.1 o.2))
      (observations weeklyData) tokenMap.
Proof.
  revert tokenMap.
  induction weeklyData as [|dayData weeklyData IH]; intros tokenMap; [done|].
  rewrite observations_cons, fold_left_app. simpl. rewrite IH. f_equal.
  unfold WeeklyReportGenerator.aggregate_day.
  destruct (DayData.tokens dayData) as [tokens|]; [|done].
  by rewrite fold_left_map.
Qed.

(** Every series of the output belongs to one identity [k], observed at
    least once, and is the finalized accumulator of [k]'s observations. *)
Lemma aggregate_entry (weeklyData : list DayData.t) (e : Aggregated.t) :
  e ∈ WeeklyReportGenerator.aggregateWeeklyTokenData weeklyData →
  ∃ k o os,
    observations_of k weeklyData = o :: os
    ∧ e = WeeklyReportGenerator.finalize (series_of o os).
Proof.
  unfold WeeklyReportGenerator.aggregateWeeklyTokenData.
  intros (v & -> & Hv)%list_elem_of_fmap.
  rewrite aggregate_days_observations in Hv.
  apply fold_upsert_values in Hv as (k & o & os & E & ->).
  by exists k, o, os.
Qed.

Lemma aggregate_entry_2 (weeklyData : list DayData.t) (k : string)
    (o : DayData.t * Token.t) (os : list (DayData.t * Token.t)) :
  observations_of k weeklyData = o :: os →
  WeeklyReportGenerator.finalize (series_of o os)
  ∈ WeeklyReportGenerator.aggregateWeeklyTokenData weeklyData.
Proof.
  intros E. unfold WeeklyReportGenerator.aggregateWeeklyTokenData.
  apply list_elem_of_fmap_2. rewrite aggregate_days_observations.
  by apply (fold_upsert_values_2
              (λ o, Token.key o.2)
              (λ o, WeeklyReportGenerator.create o.1 o.2)
              (λ o, WeeklyReportGenerator.observe o.1 o.2) _ k).
Qed.

Abbreviation absorb_week :=
  (absorb (λ o : DayData.t * Token.t, WeeklyReportGenerator.observe o.1 o.2)).

Lemma absorb_snoc {O V : Type} (upd : O → V → V) (os : list O) (o : O) (v : V) :
  absorb upd (os ++ [o]) v = upd o (absorb upd os v).
Proof. unfold absorb. by rewrite fold_left_app. Qed.

Lemma absorb_dailyData (os : list (DayData.t * Token.t)) (v : Aggregated.t) :
  Aggregated.dailyData (absorb_week os v)
  = Aggregated.dailyData v ++ map point_of os.
Proof.
  revert v. induction os as [|o os IH]; intros v; simpl.
  - by rewrite app_nil_r.
  - unfold absorb in *. simpl. rewrite IH. simpl. by rewrite <- app_assoc.
Qed.

Lemma absorb_daysActive (os : list (DayData.t * Token.t)) (v : Aggregated.t) :
  Aggregated.daysActive (absorb_week os v)
  = (Aggregated.daysActive v + length os)%nat.
Proof.
  revert v. induction os as [|o os IH]; intros v; simpl; [lia|].
  unfold absorb in *. simpl. rewrite IH. simpl. lia.
Qed.

Lemma absorb_token (os : list (DayData.t * Token.t)) (v : Aggregated.t) :
  Aggregated.token (absorb_week os v) = Aggregated.token v.
Proof.
  revert v. induction os as [|o os IH]; intros v; simpl; [done|].
  unfold absorb in *. simpl. by rewrite IH.
Qed.

Lemma series_dailyData o os :
  Aggregated.dailyData (series_of o os) = map point_of (o :: os).
Proof. unfold series_of. by rewrite absorb_dailyData. Qed.

Lemma series_daysActive o os :
  Aggregated.daysActive (series_of o os) = length (o :: os).
Proof. unfold series_of. by rewrite absorb_daysActive. Qed.

Lemma series_token o os : Aggregated.token (series_of o os) = o.2.
Proof. unfold series_of. by rewrite absorb_token. Qed.

(** The growth computed from a first and a current price, by cases: a
    first price that is missing or not positive gives 0; otherwise a
    missing current price gives [NaN]. *)
Lemma growth_cases (firstPrice currentPrice : option R) :
  (if decide (JS.field_gt firstPrice 0)
   then JS.mul
          (JS.div (JS.sub (JS.ToNumber currentPrice) (JS.ToNumber firstPrice))
                  (JS.ToNumber firstPrice))
          (JS.Num 100)
   else JS.Num 0)
  = match firstPrice with
    | Some f =>
        if decide (f > 0)
        then match currentPrice with
             | Some c => JS.Num ((c - f) / f * 100)
             | None => JS.NaN
             end
        else JS.Num 0
    | None => JS.Num 0
    end.
Proof.
  destruct firstPrice as [f|]; [|done].
  unfold JS.field_gt. simpl.
  destruct (decide (f > 0)) as [Hf|Hf]; [|done].
  by destruct currentPrice.
Qed.

(** The growth written at an observation that is not the first. *)
Lemma series_weeklyGrowth_snoc o os o' :
  Aggregated.weeklyGrowth (series_of o (os ++ [o']))
  = match Token.price o.2 with
    | Some f =>
        if decide (f > 0)
        then match Token.price o'.2 with
             | Some c => JS.Num ((c - f) / f * 100)
             | None => JS.NaN
             end
        else JS.Num 0
    | None => JS.Num 0
    end.
Proof.
  rewrite <- growth_cases.
  unfold series_of.
  change (o :: os ++ [o']) with ((o :: os) ++ [o']).
  rewrite absorb_snoc.
  unfold WeeklyReportGenerator.observe at 1. cbv zeta.
  cbn [Aggregated.weeklyGrowth].
  rewrite absorb_dailyData. simpl.
  match goal with
  | |- context [(1 <? ?n)%nat] =>
      replace (1 <? n)%nat with true; [done|]
  end.
  symmetry. apply Nat.ltb_lt. rewrite length_app. simpl. lia.
Qed.

Lemma series_weeklyGrowth_single o :
  Aggregated.weeklyGrowth (series_of o []) = JS.Num 0.
Proof. done. Qed.

Lemma series_key (k : string) (weeklyData : list DayData.t)
    (o : DayData.t * Token.t) (os : list (DayData.t * Token.t)) :
  observations_of k weeklyData = o :: os → Token.key o.2 = k.
Proof.
  intros E.
  assert (Ho : o ∈ observations_of k weeklyData) by (rewrite E; left).
  by apply list_elem_of_filter in Ho as [? _].
Qed.

(** C10.  Every series of the weekly aggregation has as many data points as
    active days, one per appearance of its identity in the snapshots, and at
    least one: the divisors of [avgVolume] and [avgMarketCap] are not 0. *)
Theorem aggregate_daysActive (weeklyData : list DayData.t) (e : Aggregated.t) :
  e ∈ WeeklyReportGenerator.aggregateWeeklyTokenData weeklyData →
  Aggregated.daysActive e = length (Aggregated.dailyData e)
  ∧ Aggregated.daysActive e
    = length (observations_of (Token.key (Aggregated.token e)) weeklyData)
  ∧ (1 <= Aggregated.daysActive e)%nat
  ∧ INR (Aggregated.daysActive e) ≠ 0
  ∧ INR (length (Aggregated.dailyData e)) ≠ 0
  ∧ Aggregated.avgVolume e
    = Aggregated.totalVolumeWeek e / INR (Aggregated.daysActive e)
  ∧ Aggregated.avgMarketCap e
    = JS.sum (map (λ day, JS.or (DailyPoint.marketCap day) 0)
                  (Aggregated.dailyData e))
      / INR (length (Aggregated.dailyData e)).
Proof.
  intros (k & o & os & E & ->)%aggregate_entry.
  pose proof (series_key _ _ _ _ E) as Hk.
  cbn [WeeklyReportGenerator.finalize Aggregated.daysActive
       Aggregated.dailyData Aggregated.token Aggregated.avgVolume
       Aggregated.avgMarketCap Aggregated.totalVolumeWeek].
  unfold JS.sum. rewrite fold_left_map.
  rewrite series_dailyData, series_daysActive, series_token, Hk, E.
  rewrite length_map.
  assert (Hpos : INR (length (o :: os)) ≠ 0) by (apply not_0_INR; done).
  repeat split; (done || simpl; lia).
Qed.

Lemma aggregate_daysActive_witness :
  let e := WeeklyReportGenerator.finalize
             (series_of (Sample.day "D1" [Sample.token "A" 1 5],
                         Sample.token "A" 1 5) []) in
  e ∈ WeeklyReportGenerator.aggregateWeeklyTokenData Sample.one_day
  ∧ Aggregated.daysActive e = length (Aggregated.dailyData e)
  ∧ (1 <= Aggregated.daysActive e)%nat.
Proof.
  intros e.
  assert (Hin : e ∈ WeeklyReportGenerator.aggregateWeeklyTokenData
                      Sample.one_day)
    by (by apply (aggregate_entry_2 _ "A")).
  destruct (aggregate_daysActive Sample.one_day e Hin) as (H1 & _ & H3 & _).
  done.
Defined.

(** ** Weekly growth *)

(** C5, as the code has it.  The data points of a series are the
    observations of its identity in order.  With a single data point the
    growth is 0 and [daysActive] is 1.  With two or more, [weeklyGrowth] is
    measured from the price of the first data point to the price of the
    last one: it is their percent change when the first price is positive
    and the last record has a price, [NaN] when the first price is positive
    and the last record has none, and 0 when the first price is missing or
    not positive. *)
Theorem aggregate_weeklyGrowth (weeklyData : list DayData.t) (e : Aggregated.t) :
  e ∈ WeeklyReportGenerator.aggregateWeeklyTokenData weeklyData →
  Aggregated.dailyData e
  = map point_of (observations_of (Token.key (Aggregated.token e)) weeklyData)
  ∧ (length (Aggregated.dailyData e) = 1%nat →
       Aggregated.weeklyGrowth e = JS.Num 0
       ∧ Aggregated.daysActive e = 1%nat)
  ∧ (∀ first latest,
       (2 <= length (Aggregated.dailyData e))%nat →
       head (Aggregated.dailyData e) = Some first →
       last (Aggregated.dailyData e) = Some latest →
       Aggregated.weeklyGrowth e
       = match DailyPoint.price first with
         | Some firstPrice =>
             if decide (firstPrice > 0)
             then match DailyPoint.price latest with
                  | Some latestPrice =>
                      JS.Num ((latestPrice - firstPrice) / firstPrice * 100)
                  | None => JS.NaN
                  end
             else JS.Num 0
         | None => JS.Num 0
         end).
Proof.
  intros (k & o & os & E & ->)%aggregate_entry.
  pose proof (series_key _ _ _ _ E) as Hk.
  cbn [WeeklyReportGenerator.finalize Aggregated.daysActive
       Aggregated.dailyData Aggregated.token Aggregated.weeklyGrowth].
  rewrite series_dailyData, series_daysActive, series_token, Hk, E.
  split; [done|]. rewrite length_map.
  destruct os as [|o' os _] using rev_ind.
  - split; [done|]. simpl. intros; lia.
  - split; [rewrite length_cons, length_app; simpl; lia|].
    intros first latest _ Hfirst Hlast.
    rewrite series_weeklyGrowth_snoc.
    simpl in Hfirst. simplify_eq.
    change (o :: os ++ [o']) with ((o :: os) ++ [o']) in Hlast.
    rewrite fmap_app in Hlast.
    change (point_of <$> [o']) with [point_of o'] in Hlast.
    rewrite last_snoc in Hlast. by simplify_eq.
Qed.

(** A week at the prices 1, 2 and 3 has a growth of 200 percent; a week in
    which the asset is stored at price 1 and then twice as a launchpad
    record, which has no price, has the growth [NaN]; a single data point
    has growth 0. *)
Lemma aggregate_weeklyGrowth_witness :
  let a1 := (Sample.day "D1" [Sample.token "A" 1 10], Sample.token "A" 1 10) in
  let a2 := (Sample.day "D2" [Sample.token "A" 2 10], Sample.token "A" 2 10) in
  let a3 := (Sample.day "D3" [Sample.token "A" 3 10], Sample.token "A" 3 10) in
  let l2 := (Sample.day "D2" [Sample.launch "A"], Sample.launch "A") in
  let l3 := (Sample.day "D3" [Sample.launch "A"], Sample.launch "A") in
  let b1 := (Sample.day "D1" [Sample.token "A" 1 5], Sample.token "A" 1 5) in
  let rising := WeeklyReportGenerator.finalize (series_of a1 [a2; a3]) in
  let unpriced := WeeklyReportGenerator.finalize (series_of a1 [l2; l3]) in
  let single := WeeklyReportGenerator.finalize (series_of b1 []) in
  (rising ∈ WeeklyReportGenerator.aggregateWeeklyTokenData Sample.growth_week
   ∧ Aggregated.weeklyGrowth rising = JS.Num 200)
  ∧ (unpriced
       ∈ WeeklyReportGenerator.aggregateWeeklyTokenData Sample.unpriced_week
     ∧ Aggregated.weeklyGrowth unpriced = JS.NaN)
  ∧ (single ∈ WeeklyReportGenerator.aggregateWeeklyTokenData Sample.one_day
     ∧ Aggregated.weeklyGrowth single = JS.Num 0
     ∧ Aggregated.daysActive single = 1%nat).
Proof.
  intros a1 a2 a3 l2 l3 b1 rising unpriced single.
  assert (Hin1 : rising ∈ WeeklyReportGenerator.aggregateWeeklyTokenData
                            Sample.growth_week)
    by (by apply (aggregate_entry_2 _ "A")).
  assert (Hin2 : unpriced ∈ WeeklyReportGenerator.aggregateWeeklyTokenData
                              Sample.unpriced_week)
    by (by apply (aggregate_entry_2 _ "A")).
  assert (Hin3 : single ∈ WeeklyReportGenerator.aggregateWeeklyTokenData
                            Sample.one_day)
    by (by apply (aggregate_entry_2 _ "A")).
  split; [|split]; (split; [done|]).
  - rewrite (proj2 (proj2 (aggregate_weeklyGrowth Sample.growth_week rising
                             Hin1))
               (point_of a1) (point_of a3));
      [|simpl; lia | reflexivity | reflexivity].
    simpl. rewrite decide_True by lra. f_equal. lra.
  - rewrite (proj2 (proj2 (aggregate_weeklyGrowth Sample.unpriced_week
                             unpriced Hin2))
               (point_of a1) (point_of l3));
      [|simpl; lia | reflexivity | reflexivity].
    simpl. by rewrite decide_True by lra.
  - apply (proj1 (proj2 (aggregate_weeklyGrowth Sample.one_day single Hin3))).
    reflexivity.
Defined.

(** C5, as the specification words it, fails: for an asset stored at prices
    0, 1 and 2 the earliest and latest valid prices are 1 and 2, a growth of
    100 percent, but the code measures from the first data point, whose
    price 0 is not positive, and leaves the growth at 0. *)
Lemma aggregate_weeklyGrowth_counterexample :
  ∃ e, e ∈ WeeklyReportGenerator.aggregateWeeklyTokenData
             Sample.late_price_week
       ∧ length (Aggregated.dailyData e) = 3%nat
       ∧ Aggregated.weeklyGrowth e = JS.Num 0
       ∧ Spec.weeklyGrowth (Aggregated.dailyData e) = 100.
Proof.
  set (o1 := (Sample.day "D1" [Sample.token "A" 0 10], Sample.token "A" 0 10)).
  set (o2 := (Sample.day "D2" [Sample.token "A" 1 10], Sample.token "A" 1 10)).
  set (o3 := (Sample.day "D3" [Sample.token "A" 2 10], Sample.token "A" 2 10)).
  exists (WeeklyReportGenerator.finalize (series_of o1 [o2; o3])).
  split; [by apply (aggregate_entry_2 _ "A")|].
  cbn [WeeklyReportGenerator.finalize Aggregated.dailyData
       Aggregated.weeklyGrowth].
  rewrite series_dailyData. split; [done|]. split.
  - change [o2; o3] with ([o2] ++ [o3]).
    rewrite (series_weeklyGrowth_snoc o1 [o2] o3). simpl.
    rewrite decide_False; [done | lra].
  - unfold Spec.weeklyGrowth. simpl.
    rewrite filter_cons_False by lra.
    rewrite filter_cons_True by lra.
    rewrite filter_cons_True by lra.
    simpl. unfold Helpers.calculatePercentageChange.
    rewrite decide_False by lra. lra.
Qed.

(** ** Running market-cap extremes *)

Lemma is_max_merge (m a b : R) (l : list R) :
  Spec.is_max m (Rmax a b :: l) → Spec.is_max m (a :: b :: l).
Proof.
  intros [Hin Hle]. split.
  - apply elem_of_cons in Hin as [->|Hin].
    + destruct (Rle_dec a b);
        [rewrite Rmax_right by done; right; left
        | rewrite Rmax_left by lra; left].
    + by do 2 right.
  - intros x Hx.
    pose proof (Hle (Rmax a b) ltac:(left)) as Hm.
    pose proof (Rmax_l a b). pose proof (Rmax_r a b).
    apply elem_of_cons in Hx as [->|Hx]; [lra|].
    apply elem_of_cons in Hx as [->|Hx]; [lra|].
    apply Hle. by right.
Qed.

Lemma is_min_merge (m a b : R) (l : list R) :
  Spec.is_min m (Rmin a b :: l) → Spec.is_min m (a :: b :: l).
Proof.
  intros [Hin Hle]. split.
  - apply elem_of_cons in Hin as [->|Hin].
    + destruct (Rle_dec a b);
        [rewrite Rmin_left by done; left
        | rewrite Rmin_right by lra; right; left].
    + by do 2 right.
  - intros x Hx.
    pose proof (Hle (Rmin a b) ltac:(left)) as Hm.
    pose proof (Rmin_l a b). pose proof (Rmin_r a b).
    apply elem_of_cons in Hx as [->|Hx]; [lra|].
    apply elem_of_cons in Hx as [->|Hx]; [lra|].
    apply Hle. by right.
Qed.

Lemma is_max_same (m : R) (l1 l2 : list R) :
  (∀ x, x ∈ l1 ↔ x ∈ l2) → Spec.is_max m l1 → Spec.is_max m l2.
Proof. intros Heq [Hin Hle]. split; [by apply Heq | intros x Hx; by apply Hle, Heq]. Qed.

Lemma is_min_same (m : R) (l1 l2 : list R) :
  (∀ x, x ∈ l1 ↔ x ∈ l2) → Spec.is_min m l1 → Spec.is_min m l2.
Proof. intros Heq [Hin Hle]. split; [by apply Heq | intros x Hx; by apply Hle, Heq]. Qed.

(** The running maximum is the greatest of its start value and the market
    caps absorbed. *)
Lemma absorb_maxMarketCap (os : list (DayData.t * Token.t)) (v : Aggregated.t) :
  Spec.is_max (Aggregated.maxMarketCap (absorb_week os v))
              (Aggregated.maxMarketCap v :: map (λ o, Token.marketCap o.2) os).
Proof.
  revert v. induction os as [|o os IH]; intros v.
  - unfold absorb. simpl. split; [left|].
    intros x ->%list_elem_of_singleton. lra.
  - change (absorb_week (o :: os) v)
      with (absorb_week os (WeeklyReportGenerator.observe o.1 o.2 v)).
    specialize (IH (WeeklyReportGenerator.observe o.1 o.2 v)).
    cbn [WeeklyReportGenerator.observe Aggregated.maxMarketCap] in IH.
    rewrite JS_or_0 in IH. by apply is_max_merge in IH.
Qed.

(** The running minimum is the least of its start value and the non-zero
    market caps absorbed: a zero is replaced by [Infinity] and skipped. *)
Lemma absorb_minMarketCap (os : list (DayData.t * Token.t)) (v : Aggregated.t) :
  Spec.is_min (Aggregated.minMarketCap (absorb_week os v))
              (Aggregated.minMarketCap v
               :: filter (λ x, x ≠ 0) (map (λ o, Token.marketCap o.2) os)).
Proof.
  revert v. induction os as [|o os IH]; intros v.
  - unfold absorb. simpl. split; [left|].
    intros x ->%list_elem_of_singleton. lra.
  - change (absorb_week (o :: os) v)
      with (absorb_week os (WeeklyReportGenerator.observe o.1 o.2 v)).
    specialize (IH (WeeklyReportGenerator.observe o.1 o.2 v)).
    cbn [WeeklyReportGenerator.observe Aggregated.minMarketCap] in IH.
    rewrite fmap_cons, filter_cons.
    unfold JS.or_Infinity in IH. case_decide as Hz.
    + rewrite decide_False by (intros Hn; by apply Hn). exact IH.
    + rewrite decide_True by done. by apply is_min_merge in IH.
Qed.

Lemma filter_nonzero_all (l : list DailyPoint.t) :
  (∀ d, d ∈ l → DailyPoint.marketCap d ≠ 0) →
  filter (λ x, x ≠ 0) (map DailyPoint.marketCap l)
  = map DailyPoint.marketCap l.
Proof.
  intros Hnz. induction l as [|d l IH]; [done|].
  rewrite fmap_cons, filter_cons_True by (apply Hnz; left).
  f_equal. apply IH. intros d' Hd'. apply Hnz. by right.
Qed.

(** The running minimum of a series: the least of the first market cap and
    the later non-zero ones. *)
Lemma series_minMarketCap (o : DayData.t * Token.t)
    (os : list (DayData.t * Token.t)) :
  Spec.is_min (Aggregated.minMarketCap (series_of o os))
              (Token.marketCap o.2
               :: filter (λ x, x ≠ 0) (map (λ o, Token.marketCap o.2) os)).
Proof.
  pose proof (absorb_minMarketCap (o :: os)
                (WeeklyReportGenerator.create o.1 o.2)) as H.
  cbn [WeeklyReportGenerator.create Aggregated.minMarketCap] in H.
  rewrite JS_or_0, fmap_cons, filter_cons in H.
  case_decide; [|done].
  eapply is_min_same; [|exact H].
  intros x. rewrite !elem_of_cons. tauto.
Qed.

Lemma series_maxMarketCap (o : DayData.t * Token.t)
    (os : list (DayData.t * Token.t)) :
  Spec.is_max (Aggregated.maxMarketCap (series_of o os))
              (map (λ o, Token.marketCap o.2) (o :: os)).
Proof.
  pose proof (absorb_maxMarketCap (o :: os)
                (WeeklyReportGenerator.create o.1 o.2)) as H.
  cbn [WeeklyReportGenerator.create Aggregated.maxMarketCap] in H.
  rewrite JS_or_0 in H.
  eapply is_max_same; [|exact H].
  intros x. rewrite fmap_cons, !elem_of_cons. tauto.
Qed.

(** C7, as the code has it.  The first observation of an asset sets its
    running minimum, and +infinity stands in for a later market cap of 0,
    which therefore never lowers it: for an asset whose first market cap is
    not 0, [minMarketCap] is the minimum of the non-zero market caps of its
    data points, and so of all of them when none is 0.  [maxMarketCap] is
    the maximum of the market caps of its data points. *)
Theorem aggregate_marketCap_extremes
    (weeklyData : list DayData.t) (e : Aggregated.t) :
  e ∈ WeeklyReportGenerator.aggregateWeeklyTokenData weeklyData →
  ∃ d0 rest,
    Aggregated.dailyData e = d0 :: rest
    ∧ Spec.is_max (Aggregated.maxMarketCap e)
                  (map DailyPoint.marketCap (Aggregated.dailyData e))
    ∧ (DailyPoint.marketCap d0 ≠ 0 →
         Spec.is_min (Aggregated.minMarketCap e)
                     (filter (λ x, x ≠ 0)
                        (map DailyPoint.marketCap (Aggregated.dailyData e))))
    ∧ ((∀ d, d ∈ Aggregated.dailyData e → DailyPoint.marketCap d ≠ 0) →
         Spec.is_min (Aggregated.minMarketCap e)
                     (map DailyPoint.marketCap (Aggregated.dailyData e))).
Proof.
  intros (k & o & os & E & ->)%aggregate_entry.
  exists (point_of o), (map point_of os).
  cbn [WeeklyReportGenerator.finalize Aggregated.dailyData
       Aggregated.maxMarketCap Aggregated.minMarketCap].
  rewrite series_dailyData. split; [done|].
  assert (Hmc : ∀ l, map DailyPoint.marketCap (map point_of l)
                     = map (λ o, Token.marketCap o.2) l).
  { intros l. by rewrite <- list_fmap_compose. }
  pose proof (series_minMarketCap o os) as Hmin.
  rewrite Hmc. split; [apply series_maxMarketCap|]. split.
  - intros Hnz. by rewrite fmap_cons, filter_cons_True.
  - intros Hnz. rewrite <- (Hmc os), filter_nonzero_all in Hmin.
    + by rewrite Hmc in Hmin.
    + intros d Hd. apply Hnz. by right.
Qed.

(** An asset observed with the market caps 5, 0, 3 and 7: the running
    minimum starts at 5, skips the 0 and is lowered to 3; the running
    maximum ends at 7. *)
Lemma aggregate_marketCap_extremes_witness :
  let o1 := (Sample.day "D1" [Sample.token "A" 1 5], Sample.token "A" 1 5) in
  let o2 := (Sample.day "D2" [Sample.token "A" 1 0], Sample.token "A" 1 0) in
  let o3 := (Sample.day "D3" [Sample.token "A" 1 3], Sample.token "A" 1 3) in
  let o4 := (Sample.day "D4" [Sample.token "A" 1 7], Sample.token "A" 1 7) in
  let e := WeeklyReportGenerator.finalize (series_of o1 [o2; o3; o4]) in
  e ∈ WeeklyReportGenerator.aggregateWeeklyTokenData Sample.cap_week
  ∧ map DailyPoint.marketCap (Aggregated.dailyData e) = [5; 0; 3; 7]
  ∧ Aggregated.minMarketCap e = 3
  ∧ Aggregated.maxMarketCap e = 7.
Proof.
  intros o1 o2 o3 o4 e.
  assert (Hin : e ∈ WeeklyReportGenerator.aggregateWeeklyTokenData
                      Sample.cap_week)
    by (by apply (aggregate_entry_2 _ "A")).
  assert (Hdd : Aggregated.dailyData e = map point_of [o1; o2; o3; o4])
    by apply series_dailyData.
  clearbody e.
  split; [exact Hin|]. split; [by rewrite Hdd|].
  destruct (aggregate_marketCap_extremes Sample.cap_week e Hin)
    as (d0 & rest & Hd & Hmax & Hmin & _).
  rewrite Hdd in Hd, Hmax, Hmin. simpl in Hd, Hmax, Hmin.
  injection Hd as <- <-.
  split.
  - destruct Hmin as [Hm Hle]; [simpl; lra|].
    rewrite filter_cons_True in Hm, Hle by lra.
    rewrite filter_cons_False in Hm, Hle by (intros Hz; by apply Hz).
    rewrite !filter_cons_True, filter_nil in Hm, Hle by lra.
    assert (Aggregated.minMarketCap e <= 3) by (apply Hle; right; left).
    apply elem_of_cons in Hm as [Hm|Hm]; [lra|].
    apply elem_of_cons in Hm as [Hm|Hm]; [lra|].
    apply list_elem_of_singleton in Hm. lra.
  - destruct Hmax as [Hm Hle].
    assert (7 <= Aggregated.maxMarketCap e)
      by (apply Hle; do 3 right; left).
    apply elem_of_cons in Hm as [Hm|Hm]; [lra|].
    apply elem_of_cons in Hm as [Hm|Hm]; [lra|].
    apply elem_of_cons in Hm as [Hm|Hm]; [lra|].
    apply list_elem_of_singleton in Hm. lra.
Defined.

(** C7, as the specification words it, fails: for an asset observed with
    market caps 5 and then 0, the running minimum starts at 5, not at
    +infinity, and the later 0 is skipped, so [minMarketCap] stays 5 although
    the least observed market cap is 0. *)
Lemma aggregate_minMarketCap_counterexample :
  ∃ e, e ∈ WeeklyReportGenerator.aggregateWeeklyTokenData
             Sample.zero_cap_week
       ∧ map DailyPoint.marketCap (Aggregated.dailyData e) = [5; 0]
       ∧ Aggregated.minMarketCap e = 5
       ∧ Spec.is_min 0 (map DailyPoint.marketCap (Aggregated.dailyData e))
       ∧ ¬ Spec.is_min (Aggregated.minMarketCap e)
             (map DailyPoint.marketCap (Aggregated.dailyData e)).
Proof.
  set (t1 := Sample.token "A" 1 5). set (t2 := Sample.token "A" 1 0).
  set (o1 := (Sample.day "D1" [t1], t1)).
  set (o2 := (Sample.day "D2" [t2], t2)).
  exists (WeeklyReportGenerator.finalize (series_of o1 [o2])).
  split; [by apply (aggregate_entry_2 _ "A")|].
  cbn [WeeklyReportGenerator.finalize Aggregated.dailyData
       Aggregated.minMarketCap].
  rewrite series_dailyData.
  assert (Hmin : Aggregated.minMarketCap (series_of o1 [o2]) = 5).
  { unfold series_of, absorb. simpl.
    unfold JS.or_Infinity, JS.or.
    rewrite !(decide_False (P := 5 = 0)) by lra.
    rewrite !(decide_True (P := 0 = 0)) by done.
    simpl. apply Rmin_left. lra. }
  rewrite Hmin. split; [done|]. split; [done|]. split.
  - split; [right; left|]. simpl.
    intros x [->| ->%list_elem_of_singleton]%elem_of_cons; lra.
  - intros [_ Hle]. specialize (Hle 0). simpl in Hle.
    assert (5 <= 0) by (apply Hle; right; left). lra.
Qed.

(** ** Top performers over a window *)

Lemma track_days_records (historicalData : list DayData.t)
    (tokenPerformance : JS.Map_.t Perf.t) :
  fold_left TokenDatabase.track_day historicalData tokenPerformance
  = fold_left (upsert Token.key TokenDatabase.create TokenDatabase.observe)
      (observations historicalData).*2 tokenPerformance.
Proof.
  revert tokenPerformance.
  induction historicalData as [|dayData historicalData IH];
    intros tokenPerformance; [done|].
  rewrite observations_cons, fmap_app, fold_left_app. simpl. rewrite IH.
  f_equal. unfold TokenDatabase.track_day.
  destruct (DayData.tokens dayData) as [tokens|]; [|done]. simpl.
  rewrite <- list_fmap_compose. f_equal.
  clear. induction tokens as [|t tokens IH]; [done|]. simpl. by f_equal.
Qed.

Abbreviation absorb_perf := (absorb TokenDatabase.observe).

Lemma absorb_perf_daysActive (ts : list Token.t) (perf : Perf.t) :
  Perf.daysActive (absorb_perf ts perf) = (Perf.daysActive perf + length ts)%nat.
Proof.
  revert perf. induction ts as [|t ts IH]; intros perf; simpl; [lia|].
  unfold absorb in *. simpl. rewrite IH. simpl. lia.
Qed.

Lemma absorb_perf_firstPrice (ts : list Token.t) (perf : Perf.t) :
  Perf.firstPrice (absorb_perf ts perf) = Perf.firstPrice perf.
Proof.
  revert perf. induction ts as [|t ts IH]; intros perf; simpl; [done|].
  unfold absorb in *. simpl. by rewrite IH.
Qed.

Lemma absorb_perf_lastPrice (ts : list Token.t) (perf : Perf.t) :
  Perf.lastPrice (absorb_perf ts perf)
  = default (Perf.lastPrice perf) (Token.price <$> last ts).
Proof.
  revert perf. induction ts as [|t ts IH] using rev_ind; intros perf; [done|].
  by rewrite absorb_snoc, last_snoc.
Qed.

Lemma observations_tokens (weeklyData : list DayData.t) :
  (observations weeklyData).*2
  = weeklyData ≫= (λ day, default [] (DayData.tokens day)).
Proof.
  induction weeklyData as [|day weeklyData IH]; [done|].
  rewrite observations_cons, fmap_app, IH. simpl. f_equal.
  destruct (DayData.tokens day) as [tokens|]; [|done]. simpl.
  rewrite <- list_fmap_compose. apply list_fmap_id.
Qed.

(** The records the loops visit are the records of the snapshots. *)
Lemma records_of_elem (k : string) (historicalData : list DayData.t)
    (token : Token.t) :
  token ∈ records_of k historicalData →
  ∃ day tokens, day ∈ historicalData
                ∧ DayData.tokens day = Some tokens
                ∧ token ∈ tokens.
Proof.
  unfold records_of. intros [_ Hin]%list_elem_of_filter.
  rewrite observations_tokens in Hin.
  apply list_elem_of_bind in Hin as (day & Hin & Hday).
  destruct (DayData.tokens day) as [tokens|] eqn:Et;
    [|by apply elem_of_nil in Hin].
  by exists day, tokens.
Qed.

(** Every tracked asset belongs to one identity with at least one record;
    it has been active once per record and its growth is measured from the
    price of the first record to the price of the last. *)
Lemma all_performers_entry (historicalData : list DayData.t) (p : Performer.t) :
  p ∈ all_performers historicalData →
  ∃ k t ts latest,
    records_of k historicalData = t :: ts
    ∧ last (t :: ts) = Some latest
    ∧ Performer.daysActive p = length (t :: ts)
    ∧ Performer.periodGrowth p
      = match Token.price t with
        | Some firstPrice =>
            if decide (firstPrice > 0)
            then match Token.price latest with
                 | Some lastPrice =>
                     JS.Num (Spec.period_growth firstPrice lastPrice)
                 | None => JS.NaN
                 end
            else JS.Num 0
        | None => JS.Num 0
        end.
Proof.
  unfold all_performers. intros (perf & -> & Hperf)%list_elem_of_fmap.
  rewrite track_days_records in Hperf.
  apply fold_upsert_values in Hperf as (k & t & ts & E & ->).
  destruct (last (t :: ts)) as [latest|] eqn:Hlast;
    [|by apply last_None in Hlast].
  exists k, t, ts, latest. split; [exact E|]. split; [done|].
  cbn [TokenDatabase.to_performer Performer.daysActive Performer.periodGrowth].
  rewrite absorb_perf_daysActive, absorb_perf_firstPrice, absorb_perf_lastPrice.
  rewrite Hlast. split; [done|].
  cbn [TokenDatabase.create Perf.firstPrice Perf.lastPrice default fmap
       option_fmap option_map].
  by rewrite growth_cases.
Qed.

(** When every stored record has a price, every growth is a number. *)
Lemma all_performers_numbers (historicalData : list DayData.t) :
  (∀ day tokens token,
     day ∈ historicalData → DayData.tokens day = Some tokens →
     token ∈ tokens → Token.price token ≠ None) →
  Forall (λ p, Performer.periodGrowth p ≠ JS.NaN)
         (all_performers historicalData).
Proof.
  intros Hpriced. apply Forall_forall.
  intros p (k & t & ts & latest & E & Hlast & _ & ->)%all_performers_entry.
  assert (Hin : latest ∈ records_of k historicalData).
  { rewrite E. apply last_Some_elem_of. by rewrite Hlast. }
  apply records_of_elem in Hin as (day & tokens & Hday & Et & Hin).
  specialize (Hpriced day tokens latest Hday Et Hin).
  destruct (Token.price t) as [f|]; [|done].
  case_decide; [|done]. by destruct (Token.price latest).
Qed.

(** The threshold [min(0.5 * days, 3)] forces 3 active days from a window
    of 5 days on: 2.5 already excludes 2. *)
Lemma threshold_floor (days n : nat) :
  (5 <= days)%nat → INR n >= JS.Math_min (INR days * 0.5) 3 → (3 <= n)%nat.
Proof.
  intros Hd Hn.
  pose proof (le_INR 5 days Hd) as H5. simpl in H5.
  destruct (le_lt_dec 3 n) as [|Hlt]; [done|]. exfalso.
  assert (Hn2 : (n <= 2)%nat) by lia.
  apply le_INR in Hn2. simpl in Hn2.
  unfold JS.Math_min, Rmin in Hn. destruct (Rle_dec _ _); lra.
Qed.

(** For a window of 4 days or less, 2 active days pass the threshold. *)
Lemma threshold_short (days : nat) :
  (days < 5)%nat → INR 2 >= JS.Math_min (INR days * 0.5) 3.
Proof.
  intros Hd.
  assert (Hd4 : (days <= 4)%nat) by lia.
  apply le_INR in Hd4. simpl in Hd4. simpl.
  unfold JS.Math_min, Rmin. destruct (Rle_dec _ _); lra.
Qed.

(** An asset stored on two days is returned for every window of 4 days or
    less. *)
Lemma getTopPerformers_two_days (days : nat) :
  (days < 5)%nat →
  ∃ p, p ∈ TokenDatabase.getTopPerformers Sample.zero_cap_week days 20
       ∧ Performer.daysActive p = 2%nat.
Proof.
  intros Hd.
  set (perf := absorb_perf [Sample.token "A" 1 5; Sample.token "A" 1 0]
                 (TokenDatabase.create (Sample.token "A" 1 5))).
  exists (TokenDatabase.to_performer perf). split; [|done].
  unfold TokenDatabase.getTopPerformers, JS.slice0.
  change (fold_left TokenDatabase.track_day Sample.zero_cap_week [])
    with [("A", perf)].
  cbn [length Nat.eqb JS.Map_.values fmap list_fmap snd].
  rewrite filter_cons_True by (by apply threshold_short).
  left.
Qed.

(** C4, as the code has it.  [getTopPerformers] keeps the assets with
    [daysActive >= min(0.5 * days, 3)] and returns the first [limit] of
    them after sorting by period growth.  The bound is a cap, not a floor:
    it guarantees 3 active days exactly for the windows of 5 days or more.
    The growth of an asset is measured from the price of its first record
    to the price of its last one; it is 0 when the first price is missing
    or not positive and [NaN] when the last record has no price.  When
    every qualifying growth is a number, as it is when every record has a
    price, the assets come in descending order of growth. *)
Theorem getTopPerformers_spec
    (historicalData : list DayData.t) (days limit : nat) :
  let performers := TokenDatabase.getTopPerformers historicalData days limit in
  let qualifying :=
    filter (λ p, INR (Performer.daysActive p) >= Rmin (0.5 * INR days) 3)
           (all_performers historicalData) in
  Forall (λ p, INR (Performer.daysActive p) >= Rmin (0.5 * INR days) 3)
         performers
  ∧ ((∀ data limit',
        Forall (λ p, (3 <= Performer.daysActive p)%nat)
               (TokenDatabase.getTopPerformers data days limit'))
     ↔ (5 <= days)%nat)
  ∧ (∃ rest,
       performers ++ rest ≡ₚ qualifying
       ∧ length performers = (limit `min` length qualifying)%nat
       ∧ (Forall (λ p, Performer.periodGrowth p ≠ JS.NaN) qualifying →
            StronglySorted
              (λ a b, JS.geq (Performer.periodGrowth a)
                             (Performer.periodGrowth b))
              (performers ++ rest)))
  ∧ ((∀ day tokens token,
        day ∈ historicalData → DayData.tokens day = Some tokens →
        token ∈ tokens → Token.price token ≠ None) →
       Forall (λ p, Performer.periodGrowth p ≠ JS.NaN) qualifying)
  ∧ Forall (λ p, ∃ k t ts latest,
              records_of k historicalData = t :: ts
              ∧ last (t :: ts) = Some latest
              ∧ Performer.daysActive p = length (t :: ts)
              ∧ Performer.periodGrowth p
                = match Token.price t with
                  | Some firstPrice =>
                      if decide (firstPrice > 0)
                      then match Token.price latest with
                           | Some lastPrice =>
                               JS.Num (Spec.period_growth firstPrice lastPrice)
                           | None => JS.NaN
                           end
                      else JS.Num 0
                  | None => JS.Num 0
                  end)
           performers.
Proof.
  assert (Hshape : ∀ data limit',
            TokenDatabase.getTopPerformers data days limit'
            = take limit'
                (JS.sort (λ a b,
                            JS.comparator (JS.sub (Performer.periodGrowth b)
                                                  (Performer.periodGrowth a)))
                   (filter (λ p, INR (Performer.daysActive p)
                                 >= Rmin (0.5 * INR days) 3)
                           (all_performers data)))).
  { intros data limit'.
    unfold TokenDatabase.getTopPerformers, all_performers, JS.slice0,
      JS.Math_min.
    destruct data as [|d hd]; [by destruct limit'|].
    cbn [length Nat.eqb].
    rewrite (filter_map_comm TokenDatabase.to_performer). do 3 f_equal.
    apply list_filter_iff. intros perf. simpl.
    by replace (0.5 * INR days) with (INR days * 0.5) by lra. }
  assert (Hthr : ∀ data limit',
            Forall (λ p, INR (Performer.daysActive p)
                         >= Rmin (0.5 * INR days) 3)
                   (TokenDatabase.getTopPerformers data days limit')).
  { intros data limit'. rewrite Hshape. apply Forall_forall.
    intros p Hin%(subseteq_take limit').
    rewrite sort_Permutation_any in Hin.
    by apply list_elem_of_filter in Hin as [? _]. }
  intros performers qualifying.
  set (sorted :=
         JS.sort (λ a b, JS.comparator (JS.sub (Performer.periodGrowth b)
                                               (Performer.periodGrowth a)))
                 qualifying).
  assert (Hperm : sorted ≡ₚ qualifying) by apply sort_Permutation_any.
  assert (Hp : performers = take limit sorted) by apply Hshape.
  assert (Hsub : ∀ p, p ∈ performers → p ∈ qualifying).
  { intros p Hin. rewrite <- Hperm. rewrite Hp in Hin.
    by apply (subseteq_take limit sorted). }
  split; [apply Hthr|]. split; [|split; [|split]].
  - split.
    + intros Hall. destruct (le_lt_dec 5 days) as [|Hlt]; [done|]. exfalso.
      destruct (getTopPerformers_two_days days Hlt) as (p & Hin & Hdays).
      specialize (Hall Sample.zero_cap_week 20%nat).
      apply (proj1 (Forall_forall _ _) Hall) in Hin. lia.
    + intros Hd data limit'. eapply Forall_impl; [apply Hthr|].
      simpl. intros p Hpthr.
      apply (threshold_floor days); [done|]. unfold JS.Math_min.
      by replace (INR days * 0.5) with (0.5 * INR days) by lra.
  - exists (drop limit sorted). rewrite Hp, take_drop.
    split; [done|]. split; [by rewrite length_take, Hperm|].
    intros Hnum. by apply sort_num_sorted.
  - intros Hpriced. apply Forall_forall.
    intros p [_ Hin]%list_elem_of_filter.
    by apply (proj1 (Forall_forall _ _)
                (all_performers_numbers historicalData Hpriced)).
  - apply Forall_forall. intros p Hin%Hsub.
    apply list_elem_of_filter in Hin as [_ Hin].
    by apply all_performers_entry.
Qed.

(** The figures of the two assets of [Sample.two_asset_week]. *)
Lemma two_asset_week_performers :
  let a := Sample.token "A" 1 10 in
  let b := Sample.token "B" 1 10 in
  let perfA := absorb_perf [a; Sample.token "A" 1 10; Sample.token "A" 2 10]
                 (TokenDatabase.create a) in
  let perfB := absorb_perf [b; Sample.token "B" 2 10; Sample.token "B" 4 10]
                 (TokenDatabase.create b) in
  fold_left TokenDatabase.track_day Sample.two_asset_week []
  = [("A", perfA); ("B", perfB)]
  ∧ Performer.periodGrowth (TokenDatabase.to_performer perfA) = JS.Num 100
  ∧ Performer.periodGrowth (TokenDatabase.to_performer perfB) = JS.Num 300.
Proof.
  intros a b perfA perfB. split; [reflexivity|].
  cbn [TokenDatabase.to_performer Performer.periodGrowth].
  rewrite !growth_cases. simpl.
  rewrite !decide_True by lra.
  split; f_equal; lra.
Qed.

(** A 5-day window over three days of two assets: both have 3 active days,
    and B, which grew by 300 percent, comes before A, which grew by 100. *)
Lemma getTopPerformers_spec_witness :
  let performers :=
    TokenDatabase.getTopPerformers Sample.two_asset_week 5 20 in
  map (λ p, (Token.symbol (Performer.token p), Performer.periodGrowth p))
      performers
  = [("B", JS.Num 300); ("A", JS.Num 100)]
  ∧ Forall (λ p, (3 <= Performer.daysActive p)%nat) performers.
Proof.
  intros performers. split.
  - destruct two_asset_week_performers as (Hmap & HA & HB).
    unfold performers, TokenDatabase.getTopPerformers, JS.slice0.
    rewrite Hmap.
    cbn [length Nat.eqb JS.Map_.values fmap list_fmap snd].
    assert (Hthr : INR 3 >= JS.Math_min (INR 5 * 0.5) 3).
    { simpl. unfold JS.Math_min, Rmin. destruct (Rle_dec _ _); lra. }
    rewrite !filter_cons_True, filter_nil by exact Hthr.
    change (length Sample.two_asset_week =? 0)%nat with false.
    cbn [map JS.sort foldr JS.sort_insert].
    rewrite HA, HB. rewrite decide_False by (simpl; lra).
    cbn [take map]. by rewrite HA, HB.
  - apply (proj2 (proj1 (proj2 (getTopPerformers_spec
                                  Sample.two_asset_week 5 20)))).
    lia.
Defined.

(** C4, as the specification words it, fails: with a 2-day window the
    threshold is min(1, 3) = 1, and an asset active on a single day is
    returned. *)
Lemma getTopPerformers_counterexample :
  ∃ p, p ∈ TokenDatabase.getTopPerformers Sample.one_day 2 20
       ∧ Performer.daysActive p = 1%nat
       ∧ INR (Performer.daysActive p) >= Rmin (0.5 * INR 2) 3
       ∧ ¬ (3 <= Performer.daysActive p)%nat.
Proof.
  set (perf := absorb_perf [Sample.token "A" 1 5]
                 (TokenDatabase.create (Sample.token "A" 1 5))).
  exists (TokenDatabase.to_performer perf).
  assert (Hthr : INR 1 >= Rmin (0.5 * INR 2) 3).
  { simpl. rewrite Rmin_left by lra. lra. }
  split; [|split; [done|split; [exact Hthr | simpl; lia]]].
  unfold TokenDatabase.getTopPerformers, JS.slice0.
  change (fold_left TokenDatabase.track_day Sample.one_day [])
    with [("A", perf)].
  cbn [length Nat.eqb JS.Map_.values fmap list_fmap snd].
  rewrite filter_cons_True.
  - left.
  - unfold JS.Math_min. replace (INR 2 * 0.5) with (0.5 * INR 2) by lra.
    exact Hthr.
Qed.

(** The series the weekly aggregation makes of [Sample.two_asset_week]. *)
Lemma two_asset_week_series :
  let a1 := (Sample.day "D1" [Sample.token "A" 1 10; Sample.token "B" 1 10],
             Sample.token "A" 1 10) in
  let a2 := (Sample.day "D2" [Sample.token "A" 1 10; Sample.token "B" 2 10],
             Sample.token "A" 1 10) in
  let a3 := (Sample.day "D3" [Sample.token "A" 2 10; Sample.token "B" 4 10],
             Sample.token "A" 2 10) in
  let b1 := (a1.1, Sample.token "B" 1 10) in
  let b2 := (a2.1, Sample.token "B" 2 10) in
  let b3 := (a3.1, Sample.token "B" 4 10) in
  let A := WeeklyReportGenerator.finalize (series_of a1 [a2; a3]) in
  let B := WeeklyReportGenerator.finalize (series_of b1 [b2; b3]) in
  WeeklyReportGenerator.aggregateWeeklyTokenData Sample.two_asset_week
  = [A; B]
  ∧ Aggregated.weeklyGrowth A = JS.Num 100
  ∧ Aggregated.weeklyGrowth B = JS.Num 300
  ∧ Aggregated.daysActive A = 3%nat
  ∧ Aggregated.daysActive B = 3%nat.
Proof.
  intros a1 a2 a3 b1 b2 b3 A B. split; [reflexivity|].
  subst A B.
  cbn [WeeklyReportGenerator.finalize Aggregated.weeklyGrowth
       Aggregated.daysActive].
  change [a2; a3] with ([a2] ++ [a3]). change [b2; b3] with ([b2] ++ [b3]).
  rewrite !series_weeklyGrowth_snoc, !series_daysActive. simpl.
  rewrite !decide_True by lra.
  repeat split; f_equal; lra.
Qed.

(** X1.  The weekly report's own query has the fixed floor of 3 active days:
    every weekly performer has 3 or more active days, and the query returns
    the first [limit] of the series with 3 or more active days after
    sorting them by weekly growth.  When the growth of each of these series
    is a number, the performers come in descending order of growth. *)
Lemma getTopWeeklyPerformers_floor (tokens : list Aggregated.t) (limit : nat) :
  let performers :=
    WeeklyReportGenerator.getTopWeeklyPerformers tokens limit in
  let eligible :=
    filter (λ t, (3 <= Aggregated.daysActive t)%nat) tokens in
  Forall (λ p, (3 <= WeeklyPerformer.daysActive p)%nat) performers
  ∧ length performers = (limit `min` length eligible)%nat
  ∧ (Forall (λ t, Aggregated.weeklyGrowth t ≠ JS.NaN) eligible →
       StronglySorted
         (λ a b, JS.geq (WeeklyPerformer.weeklyGrowth a)
                        (WeeklyPerformer.weeklyGrowth b))
         performers).
Proof.
  intros performers eligible.
  unfold performers, WeeklyReportGenerator.getTopWeeklyPerformers, JS.slice0.
  fold eligible.
  set (sorted := JS.sort _ eligible).
  assert (Hperm : sorted ≡ₚ eligible) by apply sort_Permutation_any.
  split; [|split].
  - apply Forall_fmap, Forall_forall. intros a Ha%(subseteq_take limit sorted).
    rewrite Hperm in Ha. by apply list_elem_of_filter in Ha as [? _].
  - by rewrite length_map, length_take, Hperm.
  - intros Hnum.
    assert (Hsorted : StronglySorted
              (λ a b, JS.geq (Aggregated.weeklyGrowth a)
                             (Aggregated.weeklyGrowth b)) sorted)
      by (by apply sort_num_sorted).
    apply (StronglySorted_map WeeklyPerformer.weeklyGrowth JS.geq).
    rewrite <- list_fmap_compose.
    apply (StronglySorted_map_2 Aggregated.weeklyGrowth JS.geq
             (take limit sorted)).
    rewrite <- (take_drop limit sorted) in Hsorted.
    by apply StronglySorted_app_1_l in Hsorted.
Qed.

(** On the series of [Sample.two_asset_week] the query returns B before A:
    their growths are 300 and 100 percent. *)
Lemma getTopWeeklyPerformers_floor_witness :
  let performers :=
    WeeklyReportGenerator.getTopWeeklyPerformers
      (WeeklyReportGenerator.aggregateWeeklyTokenData Sample.two_asset_week)
      15 in
  map (λ p, (WeeklyPerformer.symbol p, WeeklyPerformer.weeklyGrowth p))
      performers
  = [("B", JS.Num 300); ("A", JS.Num 100)]
  ∧ StronglySorted
      (λ a b, JS.geq (WeeklyPerformer.weeklyGrowth a)
                     (WeeklyPerformer.weeklyGrowth b))
      performers.
Proof.
  intros performers.
  destruct two_asset_week_series as (Hagg & HA & HB & HdA & HdB).
  split.
  - unfold performers, WeeklyReportGenerator.getTopWeeklyPerformers,
      JS.slice0.
    rewrite Hagg.
    rewrite !filter_cons_True, filter_nil by (rewrite ?HdA, ?HdB; lia).
    cbn [JS.sort foldr JS.sort_insert].
    rewrite HA, HB. rewrite decide_False by (simpl; lra).
    cbn [take map]. by rewrite HA, HB.
  - apply (proj2 (proj2 (getTopWeeklyPerformers_floor
                           (WeeklyReportGenerator.aggregateWeeklyTokenData
                              Sample.two_asset_week) 15))).
    rewrite Hagg.
    rewrite !filter_cons_True, filter_nil by (rewrite ?HdA, ?HdB; lia).
    repeat constructor; by rewrite ?HA, ?HB.
Defined.
(** ** Cohort survival *)

Lemma Set_add_spec (s : JS.Set_.t) (k : string) :
  NoDup s →
  NoDup (JS.Set_.add s k) ∧ ∀ x, x ∈ JS.Set_.add s k ↔ x ∈ s ∨ x = k.
Proof.
  intros Hnd. unfold JS.Set_.add, JS.Set_.has. case_bool_decide as Hk.
  - split; [done|]. intros x. split; [by left | by intros [?| ->]].
  - split.
    + apply NoDup_app. split; [done|]. split; [|apply NoDup_singleton].
      by intros x Hx ->%list_elem_of_singleton.
    + intros x. by rewrite elem_of_app, list_elem_of_singleton.
Qed.

Lemma Set_fold_spec (l : list string) (s : JS.Set_.t) :
  NoDup s →
  NoDup (fold_left JS.Set_.add l s)
  ∧ ∀ x, x ∈ fold_left JS.Set_.add l s ↔ x ∈ s ∨ x ∈ l.
Proof.
  revert s. induction l as [|k l IH]; intros s Hnd; simpl.
  - split; [done|]. intros x. rewrite elem_of_nil. tauto.
  - destruct (Set_add_spec s k Hnd) as [Hnd' Hin'].
    destruct (IH _ Hnd') as [Hnd'' Hin'']. split; [done|].
    intros x. rewrite Hin'', Hin', elem_of_cons. tauto.
Qed.

(** A [Set] built from a list holds each of its elements once. *)
Lemma Set_from_spec (l : list string) :
  NoDup (JS.Set_.from l) ∧ ∀ x, x ∈ JS.Set_.from l ↔ x ∈ l.
Proof.
  destruct (Set_fold_spec l [] (NoDup_nil_2 (A := string))) as [Hnd Hin].
  split; [done|]. intros x. unfold JS.Set_.from. rewrite Hin, elem_of_nil. tauto.
Qed.

Lemma Set_from_size (l : list string) :
  JS.Set_.size (JS.Set_.from l) = size (list_to_set l : gset string).
Proof.
  destruct (Set_from_spec l) as [Hnd Hin]. unfold JS.Set_.size.
  rewrite <- (size_list_to_set (C := gset string)) by done.
  f_equal. apply set_eq. intros x. by rewrite !elem_of_list_to_set, Hin.
Qed.

Lemma List_filter_elem (test : string → bool) (l : list string) (x : string) :
  x ∈ List.filter test l ↔ x ∈ l ∧ test x = true.
Proof. by rewrite !list_elem_of_In, List.filter_In. Qed.

Lemma List_filter_NoDup (test : string → bool) (l : list string) :
  NoDup l → NoDup (List.filter test l).
Proof.
  induction 1 as [|x l Hx Hnd IH]; simpl; [constructor|].
  destruct (test x); [|done].
  constructor; [|done]. rewrite List_filter_elem. tauto.
Qed.

(** Counting the members of one [Set] that satisfy a test counts a subset. *)
Lemma Set_filter_size (test : string → bool) (l : list string) (X : gset string) :
  NoDup l →
  (∀ x, x ∈ X ↔ x ∈ l ∧ test x = true) →
  length (List.filter test l) = size X.
Proof.
  intros Hnd HX.
  rewrite <- (size_list_to_set (C := gset string))
    by (by apply List_filter_NoDup).
  f_equal. apply set_eq. intros x.
  by rewrite elem_of_list_to_set, HX, List_filter_elem.
Qed.

(** C6.  With fewer than 2 snapshots [analyzeSurvivalRates] returns
    nothing.  With 2 or more, the first and last carrying their records, it
    reports the sizes of the two identity sets, of their intersection
    (survived), of the first minus the survivors (dropped), of the last set
    without the first (new entrants), and the survival rate
    [survived / starting * 100], which is 0 when nothing started. *)
Theorem analyzeSurvivalRates_spec (weeklyData : list DayData.t) :
  ((length weeklyData < 2)%nat →
     WeeklyReportGenerator.analyzeSurvivalRates weeklyData = None)
  ∧ ∀ firstDay lastDay firstTokens lastTokens,
      (2 <= length weeklyData)%nat →
      head weeklyData = Some firstDay →
      last weeklyData = Some lastDay →
      DayData.tokens firstDay = Some firstTokens →
      DayData.tokens lastDay = Some lastTokens →
      let F := Spec.identities firstTokens in
      let L := Spec.identities lastTokens in
      ∃ r, WeeklyReportGenerator.analyzeSurvivalRates weeklyData = Some r
           ∧ Survival.startingTokens r = size F
           ∧ Survival.endingTokens r = size L
           ∧ Survival.survived r = size (F ∩ L)
           ∧ Survival.dropped r = (size F - size (F ∩ L))%nat
           ∧ Survival.newEntrants r = size (L ∖ F)
           ∧ Survival.survivalRate r
             = if decide (size F = 0%nat) then 0
               else INR (size (F ∩ L)) / INR (size F) * 100.
Proof.
  split.
  - intros Hlen. unfold WeeklyReportGenerator.analyzeSurvivalRates.
    apply Nat.ltb_lt in Hlen. by rewrite Hlen.
  - intros firstDay lastDay firstTokens lastTokens Hlen Hfirst Hlast Hft Hlt F L.
    unfold WeeklyReportGenerator.analyzeSurvivalRates.
    apply Nat.ltb_ge in Hlen. rewrite Hlen, Hfirst, Hlast, Hft, Hlt.
    set (fs := JS.Set_.from (map Token.key firstTokens)).
    set (ls := JS.Set_.from (map Token.key lastTokens)).
    destruct (Set_from_spec (map Token.key firstTokens)) as [HFnd HFin].
    destruct (Set_from_spec (map Token.key lastTokens)) as [HLnd HLin].
    fold fs in HFnd, HFin. fold ls in HLnd, HLin.
    assert (HF : JS.Set_.size fs = size F) by apply Set_from_size.
    assert (HL : JS.Set_.size ls = size L) by apply Set_from_size.
    assert (Hs : length (List.filter (λ token, JS.Set_.has token ls) fs)
                 = size (F ∩ L)).
    { apply Set_filter_size; [done|]. intros x.
      unfold JS.Set_.has. rewrite bool_decide_eq_true, elem_of_intersection.
      unfold F, L, Spec.identities.
      by rewrite !elem_of_list_to_set, HFin, HLin. }
    assert (Hn : length (List.filter
                           (λ token, negb (JS.Set_.has token fs)) ls)
                 = size (L ∖ F)).
    { apply Set_filter_size; [done|]. intros x.
      unfold JS.Set_.has.
      rewrite negb_true_iff, bool_decide_eq_false, elem_of_difference.
      unfold F, L, Spec.identities.
      by rewrite !elem_of_list_to_set, HFin, HLin. }
    eexists. split; [reflexivity|]. simpl.
    rewrite Hs, Hn, HF, HL. repeat split.
    by destruct (size F).
Qed.

(** The scenario of the specification: {A,B,C} then {B,C,D}. *)
Lemma analyzeSurvivalRates_spec_witness :
  ∃ r, WeeklyReportGenerator.analyzeSurvivalRates Sample.cohort_week = Some r
       ∧ Survival.survived r = 2%nat
       ∧ Survival.dropped r = 1%nat
       ∧ Survival.newEntrants r = 1%nat
       ∧ Survival.survivalRate r = 2 / 3 * 100.
Proof.
  destruct (proj2 (analyzeSurvivalRates_spec Sample.cohort_week)
              (Sample.day "D1" [Sample.token "A" 1 1;
                                  Sample.token "B" 1 1;
                                  Sample.token "C" 1 1])
              (Sample.day "D2" [Sample.token "B" 1 1;
                                  Sample.token "C" 1 1;
                                  Sample.token "D" 1 1])
              _ _ ltac:(simpl; lia) eq_refl eq_refl eq_refl eq_refl)
    as (r & Hr & _ & _ & Hs & Hd & Hn & Hrate).
  exists r. split; [exact Hr|].
  rewrite Hs, Hd, Hn, Hrate.
  repeat split; try (vm_compute; reflexivity).
  rewrite decide_False by (vm_compute; lia).
  replace (size (Spec.identities [Sample.token "A" 1 1; Sample.token "B" 1 1;
                                  Sample.token "C" 1 1]
                 ∩ Spec.identities [Sample.token "B" 1 1; Sample.token "C" 1 1;
                                    Sample.token "D" 1 1]))
    with 2%nat by (vm_compute; reflexivity).
  replace (size (Spec.identities [Sample.token "A" 1 1; Sample.token "B" 1 1;
                                  Sample.token "C" 1 1]))
    with 3%nat by (vm_compute; reflexivity).
  simpl. lra.
Defined.

(** * Further properties of the code *)

(** ** Scoring *)

Lemma clamp_score_mono (x y : R) :
  x <= y → JS.Math_max 0 (JS.Math_min 100 x) <= JS.Math_max 0 (JS.Math_min 100 y).
Proof. intros. unfold JS.Math_max, JS.Math_min. repeat minmax_step; lra. Qed.

Lemma price_adjustment_mono (x y : R) :
  x <= y →
  JS.Math_min (JS.Math_max (x * 0.5) (-25)) 25
  <= JS.Math_min (JS.Math_max (y * 0.5) (-25)) 25.
Proof. intros. unfold JS.Math_max, JS.Math_min. repeat minmax_step; lra. Qed.

Lemma volume_adjustment_mono (x y : R) :
  x <= y → JS.Math_min (x * 0.3) 15 <= JS.Math_min (y * 0.3) 15.
Proof. intros. unfold JS.Math_min. repeat minmax_step; lra. Qed.

(** X2.  A higher 24h price change or a higher volume-to-market-cap ratio
    never lowers the score, the liquidity health and the buy/sell ratio
    being the same. *)
Theorem calculatePerformanceScore_monotone (a b : PerformanceAnalyzer.Analysis) :
  let pa := PerformanceAnalyzer.performance a in
  let pb := PerformanceAnalyzer.performance b in
  PerformanceAnalyzer.liquidityHealth (PerformanceAnalyzer.liquidityMetrics pa)
  = PerformanceAnalyzer.liquidityHealth (PerformanceAnalyzer.liquidityMetrics pb) →
  PerformanceAnalyzer.buyToSellRatio (PerformanceAnalyzer.tradingMetrics pa)
  = PerformanceAnalyzer.buyToSellRatio (PerformanceAnalyzer.tradingMetrics pb) →
  PerformanceAnalyzer.change24h (PerformanceAnalyzer.pricePerformance pa)
  <= PerformanceAnalyzer.change24h (PerformanceAnalyzer.pricePerformance pb) →
  PerformanceAnalyzer.volumeToMcapRatio (PerformanceAnalyzer.volumeMetrics pa)
  <= PerformanceAnalyzer.volumeToMcapRatio (PerformanceAnalyzer.volumeMetrics pb) →
  PerformanceAnalyzer.calculatePerformanceScore a
  <= PerformanceAnalyzer.calculatePerformanceScore b.
Proof.
  intros pa pb Hh Hr Hp Hv.
  unfold PerformanceAnalyzer.calculatePerformanceScore. cbv zeta.
  fold pa pb. rewrite !JS_or_0, Hh, Hr.
  pose proof (price_adjustment_mono _ _ Hp) as Hp'.
  pose proof (volume_adjustment_mono _ _ Hv) as Hv'.
  apply clamp_score_mono.
  repeat case_decide; lra.
Qed.

Lemma calculatePerformanceScore_monotone_witness :
  PerformanceAnalyzer.calculatePerformanceScore
    (PerformanceAnalyzer.analyzeTokenPerformance (Cases.asset (-10) 5 20) [])
  <= PerformanceAnalyzer.calculatePerformanceScore
       (PerformanceAnalyzer.analyzeTokenPerformance (Cases.asset 30 8 20) []).
Proof.
  apply calculatePerformanceScore_monotone; simpl.
  - reflexivity.
  - reflexivity.
  - rewrite !JS_or_0. lra.
  - rewrite !decide_True by lra. lra.
Defined.

(** ** Volatility and price stability *)

Lemma variance_sqrt_nonneg (returns : list R) (mean : R) :
  0 <= JS.Math_sqrt
         (fold_left (λ a b, a + JS.Math_pow (b - mean) 2) returns 0
          / INR (length returns)) * 100.
Proof.
  apply Rmult_le_pos; [apply sqrt_pos | lra].
Qed.

Lemma calculateVolatility_nonneg (prices : list R) :
  0 <= PerformanceAnalyzer.calculateVolatility prices.
Proof.
  unfold PerformanceAnalyzer.calculateVolatility.
  destruct (length prices <? 2)%nat; [lra|]. cbv zeta.
  destruct (length (PerformanceAnalyzer.returns_of prices) =? 0)%nat; [lra|].
  apply variance_sqrt_nonneg.
Qed.

(** X7.  With 3 or more historical points the sustainability assessment
    reports a price stability between 0 and 1 and consistencies of at most
    1. *)
Theorem calculateSustainability_range
    (current : Token.t) (historical : list Token.t) :
  (3 <= length historical)%nat →
  ∃ v l p overall,
    PerformanceAnalyzer.calculateSustainability current historical
    = PerformanceAnalyzer.Assessed v l p overall
    ∧ v <= 1 ∧ l <= 1 ∧ 0 <= p <= 1
    ∧ overall ∈ ["high"; "low"; "moderate"].
Proof.
  intros Hlen. unfold PerformanceAnalyzer.calculateSustainability.
  apply Nat.ltb_ge in Hlen. rewrite Hlen. cbv zeta.
  do 4 eexists. split; [reflexivity|].
  split; [apply calculateConsistency_upper|].
  split; [apply calculateConsistency_upper|]. split.
  - unfold PerformanceAnalyzer.calculatePriceStability, JS.Math_max. cbv zeta.
    match goal with
    | |- context [PerformanceAnalyzer.calculateVolatility ?ps] =>
        pose proof (calculateVolatility_nonneg ps) as Hv;
        generalize dependent (PerformanceAnalyzer.calculateVolatility ps)
    end.
    intros vol Hv. split; [apply Rmax_l | apply Rmax_lub; lra].
  - repeat case_decide; set_solver.
Qed.

Lemma calculateSustainability_range_witness :
  ∃ v l p overall,
    PerformanceAnalyzer.calculateSustainability (Cases.asset 0 5 20)
      [Cases.asset 0 5 20; Cases.asset 0 5 20; Cases.asset 0 5 20]
    = PerformanceAnalyzer.Assessed v l p overall
    ∧ 0 <= p <= 1.
Proof.
  destruct (calculateSustainability_range (Cases.asset 0 5 20)
              [Cases.asset 0 5 20; Cases.asset 0 5 20; Cases.asset 0 5 20])
    as (v & l & p & o & H & _ & _ & Hp & _); [simpl; lia|].
  by exists v, l, p, o.
Defined.

(** ** Increasing trends *)

Lemma count_increases_rising (v0 : R) (rest : list R) :
  Sorted Rlt (v0 :: rest) →
  Analyzer.count_increases (v0 :: rest) = length rest.
Proof.
  revert v0. induction rest as [|v1 rest IH]; intros v0 Hs; [done|].
  apply Sorted_inv in Hs as [Hs Hhd]. apply HdRel_inv in Hhd.
  change (Analyzer.count_increases (v0 :: v1 :: rest))
    with ((if decide (v1 > v0)%R then 1 else 0)
          + Analyzer.count_increases (v1 :: rest))%nat.
  rewrite IH by done. rewrite decide_True by lra. done.
Qed.

Lemma count_increases_falling (v0 : R) (rest : list R) :
  Sorted Rge (v0 :: rest) → Analyzer.count_increases (v0 :: rest) = 0%nat.
Proof.
  revert v0. induction rest as [|v1 rest IH]; intros v0 Hs; [done|].
  apply Sorted_inv in Hs as [Hs Hhd]. apply HdRel_inv in Hhd.
  change (Analyzer.count_increases (v0 :: v1 :: rest))
    with ((if decide (v1 > v0)%R then 1 else 0)
          + Analyzer.count_increases (v1 :: rest))%nat.
  rewrite IH by done. rewrite decide_False by lra. done.
Qed.

(** X8.  [isIncreasingTrend] needs two values; it accepts every series in
    which each value exceeds its predecessor and rejects every series in
    which no value does. *)
Theorem isIncreasingTrend_sorted (values : list R) :
  ((length values < 2)%nat → Analyzer.isIncreasingTrend values = false)
  ∧ ((2 <= length values)%nat → Sorted Rlt values →
       Analyzer.isIncreasingTrend values = true)
  ∧ (Sorted Rge values → Analyzer.isIncreasingTrend values = false).
Proof.
  unfold Analyzer.isIncreasingTrend. split; [|split].
  - intros Hlen. apply Nat.ltb_lt in Hlen. by rewrite Hlen.
  - intros Hlen Hs. apply Nat.ltb_ge in Hlen as Hlen'. rewrite Hlen'.
    destruct values as [|v0 rest]; [simpl in Hlen; lia|].
    rewrite count_increases_rising by done.
    apply bool_decide_eq_true. rewrite length_cons, S_INR.
    assert (1 <= INR (length rest)) by (apply (le_INR 1); simpl in Hlen; lia).
    replace (INR (length rest) / (INR (length rest) + 1 - 1)) with 1
      by (field; lra).
    lra.
  - intros Hs. destruct values as [|v0 rest]; [done|].
    destruct (length (v0 :: rest) <? 2)%nat; [done|].
    rewrite count_increases_falling by done.
    apply bool_decide_eq_false. change (INR 0) with 0.
    unfold Rdiv. rewrite Rmult_0_l. lra.
Qed.

Lemma isIncreasingTrend_sorted_witness :
  Analyzer.isIncreasingTrend [1; 2; 5] = true
  ∧ Analyzer.isIncreasingTrend [5; 5; 1] = false.
Proof.
  split.
  - apply (proj1 (proj2 (isIncreasingTrend_sorted [1; 2; 5]))); [simpl; lia|].
    repeat constructor; lra.
  - apply (proj2 (proj2 (isIncreasingTrend_sorted [5; 5; 1]))).
    repeat constructor; lra.
Defined.

(** ** Momentum *)

Lemma getMomentumScore_table :
  Analyzer.getMomentumScore "very_bullish" = 1
  ∧ Analyzer.getMomentumScore "bullish" = 0.7
  ∧ Analyzer.getMomentumScore "slightly_bullish" = 0.3
  ∧ Analyzer.getMomentumScore "neutral" = 0
  ∧ Analyzer.getMomentumScore "slightly_bearish" = -0.3
  ∧ Analyzer.getMomentumScore "bearish" = -0.7
  ∧ Analyzer.getMomentumScore "very_bearish" = -1
  ∧ Analyzer.getMomentumScore "extremely_high" = 1
  ∧ Analyzer.getMomentumScore "very_high" = 0.8
  ∧ Analyzer.getMomentumScore "high" = 0.6
  ∧ Analyzer.getMomentumScore "moderate" = 0.3
  ∧ Analyzer.getMomentumScore "low" = -0.2
  ∧ Analyzer.getMomentumScore "very_low" = -0.5
  ∧ Analyzer.getMomentumScore "unknown" = 0.
Proof.
  unfold Analyzer.getMomentumScore, Analyzer.scores.
  repeat split; cbn [JS.Map_.get]; simpl; apply JS_or_0.
Qed.

(** Settles an equivalence between an equation of two labels and a
    condition on numbers, the labels being known. *)
Ltac label_iff :=
  split;
  [ intros Hs; try discriminate Hs; try (split; [done|]);
    first [ lra | split; lra | left; split; lra | right; left; split; lra
          | right; right; split; lra | tauto ]
  | intros Hc; try reflexivity; exfalso; first [ tauto | intuition lra ] ].

(** The overall label in terms of the 24h change [pc] and the
    volume-to-market-cap ratio. *)
Lemma momentum_overall (current : Token.t) :
  let overall := Analyzer.overall (Analyzer.calculateMomentum current) in
  let pc := Token.priceChange24h current in
  let mc := Token.marketCap current in
  let ratio := Token.volume24h current / mc * 100 in
  (overall = "bearish" ↔ mc ≠ 0 ∧ pc <= -50 ∧ ratio <= 1)
  ∧ (overall = "bullish" ↔
       mc ≠ 0 ∧ ((pc > 50 ∧ ratio > 5) ∨ (pc > 20 ∧ ratio > 20)
                 ∨ (pc > 5 ∧ ratio > 100))).
Proof.
  cbv zeta. unfold Analyzer.calculateMomentum. cbn [Analyzer.overall].
  rewrite !JS_or_0.
  generalize (Token.priceChange24h current) (Token.volume24h current)
             (Token.marketCap current).
  intros pc vol mc.
  destruct getMomentumScore_table
    as (S1 & S2 & S3 & S4 & S5 & S6 & S7 & V1 & V2 & V3 & V4 & V5 & V6 & V7).
  unfold Analyzer.categorizeMomentum, Analyzer.categorizeVolume.
  destruct (decide (mc = 0)) as [Hmc|Hmc].
  - repeat case_decide;
      rewrite ?S1, ?S2, ?S3, ?S4, ?S5, ?S6, ?S7, ?V7 in *;
      try lra; (split; label_iff).
  - set (ratio := vol / mc * 100).
    repeat (match goal with
            | |- context [decide (pc > ?c)] => destruct (decide (pc > c))
            | |- context [decide (ratio > ?c)] => destruct (decide (ratio > c))
            end);
      try lra;
      rewrite ?S1, ?S2, ?S3, ?S4, ?S5, ?S6, ?S7,
              ?V1, ?V2, ?V3, ?V4, ?V5, ?V6;
      repeat case_decide; try lra; (split; label_iff).
Qed.

(** X9.  The momentum of an asset is bearish exactly when its price fell by
    50 percent or more on a volume of at most 1 percent of its market cap,
    and bullish exactly when a rise of more than 50, 20 or 5 percent comes
    with a volume of more than 5, 20 or 100 percent of the market cap. *)
Theorem calculateMomentum_labels (current : Token.t) :
  let overall := Analyzer.overall (Analyzer.calculateMomentum current) in
  let pc := Token.priceChange24h current in
  let mc := Token.marketCap current in
  let ratio := Token.volume24h current / mc * 100 in
  (overall = "bearish" ↔ mc ≠ 0 ∧ pc <= -50 ∧ ratio <= 1)
  ∧ (overall = "bullish" ↔
       mc ≠ 0 ∧ ((pc > 50 ∧ ratio > 5) ∨ (pc > 20 ∧ ratio > 20)
                 ∨ (pc > 5 ∧ ratio > 100))).
Proof. apply momentum_overall. Qed.

(** ** Buy pressure *)

(** X10.  Without sells the buy pressure is very_high if there was a buy and
    balanced if there was none; with sells it is very_high exactly when buys
    exceed twice the sells and very_low exactly when they are at most half
    of them. *)
Theorem assessBuyPressure_edges (buys sells : R) :
  (sells = 0 →
     Analyzer.assessBuyPressure buys sells
     = if decide (buys > 0) then "very_high" else "balanced")
  ∧ (sells > 0 →
       (Analyzer.assessBuyPressure buys sells = "very_high" ↔ buys > 2 * sells)
       ∧ (Analyzer.assessBuyPressure buys sells = "very_low"
          ↔ buys <= 0.5 * sells)).
Proof.
  unfold Analyzer.assessBuyPressure, PerformanceAnalyzer.calculateBuyToSellRatio.
  split.
  - intros ->. rewrite (decide_True (P := 0 = 0)) by done.
    destruct (decide (buys > 0)).
    + by rewrite decide_True by lra.
    + rewrite !decide_False by lra. rewrite decide_True by lra. done.
  - intros Hs. rewrite (decide_False (P := sells = 0)) by lra.
    assert (Hr : ∀ c, buys / sells > c ↔ buys > c * sells).
    { intros c. split; intros H.
      - apply (Rmult_lt_compat_r sells) in H; [|lra].
        unfold Rdiv in H. rewrite Rmult_assoc, Rinv_l, Rmult_1_r in H; lra.
      - apply (Rmult_lt_reg_r sells); [lra|].
        unfold Rdiv. rewrite Rmult_assoc, Rinv_l, Rmult_1_r; lra. }
    repeat case_decide;
      repeat match goal with
             | H : buys / sells > _ |- _ => apply Hr in H
             | H : ¬ buys / sells > _ |- _ => rewrite Hr in H
             end;
      (split; split; intros Hx; try discriminate Hx; try done; lra).
Qed.

Lemma assessBuyPressure_edges_witness :
  Analyzer.assessBuyPressure 3 0 = "very_high"
  ∧ (Analyzer.assessBuyPressure 1 4 = "very_low" ↔ 1 <= 0.5 * 4).
Proof.
  split.
  - rewrite (proj1 (assessBuyPressure_edges 3 0)) by done.
    by rewrite decide_True by lra.
  - apply (proj2 (assessBuyPressure_edges 1 4)). lra.
Defined.

(** ** Alerts *)

(** Membership of a label in a list of labels that is written out. *)
Ltac list_mem :=
  rewrite ?elem_of_cons, ?elem_of_nil;
  intuition (discriminate || lra || idtac).

(** X11.  At most three of the four alerts fire for one asset: a price
    breakout and a price dump exclude each other. No alert type is reported
    twice, and the low-liquidity alert fires exactly when the liquidity is
    below 5000 while the market cap exceeds 100000. *)
Theorem checkForAlerts_types (toFixed : R → nat → string)
    (current : Token.t) (historical : list Token.t) :
  let types :=
    map Analyzer.type (Analyzer.checkForAlerts toFixed current historical) in
  (length types <= 3)%nat
  ∧ NoDup types
  ∧ ¬ ("price_breakout" ∈ types ∧ "price_dump" ∈ types)
  ∧ ("low_liquidity" ∈ types
     ↔ Token.liquidity current < 5000 ∧ Token.marketCap current > 100000).
Proof.
  cbv zeta. unfold Analyzer.checkForAlerts. rewrite !JS_or_0.
  destruct (decide (Token.priceChange24h current > 100));
    destruct (decide (Token.priceChange24h current < -50)); try lra;
    destruct (decide (Token.marketCap current > 0));
    try destruct (decide (Token.volume24h current / Token.marketCap current
                          * 100 > 50));
    try (rewrite (decide_False (P := 0 > 50)) by lra);
    destruct (bool_decide_reflect (Token.liquidity current < 5000));
    destruct (bool_decide_reflect (Token.marketCap current > 100000));
    cbn [andb app map fmap list_fmap Analyzer.type length];
    (split; [lia|]);
    (split; [repeat (apply NoDup_cons; split; [list_mem|]); apply NoDup_nil_2|]);
    (split; list_mem).
Qed.

(** ** Recommendation *)

(** The score of an asset that fell by 50 percent or more on a volume of at
    most 1 percent of its market cap. *)
Lemma score_after_dump (analysis : PerformanceAnalyzer.Analysis) :
  let p := PerformanceAnalyzer.performance analysis in
  PerformanceAnalyzer.change24h (PerformanceAnalyzer.pricePerformance p) <= -50 →
  PerformanceAnalyzer.volumeToMcapRatio (PerformanceAnalyzer.volumeMetrics p) <= 1 →
  PerformanceAnalyzer.calculatePerformanceScore analysis <= 40.3.
Proof.
  intros p Hc Hv.
  unfold PerformanceAnalyzer.calculatePerformanceScore. cbv zeta. fold p.
  rewrite !JS_or_0.
  generalize dependent
    (PerformanceAnalyzer.change24h (PerformanceAnalyzer.pricePerformance p)).
  generalize dependent
    (PerformanceAnalyzer.volumeToMcapRatio (PerformanceAnalyzer.volumeMetrics p)).
  intros vr Hv pc Hc.
  unfold JS.Math_max, JS.Math_min.
  repeat case_decide; repeat minmax_step; lra.
Qed.

Lemma analyzed_score (toFixed : R → nat → string)
    (current : Token.t) (historical : list Token.t) :
  PerformanceAnalyzer.score
    (Analyzer.core (Analyzer.analyzeTokenPerformance toFixed current historical))
  = PerformanceAnalyzer.calculatePerformanceScore
      (PerformanceAnalyzer.mkAnalysis current
         (PerformanceAnalyzer.calculatePerformanceMetrics current)
         (PerformanceAnalyzer.calculateSustainability current historical) 0 0).
Proof. done. Qed.

(** X12.  An asset whose momentum is bearish is always recommended as
    'sell': the fall that makes it bearish keeps its score below the 'hold'
    threshold. *)
Theorem bearish_is_sell (toFixed : R → nat → string)
    (current : Token.t) (historical : list Token.t) :
  let analysis := Analyzer.analyzeTokenPerformance toFixed current historical in
  Analyzer.overall (Analyzer.momentum (Analyzer.trends analysis)) = "bearish" →
  PerformanceAnalyzer.score (Analyzer.core analysis) <= 40.3
  ∧ Analyzer.generateRecommendation analysis = "sell".
Proof.
  intros analysis Hb.
  assert (Hm : Analyzer.overall (Analyzer.calculateMomentum current) = "bearish")
    by exact Hb.
  apply (proj1 (momentum_overall current)) in Hm as (Hmc & Hpc & Hratio).
  assert (Hs : PerformanceAnalyzer.score (Analyzer.core analysis) <= 40.3).
  { unfold analysis. rewrite analyzed_score. apply score_after_dump.
    - simpl. by rewrite JS_or_0.
    - simpl. case_decide; lra. }
  split; [exact Hs|].
  unfold Analyzer.generateRecommendation. cbv zeta. rewrite Hb.
  rewrite !(bool_decide_eq_false_2 (_ > _)) by lra.
  by rewrite orb_true_r.
Qed.

Lemma bearish_is_sell_witness :
  Analyzer.generateRecommendation
    (Analyzer.analyzeTokenPerformance (λ _ _, "") (Cases.asset (-60) 1 20) [])
  = "sell".
Proof.
  apply (bearish_is_sell (λ _ _, "") (Cases.asset (-60) 1 20) []).
  apply (proj2 (proj1 (momentum_overall (Cases.asset (-60) 1 20)))).
  simpl. repeat split; lra.
Defined.

Lemma strong_buy_inv (analysis : Analyzer.FullAnalysis) :
  Analyzer.generateRecommendation analysis = "strong_buy" →
  PerformanceAnalyzer.score (Analyzer.core analysis) > 80
  ∧ Analyzer.overall (Analyzer.momentum (Analyzer.trends analysis)) = "bullish"
  ∧ Analyzer.alerts analysis = [].
Proof.
  unfold Analyzer.generateRecommendation. cbv zeta.
  generalize (PerformanceAnalyzer.score (Analyzer.core analysis)).
  generalize (Analyzer.overall (Analyzer.momentum (Analyzer.trends analysis))).
  intros momentum score Hr.
  destruct (bool_decide_reflect (score > 80)) as [Hs|Hs];
    destruct (bool_decide_reflect (momentum = "bullish")) as [Hb|Hb];
    destruct (Analyzer.alerts analysis) as [|a l]; simpl in Hr;
    try (repeat case_match; discriminate Hr).
  done.
Qed.

(** X13.  A 'strong_buy' is only given to an asset with a score above 80 and
    no alert whose price rose by more than 5 but not more than 100 percent;
    if its market cap is positive, the rise is above 20 percent and the
    volume is between 5 and 50 percent of the market cap. *)
Theorem strong_buy_conditions (toFixed : R → nat → string)
    (current : Token.t) (historical : list Token.t) :
  let analysis := Analyzer.analyzeTokenPerformance toFixed current historical in
  let pc := Token.priceChange24h current in
  let ratio := Token.volume24h current / Token.marketCap current * 100 in
  Analyzer.generateRecommendation analysis = "strong_buy" →
  PerformanceAnalyzer.score (Analyzer.core analysis) > 80
  ∧ Analyzer.alerts analysis = []
  ∧ 5 < pc <= 100
  ∧ (Token.marketCap current > 0 → 20 < pc ∧ 5 < ratio <= 50).
Proof.
  intros analysis pc ratio Hr.
  apply strong_buy_inv in Hr as (Hs & Hb & Hn).
  assert (Hm : Analyzer.overall (Analyzer.calculateMomentum current) = "bullish")
    by exact Hb.
  apply (proj2 (momentum_overall current)) in Hm as (Hmc & Hcases).
  fold pc ratio in Hcases.
  assert (Ha : Analyzer.checkForAlerts toFixed current historical = [])
    by exact Hn.
  unfold Analyzer.checkForAlerts in Ha. rewrite !JS_or_0 in Ha.
  fold pc in Ha.
  destruct (decide (pc > 100)) as [Hbig|Hbig].
  { repeat case_match; apply (f_equal length) in Ha;
      rewrite ?length_app in Ha; simpl in Ha; lia. }
  split; [exact Hs|]. split; [exact Hn|].
  split; [lra|].
  intros Hpos. rewrite (decide_True (P := Token.marketCap current > 0)) in Ha
    by done.
  fold ratio in Ha.
  destruct (decide (ratio > 50)) as [Hv|Hv].
  { repeat case_match; apply (f_equal length) in Ha;
      rewrite ?length_app in Ha; simpl in Ha; lia. }
  lra.
Qed.

Lemma strong_buy_conditions_witness :
  let analysis :=
    Analyzer.analyzeTokenPerformance (λ _ _, "") (Cases.asset 60 40 20) [] in
  Analyzer.generateRecommendation analysis = "strong_buy"
  ∧ PerformanceAnalyzer.score (Analyzer.core analysis) > 80.
Proof.
  intros analysis.
  assert (Hscore : PerformanceAnalyzer.score (Analyzer.core analysis) = 100).
  { unfold analysis. rewrite analyzed_score.
    unfold PerformanceAnalyzer.calculatePerformanceScore. cbv zeta. simpl.
    rewrite !JS_or_0.
    unfold PerformanceAnalyzer.assessLiquidityHealth,
      PerformanceAnalyzer.calculateBuyToSellRatio.
    rewrite (decide_True (P := 100 > 0)) by lra.
    rewrite (decide_False (P := 20 = 0)) by lra.
    rewrite (decide_False (P := 100 = 0)) by lra.
    rewrite (decide_True (P := 20 / 100 * 100 > 10)) by lra.
    rewrite (decide_False (P := 2 = 0)) by lra.
    rewrite (decide_True (P := "healthy" = "healthy")) by done.
    rewrite JS_or_nonzero by lra.
    rewrite (decide_True (P := 3 / 2 > 1.2)) by lra.
    unfold JS.Math_max, JS.Math_min. repeat minmax_step; lra. }
  assert (Hrec : Analyzer.generateRecommendation analysis = "strong_buy").
  { unfold Analyzer.generateRecommendation. cbv zeta. rewrite Hscore.
    rewrite (bool_decide_eq_true_2 (100 > 80)) by lra.
    assert (Hb : Analyzer.overall
                   (Analyzer.momentum (Analyzer.trends analysis)) = "bullish").
    { apply (proj2 (proj2 (momentum_overall (Cases.asset 60 40 20)))).
      simpl. split; [lra|]. left. lra. }
    rewrite Hb.
    assert (Ha : Analyzer.alerts analysis = []).
    { unfold analysis. cbn [Analyzer.alerts Analyzer.analyzeTokenPerformance].
      unfold Analyzer.checkForAlerts. simpl. rewrite !JS_or_0.
      rewrite (decide_False (P := 60 > 100)) by lra.
      rewrite (decide_False (P := 60 < -50)) by lra.
      rewrite (decide_True (P := 100 > 0)) by lra.
      rewrite (decide_False (P := 40 / 100 * 100 > 50)) by lra.
      rewrite (bool_decide_eq_false_2 (100 > 100000)) by lra.
      by rewrite andb_false_r. }
    rewrite Ha. done. }
  split; [exact Hrec|].
  apply (strong_buy_conditions (λ _ _, "") (Cases.asset 60 40 20) [] Hrec).
Defined.

(** ** New launches *)

Lemma ratio_percent (s t : nat) :
  (s <= t)%nat → (0 < t)%nat → 0 <= INR s / INR t * 100 <= 100.
Proof.
  intros Hst Ht. apply le_INR in Hst. apply lt_INR in Ht. simpl in Ht.
  pose proof (pos_INR s) as Hs.
  set (q := INR s / INR t).
  assert (Hq : q * INR t = INR s) by (unfold q; field; lra).
  assert (0 <= q <= 1) by nra. lra.
Qed.

(** The three growth classes leave no entry out and count none twice. *)
(** A growth falls in exactly one of the three growth classes or is
    [NaN]. *)
Lemma filter_four_way {A : Type} (g : A → JS.num) (l : list A) :
  (length (filter (λ t, JS.gt (g t) 50) l)
   + length (filter (λ t, JS.gt (g t) 0 ∧ JS.le (g t) 50) l)
   + length (filter (λ t, JS.le (g t) 0) l)
   + length (filter (λ t, g t = JS.NaN) l))%nat = length l.
Proof.
  induction l as [|x l IH]; [done|].
  rewrite !filter_cons.
  destruct (g x) as [v|]; simpl;
    repeat case_decide; simpl; try lia; try done; exfalso; lra.
Qed.

(** The sum of growths that all exceed [c] is a number, and at least [c]
    times their count. *)
Lemma fold_sum_numbers {A : Type} (g : A → JS.num) (c : R) (l : list A)
    (a : R) :
  Forall (λ t, JS.gt (g t) c) l →
  ∃ s, fold_left (λ sum t, JS.add sum (g t)) l (JS.Num a) = JS.Num s
       ∧ a + c * INR (length l) <= s.
Proof.
  revert a. induction l as [|x l IH]; intros a Hall.
  - exists a. simpl. split; [done | lra].
  - apply Forall_cons in Hall as [Hx Hl].
    destruct (g x) as [v|] eqn:Ev; [|done]. simpl in Hx.
    destruct (IH (a + v) Hl) as (s & Hs & Hle).
    exists s. split.
    + simpl. rewrite Ev. exact Hs.
    + change (length (x :: l)) with (S (length l)). rewrite S_INR. lra.
Qed.

(** X14.  Every new launch falls in exactly one of the three growth classes
    unless its growth is [NaN], in which case it counts in the total and in
    no class; the success rate is a percentage; the average growth of the
    successful launches is 0 when there is none and a number of at least 50
    otherwise; and the top new performers are at most 5 new launches of the
    input, each with a growth above 50. *)
Theorem analyzeNewLaunches_partition (tokens : list Aggregated.t) :
  let r := WeeklyQueries.analyzeNewLaunches tokens in
  let unpriced :=
    filter (λ t, Aggregated.weeklyGrowth t = JS.NaN)
           (List.filter WeeklyQueries.is_new_launch tokens) in
  NewLaunches.total r
  = (NewLaunches.successful r + NewLaunches.moderate r
     + NewLaunches.unsuccessful r + length unpriced)%nat
  ∧ (NewLaunches.total r <= length tokens)%nat
  ∧ 0 <= NewLaunches.successRate r <= 100
  ∧ (NewLaunches.successful r = 0%nat →
       NewLaunches.avgGrowthSuccessful r = JS.Num 0)
  ∧ ((0 < NewLaunches.successful r)%nat →
       ∃ average, NewLaunches.avgGrowthSuccessful r = JS.Num average
                  ∧ 50 <= average)
  ∧ (length (NewLaunches.topNewPerformers r) <= 5)%nat
  ∧ Forall (λ t, JS.gt (Aggregated.weeklyGrowth t) 50
                 ∧ WeeklyQueries.is_new_launch t = true
                 ∧ t ∈ tokens)
           (NewLaunches.topNewPerformers r).
Proof.
  intros r unpriced.
  unfold r, unpriced, WeeklyQueries.analyzeNewLaunches. cbv zeta.
  cbn [NewLaunches.total NewLaunches.successful NewLaunches.moderate
       NewLaunches.unsuccessful NewLaunches.successRate
       NewLaunches.avgGrowthSuccessful NewLaunches.topNewPerformers].
  set (newLaunches := List.filter WeeklyQueries.is_new_launch tokens).
  set (successful :=
         filter (λ t, JS.gt (Aggregated.weeklyGrowth t) 50) newLaunches).
  pose proof (filter_four_way Aggregated.weeklyGrowth newLaunches) as Hsum.
  fold successful in Hsum.
  assert (Hall : Forall (λ t, JS.gt (Aggregated.weeklyGrowth t) 50)
                        successful).
  { apply Forall_forall. by intros t [? _]%list_elem_of_filter. }
  split; [lia|].
  split; [apply List.filter_length_le|].
  split.
  { destruct (0 <? length newLaunches)%nat eqn:Hn; [|lra].
    apply Nat.ltb_lt in Hn. apply ratio_percent; lia. }
  split.
  { intros ->. done. }
  split.
  { intros Hpos.
    rewrite (proj2 (Nat.ltb_lt 0 (length successful)) Hpos).
    destruct (fold_sum_numbers Aggregated.weeklyGrowth 50 successful 0 Hall)
      as (total & -> & Habove).
    apply lt_INR in Hpos. simpl in Hpos.
    eexists. split; [reflexivity|].
    set (q := total / INR (length successful)).
    assert (Hq : q * INR (length successful) = total)
      by (unfold q; field; lra).
    nra. }
  split.
  { unfold JS.slice0. rewrite length_take. lia. }
  apply Forall_forall. intros t Ht%(subseteq_take 5 successful).
  apply list_elem_of_filter in Ht as [Hg Ht].
  apply list_elem_of_In, List.filter_In in Ht as [Ht Hnew].
  by apply list_elem_of_In in Ht.
Qed.

(** ** Volume consistency leaders *)

(** X15.  On the series the weekly aggregation returns, the volume
    consistency leaders are at most [limit] series with 5 or more active
    days, an average daily volume above 10000 (so a week's volume above
    50000) and a consistency in [0,1], in descending order of consistency.
    *)
Theorem getVolumeConsistencyLeaders_aggregated
    (weeklyData : list DayData.t) (limit : nat) :
  let leaders :=
    WeeklyQueries.getVolumeConsistencyLeaders
      (WeeklyReportGenerator.aggregateWeeklyTokenData weeklyData) limit in
  (length leaders <= limit)%nat
  ∧ Forall (λ p, (5 <= VolumeLeader.daysActive p)%nat
                 ∧ VolumeLeader.avgVolume p > 10000
                 ∧ VolumeLeader.totalVolumeWeek p > 50000
                 ∧ ∃ c, VolumeLeader.volumeConsistency p = Some c
                        ∧ 0 <= c <= 1)
           leaders
  ∧ StronglySorted
      (λ a b, default 0 (VolumeLeader.volumeConsistency a)
              >= default 0 (VolumeLeader.volumeConsistency b))
      leaders.
Proof.
  intros leaders.
  set (tokens := WeeklyReportGenerator.aggregateWeeklyTokenData weeklyData)
    in *.
  set (f := λ e : Aggregated.t, default 0 (Aggregated.volumeConsistency e)).
  set (P := λ e : Aggregated.t,
              (∃ c, Aggregated.volumeConsistency e = Some c ∧ 0 <= c <= 1)
              ∧ Aggregated.avgVolume e * INR (Aggregated.daysActive e)
                = Aggregated.totalVolumeWeek e).
  assert (Htok : Forall P tokens).
  { apply Forall_forall. intros e (k & o & os & E & ->)%aggregate_entry. split.
    - eexists. split; [reflexivity|].
      apply weekly_calculateVolumeConsistency_range.
    - cbn [WeeklyReportGenerator.finalize Aggregated.avgVolume
           Aggregated.daysActive Aggregated.totalVolumeWeek].
      field. rewrite series_daysActive. by apply not_0_INR. }
  unfold leaders, WeeklyQueries.getVolumeConsistencyLeaders, JS.slice0.
  set (qualifying := filter _ tokens).
  assert (Hq : Forall P qualifying).
  { apply Forall_forall. intros e [_ He]%list_elem_of_filter.
    by apply (proj1 (Forall_forall P tokens) Htok). }
  rewrite (sort_ext P _ (λ a b, f b - f a) qualifying); [|..|exact Hq].
  2:{ intros x y [(cx & Ex & _) _] [(cy & Ey & _) _]. unfold f.
      by rewrite Ex, Ey. }
  set (sorted := JS.sort _ qualifying).
  assert (Hperm : sorted ≡ₚ qualifying) by apply (sort_Permutation f).
  assert (Hsorted : StronglySorted (λ a b, f a >= f b) sorted)
    by apply (sort_sorted f).
  split; [rewrite length_map, length_take; lia|].
  split.
  - apply Forall_fmap, Forall_forall.
    intros e He%(subseteq_take limit sorted).
    rewrite Hperm in He.
    pose proof (proj1 (Forall_forall P qualifying) Hq e He) as [Hc Havg].
    apply list_elem_of_filter in He as [[Hdays Hvol] _].
    simpl. repeat split; [done..| |done].
    apply le_INR in Hdays. rewrite <- Havg.
    change (INR 5) with (2 + 1 + 1 + 1) in Hdays. nra.
  - apply (StronglySorted_map
             (λ p, default 0 (VolumeLeader.volumeConsistency p))
             (λ x y, x >= y)).
    rewrite <- list_fmap_compose.
    apply (StronglySorted_map_2 f (λ x y, x >= y) (take limit sorted)).
    rewrite <- (take_drop limit sorted) in Hsorted.
    by apply StronglySorted_app_1_l in Hsorted.
Qed.

(** ** Weekly summary *)

(** X17.  The top performer of the weekly summary is missing exactly when no
    series has 3 active days; otherwise it is a series with 3 or more active
    days, reported with its symbol and its weekly growth.  When the growth
    of each series with 3 or more active days is a number, no such series
    has a larger growth than the top performer. *)
Theorem generateWeeklySummary_topPerformer
    (tokens : list Aggregated.t) (weeklyData : list DayData.t) :
  let summary := WeeklyQueries.generateWeeklySummary tokens weeklyData in
  let eligible :=
    filter (λ t, (3 <= Aggregated.daysActive t)%nat) tokens in
  (eligible = [] →
     WeeklySummary.topPerformer summary = None
     ∧ WeeklySummary.topPerformerGrowth summary = None)
  ∧ (eligible ≠ [] →
       ∃ t, t ∈ eligible
            ∧ WeeklySummary.topPerformer summary
              = Some (Token.symbol (Aggregated.token t))
            ∧ WeeklySummary.topPerformerGrowth summary
              = Some (Aggregated.weeklyGrowth t)
            ∧ (Forall (λ t', Aggregated.weeklyGrowth t' ≠ JS.NaN) eligible →
               ∀ t', t' ∈ eligible →
                     JS.geq (Aggregated.weeklyGrowth t)
                            (Aggregated.weeklyGrowth t'))).
Proof.
  intros summary eligible.
  unfold summary, WeeklyQueries.generateWeeklySummary. cbv zeta.
  cbn [WeeklySummary.topPerformer WeeklySummary.topPerformerGrowth].
  unfold WeeklyReportGenerator.getTopWeeklyPerformers, JS.slice0.
  fold eligible.
  pose proof (sort_num_sorted Aggregated.weeklyGrowth eligible) as Hsorted.
  set (sorted := JS.sort _ eligible) in *.
  assert (Hperm : sorted ≡ₚ eligible) by apply sort_Permutation_any.
  split.
  - intros E. rewrite E in Hperm. apply Permutation_nil_r in Hperm.
    by rewrite Hperm.
  - intros Hne. destruct sorted as [|t rest].
    { by apply Permutation_nil_l, symmetry in Hperm. }
    exists t. split; [rewrite <- Hperm; left|].
    split; [done|]. split; [done|].
    intros Hnum t' Ht'. rewrite <- Hperm in Ht'.
    assert (Ht : Aggregated.weeklyGrowth t ≠ JS.NaN).
    { apply (proj1 (Forall_forall _ _) Hnum). rewrite <- Hperm. left. }
    apply Hsorted, StronglySorted_inv in Hnum as [_ Hall].
    apply elem_of_cons in Ht' as [->|Ht'].
    + destruct (Aggregated.weeklyGrowth t); [simpl; lra | done].
    + by apply (proj1 (Forall_forall _ _) Hall) in Ht'.
Qed.

(** ** Cohort survival, continued *)

(** X18.  The report balances: every starting identity either survived or
    was dropped, every ending identity either survived or is a new entrant,
    and the survival rate is a percentage, 100 exactly when something
    started and nothing was dropped. Nothing is reported only for fewer than
    two snapshots or when the first or last snapshot has no record list. *)
Theorem analyzeSurvivalRates_balance (weeklyData : list DayData.t) :
  match WeeklyReportGenerator.analyzeSurvivalRates weeklyData with
  | Some r =>
      Survival.startingTokens r
      = (Survival.survived r + Survival.dropped r)%nat
      ∧ Survival.endingTokens r
        = (Survival.survived r + Survival.newEntrants r)%nat
      ∧ 0 <= Survival.survivalRate r <= 100
      ∧ (Survival.survivalRate r = 100
         ↔ (0 < Survival.startingTokens r)%nat ∧ Survival.dropped r = 0%nat)
  | None =>
      (length weeklyData < 2)%nat
      ∨ ∃ day, (head weeklyData = Some day ∨ last weeklyData = Some day)
               ∧ DayData.tokens day = None
  end.
Proof.
  unfold WeeklyReportGenerator.analyzeSurvivalRates.
  destruct (length weeklyData <? 2)%nat eqn:Hlen.
  { left. by apply Nat.ltb_lt. }
  destruct (head weeklyData) as [firstDay|] eqn:Hfirst; cycle 1.
  { left. destruct weeklyData; [simpl; lia | done]. }
  destruct (last weeklyData) as [lastDay|] eqn:Hlast; cycle 1.
  { left. apply last_None in Hlast. subst. simpl. lia. }
  destruct (DayData.tokens firstDay) as [firstTokens|] eqn:Hft; cycle 1.
  { right. exists firstDay. split; [by left | done]. }
  destruct (DayData.tokens lastDay) as [lastTokens|] eqn:Hlt; cycle 1.
  { right. exists lastDay. split; [by right | done]. }
  cbv zeta.
  cbn [Survival.startingTokens Survival.endingTokens Survival.survived
       Survival.dropped Survival.newEntrants Survival.survivalRate].
  set (fs := JS.Set_.from (map Token.key firstTokens)).
  set (ls := JS.Set_.from (map Token.key lastTokens)).
  destruct (Set_from_spec (map Token.key firstTokens)) as [HFnd HFin].
  destruct (Set_from_spec (map Token.key lastTokens)) as [HLnd HLin].
  fold fs in HFnd, HFin. fold ls in HLnd, HLin.
  set (F := list_to_set fs : gset string).
  set (L := list_to_set ls : gset string).
  assert (HF : JS.Set_.size fs = size F)
    by (symmetry; by apply size_list_to_set).
  assert (HL : JS.Set_.size ls = size L)
    by (symmetry; by apply size_list_to_set).
  assert (Hs : length (List.filter (λ token, JS.Set_.has token ls) fs)
               = size (F ∩ L)).
  { apply Set_filter_size; [done|]. intros x.
    unfold JS.Set_.has. rewrite bool_decide_eq_true, elem_of_intersection.
    unfold F, L. by rewrite !elem_of_list_to_set. }
  assert (Hn : length (List.filter
                         (λ token, negb (JS.Set_.has token fs)) ls)
               = size (L ∖ F)).
  { apply Set_filter_size; [done|]. intros x.
    unfold JS.Set_.has.
    rewrite negb_true_iff, bool_decide_eq_false, elem_of_difference.
    unfold F, L. by rewrite !elem_of_list_to_set. }
  rewrite Hs, Hn, HF, HL.
  assert (Hsub : (size (F ∩ L) <= size F)%nat).
  { apply subseteq_size. intros x Hx.
    by apply elem_of_intersection in Hx as [? _]. }
  assert (Hsplit : size L = (size (F ∩ L) + size (L ∖ F))%nat).
  { rewrite <- size_union.
    - f_equal. apply set_eq. intros x.
      rewrite elem_of_union, elem_of_intersection, elem_of_difference.
      destruct (decide (x ∈ F)); tauto.
    - apply elem_of_disjoint. intros x.
      rewrite elem_of_intersection, elem_of_difference. tauto. }
  split; [lia|]. split; [exact Hsplit|].
  destruct (0 <? size F)%nat eqn:Hpos.
  - apply Nat.ltb_lt in Hpos.
    split; [by apply ratio_percent|].
    pose proof (lt_INR _ _ Hpos) as HposR. simpl in HposR.
    split.
    + intros Hrate. split; [done|].
      assert (HR : INR (size (F ∩ L)) = INR (size F)).
      { apply (Rmult_eq_reg_r (/ INR (size F) * 100)).
        - rewrite <- Rmult_assoc. fold (Rdiv (INR (size (F ∩ L))) (INR (size F))).
          rewrite Hrate. field. lra.
        - apply Rmult_integral_contrapositive_currified; [|lra].
          apply Rinv_neq_0_compat. lra. }
      apply INR_eq in HR. lia.
    + intros [_ Hd].
      assert (HE : size (F ∩ L) = size F) by lia.
      rewrite HE. field. lra.
  - apply Nat.ltb_ge in Hpos. split; [lra|].
    split; [lra | lia].
Qed.

(** ** One series per identity *)

Lemma upsert_keys {O V : Type} (key : O → string) (init : O → V)
    (upd : O → V → V) (m : JS.Map_.t V) (o : O) :
  (upsert key init upd m o).*1 = JS.Set_.add m.*1 (key o).
Proof.
  unfold upsert, JS.Set_.add, JS.Set_.has, JS.Map_.has.
  destruct (JS.Map_.get (key o) m) as [v|] eqn:E; simpl.
  - rewrite E, Map_set_keys. unfold JS.Map_.has. rewrite E.
    rewrite bool_decide_eq_true_2; [done|].
    apply Map_get_elem in E. apply list_elem_of_fmap. by exists (key o, v).
  - rewrite Map_get_set_eq, !Map_set_keys. unfold JS.Map_.has.
    rewrite Map_get_set_eq, E.
    rewrite bool_decide_eq_false_2; [done|]. by apply Map_get_None.
Qed.

(** The keys of the map are the identities observed, in the order of their
    first observation. *)
Lemma fold_upsert_keys {O V : Type} (key : O → string) (init : O → V)
    (upd : O → V → V) (os : list O) (m : JS.Map_.t V) :
  (fold_left (upsert key init upd) os m).*1
  = fold_left JS.Set_.add (map key os) m.*1.
Proof.
  revert m. induction os as [|o os IH]; intros m; simpl; [done|].
  by rewrite IH, upsert_keys.
Qed.

(** X19.  The weekly aggregation returns one series per identity, in the
    order in which the identities first appear in the snapshots: the
    identities of the series are those of a [Set] filled with the identity
    of every record in turn. So no identity has two series, and an identity
    has a series exactly when a snapshot holds a record of it. *)
Theorem aggregate_identities (weeklyData : list DayData.t) :
  let ids :=
    map (λ e, Token.key (Aggregated.token e))
        (WeeklyReportGenerator.aggregateWeeklyTokenData weeklyData) in
  ids = JS.Set_.from
          (map Token.key
               (weeklyData ≫= (λ day, default [] (DayData.tokens day))))
  ∧ NoDup ids
  ∧ ∀ k, k ∈ ids ↔ ∃ day tokens token,
                     day ∈ weeklyData
                     ∧ DayData.tokens day = Some tokens
                     ∧ token ∈ tokens
                     ∧ Token.key token = k.
Proof.
  intros ids.
  assert (Hids : ids = JS.Set_.from
            (map Token.key
                 (weeklyData ≫= (λ day, default [] (DayData.tokens day))))).
  { unfold ids, WeeklyReportGenerator.aggregateWeeklyTokenData. cbv zeta.
    rewrite aggregate_days_observations.
    set (step := upsert _ _ _).
    set (m := fold_left step (observations weeklyData) []).
    assert (Hm : ∀ kv, kv ∈ m → Token.key (Aggregated.token kv.2) = kv.1).
    { intros [k v] Hkv. simpl.
      apply Map_elem_get in Hkv; [|apply fold_upsert_NoDup, NoDup_nil_2].
      unfold m, step in Hkv. rewrite fold_upsert_get in Hkv. simpl in Hkv.
      destruct (filter _ (observations weeklyData)) as [|o os_k] eqn:E;
        [done|].
      injection Hkv as <-.
      change (Token.key (Aggregated.token (series_of o os_k)) = k).
      rewrite series_token.
      assert (Ho : o ∈ filter (λ o, Token.key o.2 = k)
                          (observations weeklyData)) by (rewrite E; left).
      by apply list_elem_of_filter in Ho as [? _]. }
    unfold JS.Map_.values. rewrite <- !list_fmap_compose.
    transitivity (m.*1).
    { apply list_fmap_ext. intros i kv Hi. simpl.
      apply Hm. by eapply list_elem_of_lookup_2. }
    unfold m, step. rewrite fold_upsert_keys. unfold JS.Set_.from. simpl.
    by rewrite <- observations_tokens, <- list_fmap_compose. }
  split; [exact Hids|].
  destruct (Set_from_spec
              (map Token.key
                   (weeklyData ≫= (λ day, default [] (DayData.tokens day)))))
    as [Hnd Hin].
  rewrite <- Hids in Hnd, Hin.
  split; [exact Hnd|].
  intros k. rewrite Hin, list_elem_of_fmap. split.
  - intros (token & -> & Htoken).
    apply list_elem_of_bind in Htoken as (day & Htoken & Hday).
    destruct (DayData.tokens day) as [tokens|] eqn:Et;
      [|by apply elem_of_nil in Htoken].
    by exists day, tokens, token.
  - intros (day & tokens & token & Hday & Et & Htoken & <-).
    exists token. split; [done|].
    apply list_elem_of_bind. exists day. by rewrite Et.
Qed.

(** ** The figures of a series *)

Lemma absorb_firstSeen (os : list (DayData.t * Token.t)) (v : Aggregated.t) :
  Aggregated.firstSeen (absorb_week os v) = Aggregated.firstSeen v.
Proof.
  revert v. induction os as [|o os IH]; intros v; simpl; [done|].
  unfold absorb in *. simpl. by rewrite IH.
Qed.

Lemma absorb_totalVolumeWeek (os : list (DayData.t * Token.t))
    (v : Aggregated.t) :
  Aggregated.totalVolumeWeek (absorb_week os v)
  = fold_left (λ sum o, sum + JS.or (Token.volume24h o.2) 0) os
              (Aggregated.totalVolumeWeek v).
Proof.
  revert v. induction os as [|o os IH]; intros v; simpl; [done|].
  unfold absorb in *. simpl. by rewrite IH.
Qed.

(** X20.  Every series of the weekly aggregation is first seen on the date
    of its first data point and last seen on the date of its last one; its
    week's volume is the sum of the volumes of its data points, taken in
    their order; its volume consistency lies in [0,1] and its price
    volatility is not negative. *)
Theorem aggregate_series_figures
    (weeklyData : list DayData.t) (e : Aggregated.t) :
  e ∈ WeeklyReportGenerator.aggregateWeeklyTokenData weeklyData →
  DailyPoint.date <$> head (Aggregated.dailyData e)
  = Some (Aggregated.firstSeen e)
  ∧ DailyPoint.date <$> last (Aggregated.dailyData e)
    = Some (Aggregated.lastSeen e)
  ∧ Aggregated.totalVolumeWeek e
    = fold_left (λ sum d, sum + JS.or (DailyPoint.volume24h d) 0)
                (Aggregated.dailyData e) 0
  ∧ (∃ c, Aggregated.volumeConsistency e = Some c ∧ 0 <= c <= 1)
  ∧ (∃ v, Aggregated.priceVolatility e = Some v ∧ 0 <= v).
Proof.
  intros (k & o & os & E & ->)%aggregate_entry.
  cbn [WeeklyReportGenerator.finalize Aggregated.dailyData
       Aggregated.firstSeen Aggregated.lastSeen Aggregated.totalVolumeWeek
       Aggregated.volumeConsistency Aggregated.priceVolatility].
  rewrite series_dailyData.
  split.
  { unfold series_of. by rewrite absorb_firstSeen. }
  split.
  { unfold series_of. destruct (exists_last (l := o :: os) ltac:(done))
      as (os' & o' & Eo).
    rewrite Eo, absorb_snoc, map_app, last_app. done. }
  split.
  { unfold series_of. rewrite absorb_totalVolumeWeek.
    by rewrite fold_left_map. }
  split.
  { eexists. split; [reflexivity|].
    apply weekly_calculateVolumeConsistency_range. }
  eexists. split; [reflexivity|].
  unfold WeeklyReportGenerator.calculatePriceVolatility.
  repeat (match goal with
          | |- context [if ?b then _ else _] => destruct b
          end; [lra|]).
  apply variance_sqrt_nonneg.
Qed.

(** An asset observed on three days with the volumes 2, 4 and 6: its series
    is first seen on the first day, last seen on the third, and its week's
    volume is 12. *)
Lemma aggregate_series_figures_witness :
  let o1 := (Sample.day "D1" [Cases.asset 0 2 5], Cases.asset 0 2 5) in
  let o2 := (Sample.day "D2" [Cases.asset 0 4 5], Cases.asset 0 4 5) in
  let o3 := (Sample.day "D3" [Cases.asset 0 6 5], Cases.asset 0 6 5) in
  let e := WeeklyReportGenerator.finalize (series_of o1 [o2; o3]) in
  e ∈ WeeklyReportGenerator.aggregateWeeklyTokenData Cases.volume_week
  ∧ map DailyPoint.volume24h (Aggregated.dailyData e) = [2; 4; 6]
  ∧ Aggregated.firstSeen e = "D1"
  ∧ Aggregated.lastSeen e = "D3"
  ∧ Aggregated.totalVolumeWeek e = 12.
Proof.
  intros o1 o2 o3 e.
  assert (Hin : e ∈ WeeklyReportGenerator.aggregateWeeklyTokenData
                      Cases.volume_week)
    by (by apply (aggregate_entry_2 _ "So1")).
  assert (Hdd : Aggregated.dailyData e = map point_of [o1; o2; o3])
    by apply series_dailyData.
  clearbody e.
  split; [exact Hin|]. split; [by rewrite Hdd|].
  destruct (aggregate_series_figures Cases.volume_week e Hin)
    as (Hfirst & Hlast & Hvol & _).
  rewrite Hdd in Hfirst, Hlast, Hvol. simpl in Hfirst, Hlast, Hvol.
  injection Hfirst as <-. injection Hlast as <-.
  split; [done|]. split; [done|].
  rewrite Hvol, !JS_or_0. lra.
Defined.

(** ** Deduplication *)

(** The loop keeps [seen] equal to the identities of [unique], which are
    the distinct identities read so far in the order of first appearance. *)
Lemma dedupe_state (tokens : list Token.t) :
  let state := fold_left Tracker.dedupe_step tokens ([], []) in
  state.1 = map Token.key state.2
  ∧ state.1 = JS.Set_.from (map Token.key tokens).
Proof.
  induction tokens as [|token tokens IH] using rev_ind; [done|].
  cbv zeta in *. destruct IH as [IH1 IH2].
  rewrite fold_left_app, map_app. unfold JS.Set_.from.
  rewrite fold_left_app. fold (JS.Set_.from (map Token.key tokens)).
  rewrite <- IH2. simpl.
  set (state := fold_left Tracker.dedupe_step tokens ([], [])) in *.
  unfold Tracker.dedupe_step. cbv zeta.
  unfold JS.Set_.add.
  destruct (JS.Set_.has (Token.key token) state.1) eqn:Hhas; simpl;
    [done|].
  by rewrite map_app, IH1.
Qed.

Lemma deduplicateTokens_snoc (tokens : list Token.t) (token : Token.t) :
  Tracker.deduplicateTokens (tokens ++ [token])
  = if bool_decide (Token.key token ∈ map Token.key tokens)
    then Tracker.deduplicateTokens tokens
    else Tracker.deduplicateTokens tokens ++ [token].
Proof.
  unfold Tracker.deduplicateTokens. rewrite fold_left_app. simpl.
  destruct (dedupe_state tokens) as [_ Hseen]. cbv zeta in Hseen.
  set (state := fold_left Tracker.dedupe_step tokens ([], [])) in *.
  unfold Tracker.dedupe_step. cbv zeta. unfold JS.Set_.has. rewrite Hseen.
  destruct (Set_from_spec (map Token.key tokens)) as [_ Hin].
  rewrite (bool_decide_ext _ _ (Hin (Token.key token))).
  by case_bool_decide.
Qed.

Lemma deduplicateTokens_NoDup_id (tokens : list Token.t) :
  NoDup (map Token.key tokens) → Tracker.deduplicateTokens tokens = tokens.
Proof.
  induction tokens as [|token tokens IH] using rev_ind; [done|].
  rewrite map_app. intros (Hnd & Hnew & _)%NoDup_app.
  rewrite deduplicateTokens_snoc, bool_decide_eq_false_2, IH; [done..|].
  intros Hin. apply (Hnew _ Hin). left.
Qed.

Lemma deduplicateTokens_sublist (tokens : list Token.t) :
  sublist (Tracker.deduplicateTokens tokens) tokens.
Proof.
  induction tokens as [|token tokens IH] using rev_ind; [done|].
  rewrite deduplicateTokens_snoc. case_bool_decide.
  - by apply sublist_inserts_r.
  - by apply sublist_app.
Qed.

Lemma filter_key_nil (k : string) (tokens : list Token.t) :
  filter (λ t, Token.key t = k) tokens = [] ↔ k ∉ map Token.key tokens.
Proof.
  split.
  - intros E (t & -> & Hin)%list_elem_of_fmap.
    assert (Hin' : t ∈ filter (λ t', Token.key t' = Token.key t) tokens)
      by (by apply list_elem_of_filter).
    rewrite E in Hin'. by apply elem_of_nil in Hin'.
  - intros Hk.
    destruct (filter (λ t, Token.key t = k) tokens) as [|t0 ts] eqn:E; [done|].
    exfalso. apply Hk.
    assert (Hin : t0 ∈ filter (λ t, Token.key t = k) tokens)
      by (rewrite E; left).
    apply list_elem_of_filter in Hin as [<- Hin].
    apply list_elem_of_fmap. by exists t0.
Qed.

Lemma deduplicateTokens_filter (k : string) (tokens : list Token.t) :
  filter (λ t, Token.key t = k) (Tracker.deduplicateTokens tokens)
  = take 1 (filter (λ t, Token.key t = k) tokens).
Proof.
  induction tokens as [|token tokens IH] using rev_ind; [done|].
  rewrite deduplicateTokens_snoc, (filter_app _ tokens).
  rewrite filter_cons, filter_nil.
  case_bool_decide as Hseen.
  - rewrite IH. case_decide as Hk; [|by rewrite app_nil_r].
    subst k.
    destruct (filter (λ t, Token.key t = Token.key token) tokens)
      as [|t0 ts] eqn:E; [|done].
    by apply filter_key_nil in E.
  - rewrite filter_app, filter_cons, filter_nil, IH.
    case_decide as Hk; [|by rewrite !app_nil_r].
    subst k. apply filter_key_nil in Hseen. by rewrite Hseen.
Qed.

(** X21.  [deduplicateTokens] keeps, of the records of each identity, the
    first one and nothing else, in the order of the input: the result is a
    sublist of the input with one record per identity, the identities in the
    order of their first appearance, and running it again changes nothing.
    *)
Theorem deduplicateTokens_first (tokens : list Token.t) :
  let unique := Tracker.deduplicateTokens tokens in
  sublist unique tokens
  ∧ map Token.key unique = JS.Set_.from (map Token.key tokens)
  ∧ NoDup (map Token.key unique)
  ∧ (∀ k, filter (λ t, Token.key t = k) unique
          = take 1 (filter (λ t, Token.key t = k) tokens))
  ∧ Tracker.deduplicateTokens unique = unique.
Proof.
  intros unique.
  assert (Hkeys : map Token.key unique = JS.Set_.from (map Token.key tokens)).
  { destruct (dedupe_state tokens) as [H1 H2]. cbv zeta in *.
    unfold unique, Tracker.deduplicateTokens. by rewrite <- H1. }
  assert (Hnd : NoDup (map Token.key unique)).
  { rewrite Hkeys. apply Set_from_spec. }
  split; [apply deduplicateTokens_sublist|].
  split; [exact Hkeys|]. split; [exact Hnd|].
  split; [intros k; apply deduplicateTokens_filter|].
  by apply deduplicateTokens_NoDup_id.
Qed.

(** ** Deduplicated snapshots *)

Lemma filter_key_NoDup (k : string) (tokens : list Token.t) :
  NoDup (map Token.key tokens) →
  (length (filter (λ t, Token.key t = k) tokens) <= 1)%nat.
Proof.
  induction tokens as [|token tokens IH]; simpl; [lia|].
  intros [Hnew Hnd]%NoDup_cons. rewrite filter_cons.
  case_decide as Hk; [|by apply IH].
  subst k. apply filter_key_nil in Hnew. rewrite Hnew. simpl. lia.
Qed.

Lemma observations_of_length (k : string) (weeklyData : list DayData.t) :
  (∀ day tokens, day ∈ weeklyData → DayData.tokens day = Some tokens →
                 NoDup (map Token.key tokens)) →
  (length (observations_of k weeklyData) <= length weeklyData)%nat.
Proof.
  unfold observations_of.
  induction weeklyData as [|day weeklyData IH]; intros Hnd; [done|].
  rewrite observations_cons, filter_app, length_app.
  assert (length (filter (λ o, Token.key o.2 = k) (observations weeklyData))
          <= length weeklyData)%nat.
  { apply IH. intros d ts Hd. apply Hnd. by right. }
  assert (length (filter (λ o : DayData.t * Token.t, Token.key o.2 = k)
                    match DayData.tokens day with
                    | Some tokens => map (pair day) tokens
                    | None => []
                    end) <= 1)%nat.
  { destruct (DayData.tokens day) as [tokens|] eqn:Et; [|simpl; lia].
    rewrite (filter_map_comm (pair day) (λ o, Token.key o.2 = k)).
    rewrite length_map. apply filter_key_NoDup.
    apply (Hnd day); [left | done]. }
  simpl. lia.
Qed.

(** X22.  When no snapshot holds two records of one identity, as for
    snapshots saved after [deduplicateTokens], a series has at most one data
    point per snapshot: [daysActive] does not exceed the number of
    snapshots. *)
Theorem aggregate_daysActive_bound
    (weeklyData : list DayData.t) (e : Aggregated.t) :
  (∀ day tokens, day ∈ weeklyData → DayData.tokens day = Some tokens →
                 NoDup (map Token.key tokens)) →
  e ∈ WeeklyReportGenerator.aggregateWeeklyTokenData weeklyData →
  (1 <= Aggregated.daysActive e <= length weeklyData)%nat
  ∧ (length (Aggregated.dailyData e) <= length weeklyData)%nat.
Proof.
  intros Hnd (k & o & os & E & ->)%aggregate_entry.
  cbn [WeeklyReportGenerator.finalize Aggregated.daysActive
       Aggregated.dailyData].
  rewrite series_dailyData, series_daysActive, length_map, <- E.
  pose proof (observations_of_length k weeklyData Hnd) as Hle.
  rewrite E in *. simpl in *. lia.
Qed.

Lemma aggregate_daysActive_bound_witness :
  let e := WeeklyReportGenerator.finalize
             (series_of (Sample.day "D1" [Sample.token "A" 1 5],
                         Sample.token "A" 1 5) []) in
  (Aggregated.daysActive e <= 1)%nat.
Proof.
  intros e.
  assert (Hin : e ∈ WeeklyReportGenerator.aggregateWeeklyTokenData
                      Sample.one_day)
    by (by apply (aggregate_entry_2 _ "A")).
  assert (Hnd : ∀ day tokens, day ∈ Sample.one_day →
                  DayData.tokens day = Some tokens →
                  NoDup (map Token.key tokens)).
  { intros day tokens ->%list_elem_of_singleton [= <-].
    apply NoDup_singleton. }
  destruct (aggregate_daysActive_bound Sample.one_day e Hnd Hin) as [[_ H] _].
  exact H.
Defined.

(** ** Weekly metrics of a stored history *)

Lemma Math_max_spread_bound (x : R) (xs : list R) :
  History.Math_max_spread x xs ∈ x :: xs
  ∧ ∀ y, y ∈ x :: xs → y <= History.Math_max_spread x xs.
Proof.
  unfold History.Math_max_spread.
  revert x. induction xs as [|z xs IH]; intros x; simpl.
  - split; [left|]. intros y ->%list_elem_of_singleton. lra.
  - destruct (IH (Rmax x z)) as [Hin Hle]. split.
    + apply elem_of_cons in Hin as [Heq|Hin]; [|by do 2 right].
      rewrite Heq. unfold Rmax. destruct (Rle_dec x z); [right; left | left].
    + intros y Hy.
      assert (x <= fold_left Rmax xs (Rmax x z)).
      { etransitivity; [apply (Rmax_l x z) | apply Hle; left]. }
      assert (z <= fold_left Rmax xs (Rmax x z)).
      { etransitivity; [apply (Rmax_r x z) | apply Hle; left]. }
      apply elem_of_cons in Hy as [->|Hy]; [done|].
      apply elem_of_cons in Hy as [->|Hy]; [done|].
      apply Hle. by right.
Qed.

Lemma Math_min_spread_bound (x : R) (xs : list R) :
  History.Math_min_spread x xs ∈ x :: xs
  ∧ ∀ y, y ∈ x :: xs → History.Math_min_spread x xs <= y.
Proof.
  unfold History.Math_min_spread.
  revert x. induction xs as [|z xs IH]; intros x; simpl.
  - split; [left|]. intros y ->%list_elem_of_singleton. lra.
  - destruct (IH (Rmin x z)) as [Hin Hle]. split.
    + apply elem_of_cons in Hin as [Heq|Hin]; [|by do 2 right].
      rewrite Heq. unfold Rmin. destruct (Rle_dec x z); [left | right; left].
    + intros y Hy.
      assert (fold_left Rmin xs (Rmin x z) <= x).
      { etransitivity; [apply Hle; left | apply (Rmin_l x z)]. }
      assert (fold_left Rmin xs (Rmin x z) <= z).
      { etransitivity; [apply Hle; left | apply (Rmin_r x z)]. }
      apply elem_of_cons in Hy as [->|Hy]; [done|].
      apply elem_of_cons in Hy as [->|Hy]; [done|].
      apply Hle. by right.
Qed.

(** X23.  [calculateWeeklyMetrics] returns nothing for a history of fewer
    than two days. Otherwise it counts the days; the maximum and minimum
    daily volume are the greatest and least volume of the history, and
    likewise for the market cap; and both growth figures are
    non-negative. *)
Theorem calculateWeeklyMetrics_ranges (history : list Token.t) :
  match History.calculateWeeklyMetrics history with
  | None => (length history < 2)%nat
  | Some m =>
      (2 <= length history)%nat
      ∧ WeeklyMetrics.daysTracked m = length history
      ∧ Spec.is_max (WeeklyMetrics.maxDailyVolume m)
                    (map Token.volume24h history)
      ∧ Spec.is_min (WeeklyMetrics.minDailyVolume m)
                    (map Token.volume24h history)
      ∧ Spec.is_max (WeeklyMetrics.maxMarketCap m)
                    (map Token.marketCap history)
      ∧ Spec.is_min (WeeklyMetrics.minMarketCap m)
                    (map Token.marketCap history)
      ∧ 0 <= WeeklyMetrics.volumeGrowth m
      ∧ 0 <= WeeklyMetrics.marketCapGrowth m
  end.
Proof.
  unfold History.calculateWeeklyMetrics.
  destruct (length history <? 2)%nat eqn:Hlen; [by apply Nat.ltb_lt|].
  apply Nat.ltb_ge in Hlen.
  destruct history as [|oldest rest]; [simpl in Hlen; lia|].
  cbn [head].
  destruct (last (oldest :: rest)) as [latest|] eqn:Hlast;
    [|by apply last_None in Hlast].
  cbv zeta.
  cbn [WeeklyMetrics.daysTracked WeeklyMetrics.maxDailyVolume
       WeeklyMetrics.minDailyVolume
       WeeklyMetrics.maxMarketCap WeeklyMetrics.minMarketCap
       WeeklyMetrics.volumeGrowth
       WeeklyMetrics.marketCapGrowth].
  cbn [map tail]. rewrite !JS_or_0.
  assert (HmV : map (λ day : Token.t, JS.or (Token.volume24h day) 0) rest
                = map Token.volume24h rest)
    by (apply map_ext; intros; apply JS_or_0).
  assert (HmC : map (λ day : Token.t, JS.or (Token.marketCap day) 0) rest
                = map Token.marketCap rest)
    by (apply map_ext; intros; apply JS_or_0).
  rewrite HmV, HmC.
  destruct (Math_max_spread_bound (Token.volume24h oldest)
              (map Token.volume24h rest)) as [HVmax_in HVmax].
  destruct (Math_min_spread_bound (Token.volume24h oldest)
              (map Token.volume24h rest)) as [HVmin_in HVmin].
  destruct (Math_max_spread_bound (Token.marketCap oldest)
              (map Token.marketCap rest)) as [HCmax_in HCmax].
  destruct (Math_min_spread_bound (Token.marketCap oldest)
              (map Token.marketCap rest)) as [HCmin_in HCmin].
  set (Vmax := History.Math_max_spread (Token.volume24h oldest) _) in *.
  set (Vmin := History.Math_min_spread (Token.volume24h oldest) _) in *.
  set (Cmax := History.Math_max_spread (Token.marketCap oldest) _) in *.
  set (Cmin := History.Math_min_spread (Token.marketCap oldest) _) in *.
  assert (HV : Vmin <= Vmax) by (by apply HVmax).
  assert (HC : Cmin <= Cmax) by (by apply HCmax).
  split; [done|]. split; [done|].
  split; [by split|]. split; [by split|].
  split; [by split|]. split; [by split|].
  split.
  - case_decide as Hpos; [|lra].
    apply Rmult_le_pos; [|lra].
    apply Rmult_le_pos; [lra|]. left. by apply Rinv_0_lt_compat.
  - case_decide as Hpos; [|lra].
    apply Rmult_le_pos; [|lra].
    apply Rmult_le_pos; [lra|]. left. by apply Rinv_0_lt_compat.
Qed.

(** ** The analysis pipeline *)

(** X24.  Whatever the store returns as history, [analyzeTokens] analyses
    every asset of the batch once and ranks the analyses 1, 2, ..., n in
    descending order of score; every score lies in [0,100] and is the score
    of the metrics of the asset the analysis holds. *)
Theorem analyzeTokens_ranked
    (getTokenHistory : string → nat → list Token.t) (tokens : list Token.t) :
  let ranked := Tracker.analyzeTokens getTokenHistory tokens in
  map PerformanceAnalyzer.rank ranked = seq 1 (length tokens)
  ∧ map PerformanceAnalyzer.current ranked ≡ₚ tokens
  ∧ StronglySorted
      (λ a b, PerformanceAnalyzer.score a >= PerformanceAnalyzer.score b)
      ranked
  ∧ Forall (λ a, 0 <= PerformanceAnalyzer.score a <= 100
                 ∧ PerformanceAnalyzer.score a
                   = PerformanceAnalyzer.calculatePerformanceScore a
                 ∧ PerformanceAnalyzer.performance a
                   = PerformanceAnalyzer.calculatePerformanceMetrics
                       (PerformanceAnalyzer.current a)
                 ∧ PerformanceAnalyzer.sustainability a
                   = PerformanceAnalyzer.calculateSustainability
                       (PerformanceAnalyzer.current a)
                       (getTokenHistory
                          (Token.key (PerformanceAnalyzer.current a)) 7%nat))
           ranked.
Proof.
  intros ranked. unfold ranked, Tracker.analyzeTokens. cbv zeta.
  set (analyses := map _ tokens).
  unfold PerformanceAnalyzer.rankTokens.
  set (sorted := JS.sort _ analyses).
  assert (Hperm : sorted ≡ₚ analyses)
    by apply (sort_Permutation PerformanceAnalyzer.score).
  assert (Hun : map unranked (imap (λ index analysis,
                     PerformanceAnalyzer.set_rank analysis (index + 1)) sorted)
                = map unranked sorted)
    by (by apply (imap_set_rank_map unranked (λ i, (i + 1)%nat))).
  assert (Hsc : map PerformanceAnalyzer.score
                    (imap (λ index analysis,
                       PerformanceAnalyzer.set_rank analysis (index + 1)) sorted)
                = map PerformanceAnalyzer.score sorted)
    by (by apply (imap_set_rank_map PerformanceAnalyzer.score
                    (λ i, (i + 1)%nat))).
  split.
  { rewrite imap_set_rank_rank, Hperm. unfold analyses.
    by rewrite length_map. }
  split.
  { transitivity (map (λ u : Token.t * PerformanceAnalyzer.PerformanceMetrics
                             * PerformanceAnalyzer.Sustainability * R,
                         u.1.1.1)
                      (map unranked
                         (imap (λ index analysis,
                            PerformanceAnalyzer.set_rank analysis (index + 1))
                            sorted))).
    { by rewrite <- list_fmap_compose. }
    rewrite Hun, Hperm. unfold analyses. rewrite <- !list_fmap_compose.
    by rewrite list_fmap_id. }
  split.
  { apply (StronglySorted_map PerformanceAnalyzer.score (λ x y, x >= y)).
    rewrite Hsc. apply StronglySorted_map_2.
    apply (sort_sorted PerformanceAnalyzer.score). }
  assert (Hall : Forall
            (λ u : Token.t * PerformanceAnalyzer.PerformanceMetrics
                   * PerformanceAnalyzer.Sustainability * R,
               (0 <= u.2 <= 100)
               ∧ u.2 = PerformanceAnalyzer.calculatePerformanceScore
                         (PerformanceAnalyzer.mkAnalysis
                            u.1.1.1 u.1.1.2 u.1.2 0 0)
               ∧ u.1.1.2 = PerformanceAnalyzer.calculatePerformanceMetrics
                             u.1.1.1
               ∧ u.1.2 = PerformanceAnalyzer.calculateSustainability u.1.1.1
                           (getTokenHistory (Token.key u.1.1.1) 7%nat))
            (map unranked sorted)).
  { rewrite Hperm. unfold analyses. rewrite <- list_fmap_compose.
    apply Forall_fmap, Forall_forall. intros token _. simpl.
    split; [apply calculatePerformanceScore_bounds | done]. }
  rewrite <- Hun in Hall. rewrite Forall_fmap in Hall.
  eapply Forall_impl; [exact Hall|].
  intros [c p s sc r]. simpl. done.
Qed.

(** ** The watchlist *)

(** The addresses on the watchlist read from the portfolio file; none when
    the file holds no watchlist. *)
Abbreviation addresses file :=
  (from_option (λ portfolio,
                  map WatchItem.address (PortfolioTracker.watchlist portfolio))
               [] (PortfolioTracker.loadWatchlist file)).

Lemma find_address_None (tokenAddress : string) (l : list WatchItem.t) :
  List.find (λ item, bool_decide (WatchItem.address item = tokenAddress)) l
  = None
  ↔ tokenAddress ∉ map WatchItem.address l.
Proof.
  induction l as [|item l IH]; simpl.
  - split; [intros _; apply not_elem_of_nil | done].
  - rewrite not_elem_of_cons. case_bool_decide as Ha.
    + split; [done | intros [Hne _]; by destruct Hne].
    + rewrite IH. split; [intros ?; by split | by intros [_ ?]].
Qed.

Lemma filter_address_absent (tokenAddress : string) (l : list WatchItem.t) :
  tokenAddress ∉ map WatchItem.address l →
  List.filter
    (λ item, negb (bool_decide (WatchItem.address item = tokenAddress))) l
  = l.
Proof.
  induction l as [|item l IH]; simpl; [done|].
  rewrite not_elem_of_cons. intros [Hne Hl].
  rewrite bool_decide_eq_false_2 by done. simpl. by rewrite IH.
Qed.

Lemma filter_address_elem (tokenAddress a : string) (l : list WatchItem.t) :
  a ∈ map WatchItem.address
        (List.filter
           (λ item, negb (bool_decide (WatchItem.address item = tokenAddress)))
           l)
  ↔ a ∈ map WatchItem.address l ∧ a ≠ tokenAddress.
Proof.
  induction l as [|item l IH]; simpl.
  - rewrite elem_of_nil. tauto.
  - case_bool_decide as Ha; simpl.
    + rewrite IH, elem_of_cons. split; [tauto|].
      intros [[->|?] ?]; [done | tauto].
    + rewrite !elem_of_cons, IH. split; [|tauto].
      intros [->|?]; tauto.
Qed.

Lemma filter_address_length (tokenAddress : string) (l : list WatchItem.t) :
  (length (List.filter
             (λ item, negb (bool_decide (WatchItem.address item = tokenAddress)))
             l) < length l)%nat
  ↔ tokenAddress ∈ map WatchItem.address l.
Proof.
  split.
  - intros Hlt. destruct (decide (tokenAddress ∈ map WatchItem.address l))
      as [|Hnot]; [done|].
    rewrite filter_address_absent in Hlt by done. lia.
  - induction l as [|item l IH]; simpl.
    + by intros ?%elem_of_nil.
    + pose proof (List.filter_length_le
                    (λ item, negb (bool_decide
                                     (WatchItem.address item = tokenAddress)))
                    l).
      case_bool_decide as Ha; simpl; [lia|].
      intros [?|Hin]%elem_of_cons; [done|]. apply IH in Hin. lia.
Qed.

Lemma filter_address_NoDup (tokenAddress : string) (l : list WatchItem.t) :
  NoDup (map WatchItem.address l) →
  NoDup (map WatchItem.address
           (List.filter
              (λ item, negb (bool_decide
                               (WatchItem.address item = tokenAddress)))
              l)).
Proof.
  induction l as [|item l IH]; simpl; [done|].
  intros [Hnew Hnd]%NoDup_cons.
  destruct (negb _); [|by apply IH].
  simpl. apply NoDup_cons. split; [|by apply IH].
  rewrite filter_address_elem. tauto.
Qed.

(** What [addToWatchlist] does on a file whose watchlist can be read. *)
Lemma addToWatchlist_cases {Holding : Type}
    (file : PortfolioTracker.File Holding)
    (portfolio : PortfolioTracker.Portfolio Holding)
    (tokenAddress reason now : string) (write : PortfolioTracker.Write Holding) :
  PortfolioTracker.loadWatchlist file = Some portfolio →
  let l := PortfolioTracker.watchlist portfolio in
  let added :=
    PortfolioTracker.addToWatchlist file tokenAddress reason now write in
  (tokenAddress ∈ map WatchItem.address l ∧ added = (false, file))
  ∨ ((tokenAddress ∉ map WatchItem.address l)
     ∧ added
       = match write with
         | PortfolioTracker.Written =>
             (true,
              PortfolioTracker.Stored
                {| PortfolioTracker.watchlist :=
                     l ++ [ {| WatchItem.address := tokenAddress;
                               WatchItem.addedAt := now;
                               WatchItem.reason := reason;
                               WatchItem.alerts :=
                                 {| WatchItem.priceTarget := None;
                                    WatchItem.volumeSpike := true;
                                    WatchItem.priceChange := 50 |} |} ];
                   PortfolioTracker.holdings :=
                     PortfolioTracker.holdings portfolio |})
         | PortfolioTracker.Failed after => (false, after)
         end).
Proof.
  intros Hload l added.
  unfold added, PortfolioTracker.addToWatchlist. rewrite Hload. fold l.
  pose proof (find_address_None tokenAddress l) as Hfind.
  destruct (List.find _ l) as [existing|] eqn:E.
  - left. split; [|done].
    destruct (decide (tokenAddress ∈ map WatchItem.address l))
      as [|Hnot]; [done|].
    apply Hfind in Hnot. congruence.
  - right. split; [by apply Hfind|]. by destruct write.
Qed.

(** What [removeFromWatchlist] does on a file whose watchlist can be
    read. *)
Lemma removeFromWatchlist_cases {Holding : Type}
    (file : PortfolioTracker.File Holding)
    (portfolio : PortfolioTracker.Portfolio Holding)
    (tokenAddress : string) (write : PortfolioTracker.Write Holding) :
  PortfolioTracker.loadWatchlist file = Some portfolio →
  let l := PortfolioTracker.watchlist portfolio in
  let removed := PortfolioTracker.removeFromWatchlist file tokenAddress write in
  ((tokenAddress ∉ map WatchItem.address l) ∧ removed = (false, file))
  ∨ (tokenAddress ∈ map WatchItem.address l
     ∧ removed
       = match write with
         | PortfolioTracker.Written =>
             (true,
              PortfolioTracker.Stored
                {| PortfolioTracker.watchlist :=
                     List.filter
                       (λ item, negb (bool_decide
                                        (WatchItem.address item = tokenAddress)))
                       l;
                   PortfolioTracker.holdings :=
                     PortfolioTracker.holdings portfolio |})
         | PortfolioTracker.Failed after => (false, after)
         end).
Proof.
  intros Hload l removed.
  unfold removed, PortfolioTracker.removeFromWatchlist. rewrite Hload.
  cbv zeta. cbn [PortfolioTracker.watchlist]. fold l.
  pose proof (filter_address_length tokenAddress l) as Hlen.
  destruct (_ <? length l)%nat eqn:E.
  - right. apply Nat.ltb_lt, Hlen in E. split; [done|]. by destruct write.
  - left. apply Nat.ltb_ge in E. split; [|done].
    intros Hin%Hlen. lia.
Qed.

(** X25.  [addToWatchlist] returns [true] exactly when the watchlist can be
    read, does not hold the address and the write succeeds; the file then
    holds the watchlist with one entry for the address appended.  It leaves
    the file as it is when the address is already watched or the file holds
    no watchlist, and returns [false] when the write fails.
    [removeFromWatchlist] returns [true] exactly when the address is watched
    and the write succeeds, and then no entry of it is left, the other
    entries staying; it leaves the file as it is when the address is not
    watched.  A watchlist without repeated addresses never gets one, and
    neither operation changes the holdings. *)
Theorem watchlist_operations {Holding : Type}
    (file : PortfolioTracker.File Holding)
    (tokenAddress reason now : string) (write : PortfolioTracker.Write Holding) :
  let added :=
    PortfolioTracker.addToWatchlist file tokenAddress reason now write in
  let removed := PortfolioTracker.removeFromWatchlist file tokenAddress write in
  let holdings file' :=
    PortfolioTracker.holdings <$> PortfolioTracker.loadWatchlist file' in
  (added.1 = true
   ↔ is_Some (PortfolioTracker.loadWatchlist file)
     ∧ (tokenAddress ∉ addresses file)
     ∧ write = PortfolioTracker.Written)
  ∧ (added.1 = true →
       addresses added.2 = addresses file ++ [tokenAddress]
       ∧ holdings added.2 = holdings file)
  ∧ (tokenAddress ∈ addresses file
     ∨ PortfolioTracker.loadWatchlist file = None →
       added = (false, file))
  ∧ (∀ after,
       is_Some (PortfolioTracker.loadWatchlist file) →
       tokenAddress ∉ addresses file →
       write = PortfolioTracker.Failed after →
       added = (false, after))
  ∧ (removed.1 = true
     ↔ tokenAddress ∈ addresses file ∧ write = PortfolioTracker.Written)
  ∧ (removed.1 = true →
       (∀ a, a ∈ addresses removed.2
             ↔ a ∈ addresses file ∧ a ≠ tokenAddress)
       ∧ holdings removed.2 = holdings file)
  ∧ (tokenAddress ∉ addresses file → removed = (false, file))
  ∧ (∀ after,
       tokenAddress ∈ addresses file →
       write = PortfolioTracker.Failed after →
       removed = (false, after))
  ∧ (NoDup (addresses file) →
       (added.1 = true → NoDup (addresses added.2))
       ∧ (removed.1 = true → NoDup (addresses removed.2))).
Proof.
  intros added removed holdings.
  destruct (PortfolioTracker.loadWatchlist file) as [portfolio|] eqn:Hload;
    cycle 1.
  { assert (Ha : added = (false, file)).
    { unfold added, PortfolioTracker.addToWatchlist. by rewrite Hload. }
    assert (Hr : removed = (false, file)).
    { unfold removed, PortfolioTracker.removeFromWatchlist. by rewrite Hload. }
    clearbody added removed. subst added removed. simpl.
    repeat split; try done.
    - by intros [[? ?] _].
    - by intros [?%elem_of_nil _].
    - by intros after ?%elem_of_nil. }
  pose proof (addToWatchlist_cases file portfolio tokenAddress reason now
                write Hload) as Hadd.
  pose proof (removeFromWatchlist_cases file portfolio tokenAddress write
                Hload) as Hrem.
  cbv zeta in Hadd, Hrem. fold added in Hadd. fold removed in Hrem.
  clearbody added removed. unfold holdings. simpl.
  set (l := PortfolioTracker.watchlist portfolio) in *.
  split.
  { destruct Hadd as [[Hin ->]|[Hnot ->]].
    - simpl. split; [done|]. by intros (_ & ? & _).
    - destruct write; simpl.
      + split; [|done]. intros _. split; [by eexists|]. by split.
      + split; [done|]. by intros (_ & _ & ?). }
  split.
  { destruct Hadd as [[Hin ->]|[Hnot ->]]; [done|].
    destruct write; [|done]. intros _. simpl. rewrite Hload.
    by rewrite map_app. }
  split.
  { intros [Hin|?]; [|done].
    by destruct Hadd as [[_ ->]|[Hnot _]]. }
  split.
  { intros after _ Hnot ->.
    by destruct Hadd as [[Hin _]|[_ ->]]. }
  split.
  { destruct Hrem as [[Hnot ->]|[Hin ->]].
    - simpl. split; [done|]. by intros [? _].
    - destruct write; simpl.
      + split; [|done]. intros _. by split.
      + split; [done|]. by intros [_ ?]. }
  split.
  { destruct Hrem as [[Hnot ->]|[Hin ->]]; [done|].
    destruct write; [|done]. intros _. simpl. rewrite Hload.
    split; [|done]. intros a. apply filter_address_elem. }
  split.
  { intros Hnot. by destruct Hrem as [[_ ->]|[Hin _]]. }
  split.
  { intros after Hin ->.
    by destruct Hrem as [[Hnot _]|[_ ->]]. }
  intros Hnd. split.
  - destruct Hadd as [[Hin ->]|[Hnot ->]]; [done|].
    destruct write; [|done]. intros _. simpl. rewrite map_app.
    apply NoDup_app. split; [done|]. split; [|apply NoDup_singleton].
    by intros x Hx ->%list_elem_of_singleton.
  - destruct Hrem as [[Hnot ->]|[Hin ->]]; [done|].
    destruct write; [|done]. intros _. simpl.
    by apply filter_address_NoDup.
Qed.

(** On a missing portfolio file, an add whose write fails returns [false]
    and the file is what the failed write left; on a file without a
    watchlist, an add returns [false] and leaves the file; and a successful
    add to the missing file stores a watchlist of the one address. *)
Lemma watchlist_operations_witness :
  PortfolioTracker.addToWatchlist (Holding := unit) PortfolioTracker.Absent
    "So1" "volume" "day 1"
    (PortfolioTracker.Failed PortfolioTracker.Unreadable)
  = (false, PortfolioTracker.Unreadable)
  ∧ PortfolioTracker.addToWatchlist (Holding := unit)
      PortfolioTracker.NoWatchlist "So1" "volume" "day 1"
      PortfolioTracker.Written
    = (false, PortfolioTracker.NoWatchlist)
  ∧ addresses
      (PortfolioTracker.addToWatchlist (Holding := unit)
         PortfolioTracker.Absent "So1" "volume" "day 1"
         PortfolioTracker.Written).2
    = ["So1"].
Proof.
  split; [|split].
  - destruct (watchlist_operations (Holding := unit) PortfolioTracker.Absent
                "So1" "volume" "day 1"
                (PortfolioTracker.Failed PortfolioTracker.Unreadable))
      as (_ & _ & _ & Hfailed & _).
    apply Hfailed; [by eexists | apply not_elem_of_nil | done].
  - destruct (watchlist_operations (Holding := unit)
                PortfolioTracker.NoWatchlist "So1" "volume" "day 1"
                PortfolioTracker.Written)
      as (_ & _ & Hrefused & _).
    apply Hrefused. by right.
  - destruct (watchlist_operations (Holding := unit) PortfolioTracker.Absent
                "So1" "volume" "day 1" PortfolioTracker.Written)
      as (Hiff & Hadded & _).
    apply Hadded, Hiff.
    split; [by eexists|]. split; [apply not_elem_of_nil | done].
Defined.

(** X26.  On a file whose watchlist can be read and does not hold the
    address, and with writes that succeed, removing the address right after
    adding it gives the watchlist back; a second add of the same address is
    refused whatever its write would do. *)
Theorem watchlist_add_remove {Holding : Type}
    (file : PortfolioTracker.File Holding)
    (tokenAddress reason now : string) (write : PortfolioTracker.Write Holding) :
  is_Some (PortfolioTracker.loadWatchlist file) →
  tokenAddress ∉ addresses file →
  let added :=
    PortfolioTracker.addToWatchlist file tokenAddress reason now
      PortfolioTracker.Written in
  let removed :=
    PortfolioTracker.removeFromWatchlist added.2 tokenAddress
      PortfolioTracker.Written in
  added.1 = true
  ∧ PortfolioTracker.addToWatchlist added.2 tokenAddress reason now write
    = (false, added.2)
  ∧ removed.1 = true
  ∧ PortfolioTracker.loadWatchlist removed.2
    = PortfolioTracker.loadWatchlist file.
Proof.
  intros [portfolio Hload] Hnew added removed.
  rewrite Hload in Hnew |- *. simpl in Hnew.
  set (l := PortfolioTracker.watchlist portfolio) in *.
  set (item := {| WatchItem.address := tokenAddress;
                  WatchItem.addedAt := now;
                  WatchItem.reason := reason;
                  WatchItem.alerts :=
                    {| WatchItem.priceTarget := None;
                       WatchItem.volumeSpike := true;
                       WatchItem.priceChange := 50 |} |}).
  assert (Hadded : added
            = (true,
               PortfolioTracker.Stored
                 {| PortfolioTracker.watchlist := l ++ [item];
                    PortfolioTracker.holdings :=
                      PortfolioTracker.holdings portfolio |})).
  { by destruct (addToWatchlist_cases file portfolio tokenAddress reason now
                   PortfolioTracker.Written Hload) as [[? _]|[_ ?]]. }
  assert (Hfilter : List.filter
            (λ item, negb (bool_decide (WatchItem.address item = tokenAddress)))
            (l ++ [item])
            = l).
  { rewrite List.filter_app, filter_address_absent by done. simpl.
    rewrite bool_decide_eq_true_2 by done. simpl. apply app_nil_r. }
  split; [by rewrite Hadded|]. split.
  { rewrite Hadded. unfold PortfolioTracker.addToWatchlist. simpl.
    destruct (List.find _ (l ++ _)) as [existing|] eqn:E; [done|].
    apply find_address_None in E. exfalso. apply E.
    rewrite map_app. apply elem_of_app. right. left. }
  unfold removed. rewrite Hadded.
  unfold PortfolioTracker.removeFromWatchlist. simpl.
  rewrite Hfilter, length_app. simpl.
  replace (length l <? length l + 1)%nat with true
    by (symmetry; apply Nat.ltb_lt; lia).
  split; [done|]. simpl. unfold l. by destruct portfolio.
Qed.

(** A stored watchlist holding one address: adding a second address and
    removing it again gives the stored watchlist back. *)
Lemma watchlist_add_remove_witness :
  let portfolio :=
    {| PortfolioTracker.watchlist :=
         [ {| WatchItem.address := "Abc";
              WatchItem.addedAt := "day 0";
              WatchItem.reason := "momentum";
              WatchItem.alerts :=
                {| WatchItem.priceTarget := None;
                   WatchItem.volumeSpike := true;
                   WatchItem.priceChange := 50 |} |} ];
       PortfolioTracker.holdings := @nil unit |} in
  let file := PortfolioTracker.Stored portfolio in
  let added :=
    PortfolioTracker.addToWatchlist file "So1" "volume" "day 1"
      PortfolioTracker.Written in
  let removed :=
    PortfolioTracker.removeFromWatchlist added.2 "So1"
      PortfolioTracker.Written in
  addresses added.2 = ["Abc"; "So1"]
  ∧ added.1 = true
  ∧ PortfolioTracker.addToWatchlist added.2 "So1" "volume" "day 1"
      (PortfolioTracker.Failed PortfolioTracker.Unreadable)
    = (false, added.2)
  ∧ removed.1 = true
  ∧ PortfolioTracker.loadWatchlist removed.2 = Some portfolio.
Proof.
  intros portfolio file added removed.
  split; [done|].
  apply (watchlist_add_remove file "So1" "volume" "day 1"
           (PortfolioTracker.Failed PortfolioTracker.Unreadable)).
  - by eexists.
  - simpl. intros [?|?%elem_of_nil]%elem_of_cons; done.
Defined.

(** ** Addresses *)

Lemma address_char_base58 (c : Ascii.ascii) :
  Format.address_char c
  = existsb (Ascii.eqb c) (String.list_ascii_of_string base58_alphabet).
Proof.
  destruct c as [[] [] [] [] [] [] [] []]; vm_compute; reflexivity.
Qed.

(** X27.  The character class of [isValidSolanaAddress] is the Base58
    alphabet: an address is accepted exactly when it has 32 to 44
    characters, all of them Base58 characters. *)
Theorem isValidSolanaAddress_base58 (address : string) :
  Format.isValidSolanaAddress address = true
  ↔ (32 <= String.length address <= 44)%nat
    ∧ ∀ c, In c (String.list_ascii_of_string address) →
           In c (String.list_ascii_of_string base58_alphabet).
Proof.
  unfold Format.isValidSolanaAddress.
  rewrite !andb_true_iff, !Nat.leb_le, forallb_forall.
  assert (Hc : ∀ c, Format.address_char c = true
                    ↔ In c (String.list_ascii_of_string base58_alphabet)).
  { intros c. rewrite address_char_base58, existsb_exists. split.
    - by intros (c' & Hin & ->%Ascii.eqb_eq).
    - intros Hin. exists c. split; [done | apply Ascii.eqb_refl]. }
  split.
  - intros [Hlen Hall]. split; [lia|]. intros c Hin. by apply Hc, Hall.
  - intros [Hlen Hall]. split; [lia|]. intros c Hin. by apply Hc, Hall.
Qed.

(** ** One daily cycle *)

Lemma analyzeTokens_Permutation
    (getTokenHistory : string → nat → list Token.t) (tokens : list Token.t) :
  map PerformanceAnalyzer.current (Tracker.analyzeTokens getTokenHistory tokens)
  ≡ₚ tokens.
Proof.
  unfold Tracker.analyzeTokens, PerformanceAnalyzer.rankTokens. cbv zeta.
  rewrite (imap_set_rank_map PerformanceAnalyzer.current (λ i, (i + 1)%nat))
    by done.
  rewrite (sort_Permutation PerformanceAnalyzer.score).
  rewrite <- list_fmap_compose. by rewrite list_fmap_id.
Qed.

(** X28.  A daily cycle deduplicates what it collected and analyses the
    result: the ranked batch then holds exactly one analysis per identity
    collected. *)
Theorem daily_cycle_one_analysis_per_identity
    (getTokenHistory : string → nat → list Token.t)
    (collected : list Token.t) :
  let ranked :=
    Tracker.analyzeTokens getTokenHistory
      (Tracker.deduplicateTokens collected) in
  let ids := map (λ a, Token.key (PerformanceAnalyzer.current a)) ranked in
  NoDup ids
  ∧ (∀ k, k ∈ ids ↔ k ∈ map Token.key collected)
  ∧ length ranked = length (JS.Set_.from (map Token.key collected)).
Proof.
  intros ranked ids.
  pose proof (analyzeTokens_Permutation getTokenHistory
                (Tracker.deduplicateTokens collected)) as Hperm.
  fold ranked in Hperm.
  destruct (dedupe_state collected) as [Hseen Hfrom]. cbv zeta in Hseen, Hfrom.
  fold (Tracker.deduplicateTokens collected) in Hseen.
  rewrite Hfrom in Hseen.
  destruct (Set_from_spec (map Token.key collected)) as [Hnd Hin].
  assert (Hids : ids ≡ₚ JS.Set_.from (map Token.key collected)).
  { unfold ids. rewrite Hseen, <- Hperm. by rewrite <- list_fmap_compose. }
  split; [by rewrite Hids|].
  split; [intros k; by rewrite Hids|].
  apply Permutation_length in Hids. unfold ids in Hids.
  by rewrite length_map in Hids.
Qed.
